(** * SafeSpeak: the report analyzer (backend/src/services/geminiService.js)

    A shallow embedding of [analyzeReport], [getFallbackResponse] and
    [getAIStatus], together with the pieces of the JavaScript runtime they
    rely on: strings as sequences of UTF-16 code units, the values produced by
    [JSON.parse], truthiness, property access, the regular expression
    [/\{[\s\S]*\}/], exceptions with [try]/[catch], and the race between the
    model call and the 30 second timer. *)

From Stdlib Require Import List NArith ZArith Bool String Ascii Lia.
Import ListNotations.

Set Warnings "-register-all".

(** ** JavaScript strings *)

(** A JavaScript string is a sequence of UTF-16 code units. *)
Definition jsstring := list N.

(** Literals of the source are written as Rocq strings; a backquote in such a
    literal stands for the double quote (code unit 34).  The literals of
    geminiService.js that reach a result are ASCII and none contains a
    backquote. *)
Definition code_unit (a : ascii) : N :=
  if Ascii.eqb a "`"%char then 34%N else N_of_ascii a.

Definition lit (s : string) : jsstring :=
  List.map code_unit (list_ascii_of_string s).

Fixpoint jsstring_eqb (a b : jsstring) : bool :=
  match a, b with
  | [], [] => true
  | x :: a', y :: b' => N.eqb x y && jsstring_eqb a' b'
  | _, _ => false
  end.

(** Lines of a template literal, each one followed by a line feed. *)
Fixpoint unlines (ls : list jsstring) : jsstring :=
  match ls with
  | [] => []
  | l :: r => l ++ 10%N :: unlines r
  end.

(** ** JavaScript values *)

(** A number literal of a JSON text, kept as the decimal it denotes:
    (-1)^neg * mant * 10^exp10.  The engine rounds it to a double; the only
    consequence of rounding the analyzer can observe is whether the number is
    zero, which [number_is_zero] decides. *)
Record number := { neg : bool; mant : N; exp10 : Z }.

(** A decimal rounds to +0 or -0 exactly when its magnitude is at most
    2^-1075, half of the smallest subnormal double (ties go to even). *)
Definition number_is_zero (n : number) : bool :=
  N.eqb (mant n) 0
  || (Z.ltb (exp10 n) 0
      && Z.leb (Z.of_N (mant n) * 2 ^ 1075) (10 ^ (- exp10 n))).

Inductive value :=
| VUndefined
| VNull
| VBool (b : bool)
| VNumber (n : number)
| VString (s : jsstring)
| VArray (l : list value)
| VObject (m : list (jsstring * value)).

(** ToBoolean. *)
Definition truthy (v : value) : bool :=
  match v with
  | VUndefined | VNull => false
  | VBool b => b
  | VNumber n => negb (number_is_zero n)
  | VString s => match s with [] => false | _ => true end
  | VArray _ | VObject _ => true
  end.

(** [a || b]. *)
Definition js_or (a b : value) : value := if truthy a then a else b.

(** The own properties of an object built by [JSON.parse], in source order;
    of two members with the same key the later one wins. *)
Fixpoint lookup (k : jsstring) (m : list (jsstring * value)) : option value :=
  match m with
  | [] => None
  | (k', v) :: r =>
      match lookup k r with
      | Some v' => Some v'
      | None => if jsstring_eqb k k' then Some v else None
      end
  end.

(** ** Exceptions *)

Inductive js_error :=
| Error (message : jsstring)   (* new Error(message) *)
| SyntaxError                  (* raised by JSON.parse *)
| TypeError.                   (* raised by a property read on null or
                                  undefined, or a call of a non-function *)

Inductive completion (A : Type) :=
| Return (a : A)
| Throw (e : js_error).
Arguments Return {A} a.
Arguments Throw {A} e.

(** [o.k] for the keys [analyzeReport] reads (category, severity, summary,
    suggestions, type, name, description, contact): no built-in prototype
    defines any of them, so on a primitive or an array the read is
    [undefined]; on [null] and [undefined] it throws. *)
Definition get (o : value) (k : jsstring) : completion value :=
  match o with
  | VUndefined | VNull => Throw TypeError
  | VObject m =>
      Return (match lookup k m with Some v => v | None => VUndefined end)
  | _ => Return VUndefined
  end.

(** ** JSON.parse *)

Module Json.

Inductive token :=
| TLBrace | TRBrace | TLBracket | TRBracket | TColon | TComma
| TString (s : jsstring)
| TNumber (n : number)
| TTrue | TFalse | TNull.

(** Where the scanner stands inside a number:
    -? (0 | [1-9][0-9]* ) (. [0-9]+)? ([eE] [+-]? [0-9]+)? *)
Inductive numphase :=
| NMinus | NZero | NInt | NDot | NFrac | NExpMark | NExpSign | NExpDigits.

Record numacc :=
  { a_neg : bool; a_mant : N; a_frac : N; a_eneg : bool; a_exp : N }.

Inductive lstate :=
| LStart
| LLit (expect : jsstring) (t : token)      (* rest of true, false, null *)
| LStr (acc : jsstring)                     (* inside a string, reversed *)
| LEsc (acc : jsstring)                     (* after a backslash *)
| LHex (acc : jsstring) (todo : nat) (code : N)   (* inside \uXXXX *)
| LNum (p : numphase) (a : numacc).

Definition is_ws (c : N) : bool :=
  N.eqb c 32 || N.eqb c 9 || N.eqb c 10 || N.eqb c 13.

Definition is_digit (c : N) : bool := N.leb 48 c && N.leb c 57.

Definition is_e (c : N) : bool := N.eqb c 101 || N.eqb c 69.

Definition hex_val (c : N) : option N :=
  if is_digit c then Some (c - 48)%N
  else if N.leb 97 c && N.leb c 102 then Some (c - 87)%N
  else if N.leb 65 c && N.leb c 70 then Some (c - 55)%N
  else None.

Definition acc0 (n : bool) (m : N) : numacc :=
  {| a_neg := n; a_mant := m; a_frac := 0; a_eneg := false; a_exp := 0 |}.

Definition push_int (a : numacc) (c : N) : numacc :=
  {| a_neg := a_neg a; a_mant := (a_mant a * 10 + (c - 48))%N;
     a_frac := a_frac a; a_eneg := a_eneg a; a_exp := a_exp a |}.

Definition push_frac (a : numacc) (c : N) : numacc :=
  {| a_neg := a_neg a; a_mant := (a_mant a * 10 + (c - 48))%N;
     a_frac := (a_frac a + 1)%N; a_eneg := a_eneg a; a_exp := a_exp a |}.

Definition push_exp (a : numacc) (c : N) : numacc :=
  {| a_neg := a_neg a; a_mant := a_mant a; a_frac := a_frac a;
     a_eneg := a_eneg a; a_exp := (a_exp a * 10 + (c - 48))%N |}.

Definition exp_negative (a : numacc) : numacc :=
  {| a_neg := a_neg a; a_mant := a_mant a; a_frac := a_frac a;
     a_eneg := true; a_exp := a_exp a |}.

Definition finish (a : numacc) : number :=
  {| neg := a_neg a; mant := a_mant a;
     exp10 := ((if a_eneg a then - Z.of_N (a_exp a) else Z.of_N (a_exp a))
               - Z.of_N (a_frac a))%Z |}.

(** One more character of a number, or [None] when [c] is no part of it. *)
Definition num_step (p : numphase) (a : numacc) (c : N)
  : option (numphase * numacc) :=
  match p with
  | NMinus =>
      if N.eqb c 48 then Some (NZero, a)
      else if is_digit c then Some (NInt, push_int a c) else None
  | NZero =>
      if N.eqb c 46 then Some (NDot, a)
      else if is_e c then Some (NExpMark, a) else None
  | NInt =>
      if is_digit c then Some (NInt, push_int a c)
      else if N.eqb c 46 then Some (NDot, a)
      else if is_e c then Some (NExpMark, a) else None
  | NDot => if is_digit c then Some (NFrac, push_frac a c) else None
  | NFrac =>
      if is_digit c then Some (NFrac, push_frac a c)
      else if is_e c then Some (NExpMark, a) else None
  | NExpMark =>
      if N.eqb c 43 then Some (NExpSign, a)
      else if N.eqb c 45 then Some (NExpSign, exp_negative a)
      else if is_digit c then Some (NExpDigits, push_exp a c) else None
  | NExpSign => if is_digit c then Some (NExpDigits, push_exp a c) else None
  | NExpDigits => if is_digit c then Some (NExpDigits, push_exp a c) else None
  end.

(** The phases in which a number may end. *)
Definition num_final (p : numphase) : bool :=
  match p with
  | NZero | NInt | NFrac | NExpDigits => true
  | _ => false
  end.

(** A character met between tokens. *)
Definition lex_start (c : N) : option (list token * lstate) :=
  if is_ws c then Some ([], LStart)
  else if N.eqb c 123 then Some ([TLBrace], LStart)
  else if N.eqb c 125 then Some ([TRBrace], LStart)
  else if N.eqb c 91 then Some ([TLBracket], LStart)
  else if N.eqb c 93 then Some ([TRBracket], LStart)
  else if N.eqb c 58 then Some ([TColon], LStart)
  else if N.eqb c 44 then Some ([TComma], LStart)
  else if N.eqb c 34 then Some ([], LStr [])
  else if N.eqb c 116 then Some ([], LLit (lit "rue") TTrue)
  else if N.eqb c 102 then Some ([], LLit (lit "alse") TFalse)
  else if N.eqb c 110 then Some ([], LLit (lit "ull") TNull)
  else if N.eqb c 45 then Some ([], LNum NMinus (acc0 true 0))
  else if N.eqb c 48 then Some ([], LNum NZero (acc0 false 0))
  else if is_digit c then Some ([], LNum NInt (acc0 false (c - 48)))
  else None.

Definition lex_escape (acc : jsstring) (c : N) : option lstate :=
  if N.eqb c 34 then Some (LStr (34 :: acc))%N
  else if N.eqb c 92 then Some (LStr (92 :: acc))%N
  else if N.eqb c 47 then Some (LStr (47 :: acc))%N
  else if N.eqb c 98 then Some (LStr (8 :: acc))%N
  else if N.eqb c 102 then Some (LStr (12 :: acc))%N
  else if N.eqb c 110 then Some (LStr (10 :: acc))%N
  else if N.eqb c 114 then Some (LStr (13 :: acc))%N
  else if N.eqb c 116 then Some (LStr (9 :: acc))%N
  else if N.eqb c 117 then Some (LHex acc 4 0)
  else None.

Definition lex_step (st : lstate) (c : N) : option (list token * lstate) :=
  match st with
  | LStart => lex_start c
  | LLit expect t =>
      match expect with
      | [] => None
      | e :: rest =>
          if N.eqb c e
          then match rest with
               | [] => Some ([t], LStart)
               | _ => Some ([], LLit rest t)
               end
          else None
      end
  | LStr acc =>
      if N.eqb c 34 then Some ([TString (rev acc)], LStart)
      else if N.eqb c 92 then Some ([], LEsc acc)
      else if N.ltb c 32 then None
      else Some ([], LStr (c :: acc))
  | LEsc acc =>
      match lex_escape acc c with
      | Some st' => Some ([], st')
      | None => None
      end
  | LHex acc todo code =>
      match hex_val c, todo with
      | Some h, 1%nat => Some ([], LStr ((code * 16 + h)%N :: acc))
      | Some h, S todo' => Some ([], LHex acc todo' (code * 16 + h)%N)
      | _, _ => None
      end
  | LNum p a =>
      match num_step p a c with
      | Some (p', a') => Some ([], LNum p' a')
      | None =>
          if num_final p
          then match lex_start c with
               | Some (ts, st') => Some (TNumber (finish a) :: ts, st')
               | None => None
               end
          else None
      end
  end.

Definition lex_end (st : lstate) : option (list token) :=
  match st with
  | LStart => Some []
  | LNum p a => if num_final p then Some [TNumber (finish a)] else None
  | _ => None
  end.

Fixpoint lex (st : lstate) (cs : jsstring) : option (list token) :=
  match cs with
  | [] => lex_end st
  | c :: r =>
      match lex_step st c with
      | None => None
      | Some (ts, st') =>
          match lex st' r with
          | None => None
          | Some ts' => Some (ts ++ ts')
          end
      end
  end.

(** The containers that are open while the tokens are read. *)
Inductive frame :=
| FArray (acc : list value)
| FObject (acc : list (jsstring * value)) (key : option jsstring).

Inductive pmode :=
| PValue      (* a value must follow *)
| PArrFirst   (* after [: a value or ] *)
| PObjFirst   (* after {: a key or } *)
| PKey        (* after a comma in an object: a key *)
| PColon      (* after a key: a colon *)
| PAfter      (* after a value inside a container: a comma or the end *)
| PDone (v : value).

Definition pstate := (pmode * list frame)%type.

(** A complete value goes to the innermost open container. *)
Definition push_value (v : value) (stack : list frame) : option pstate :=
  match stack with
  | [] => Some (PDone v, [])
  | FArray acc :: r => Some (PAfter, FArray (v :: acc) :: r)
  | FObject acc (Some k) :: r => Some (PAfter, FObject ((k, v) :: acc) None :: r)
  | FObject _ None :: _ => None
  end.

Definition start_value (t : token) (stack : list frame) : option pstate :=
  match t with
  | TString s => push_value (VString s) stack
  | TNumber n => push_value (VNumber n) stack
  | TTrue => push_value (VBool true) stack
  | TFalse => push_value (VBool false) stack
  | TNull => push_value VNull stack
  | TLBracket => Some (PArrFirst, FArray [] :: stack)
  | TLBrace => Some (PObjFirst, FObject [] None :: stack)
  | _ => None
  end.

Definition parse_step (st : pstate) (t : token) : option pstate :=
  let (mode, stack) := st in
  match mode with
  | PValue => start_value t stack
  | PArrFirst =>
      match t, stack with
      | TRBracket, FArray _ :: r => push_value (VArray []) r
      | _, _ => start_value t stack
      end
  | PObjFirst =>
      match t, stack with
      | TRBrace, FObject _ _ :: r => push_value (VObject []) r
      | TString k, FObject acc _ :: r => Some (PColon, FObject acc (Some k) :: r)
      | _, _ => None
      end
  | PKey =>
      match t, stack with
      | TString k, FObject acc _ :: r => Some (PColon, FObject acc (Some k) :: r)
      | _, _ => None
      end
  | PColon =>
      match t with
      | TColon => Some (PValue, stack)
      | _ => None
      end
  | PAfter =>
      match t, stack with
      | TComma, FArray _ :: _ => Some (PValue, stack)
      | TRBracket, FArray acc :: r => push_value (VArray (rev acc)) r
      | TComma, FObject _ _ :: _ => Some (PKey, stack)
      | TRBrace, FObject acc _ :: r => push_value (VObject (rev acc)) r
      | _, _ => None
      end
  | PDone _ => None
  end.

Fixpoint parse_tokens (st : pstate) (ts : list token) : option value :=
  match ts with
  | [] => match st with (PDone v, _) => Some v | _ => None end
  | t :: r =>
      match parse_step st t with
      | Some st' => parse_tokens st' r
      | None => None
      end
  end.

(** [JSON.parse(text)]: the value, or a SyntaxError. *)
Definition parse (text : jsstring) : completion value :=
  match lex LStart text with
  | None => Throw SyntaxError
  | Some ts =>
      match parse_tokens (PValue, []) ts with
      | Some v => Return v
      | None => Throw SyntaxError
      end
  end.

End Json.

(** ** The regular expression of analyzeReport *)

(** The prefix of [s] that ends with the last [c] in it. *)
Fixpoint through_last (c : N) (s : jsstring) : option jsstring :=
  match s with
  | [] => None
  | x :: r =>
      match through_last c r with
      | Some p => Some (x :: p)
      | None => if N.eqb x c then Some [x] else None
      end
  end.

(** [text.match(/\{[\s\S]*\}/)]: the leftmost match, its star being greedy.
    A match starts at an opening brace and runs to the last closing brace
    behind it; start positions are tried from left to right. *)
Fixpoint match_braces (text : jsstring) : option jsstring :=
  match text with
  | [] => None
  | c :: r =>
      if N.eqb c 123
      then match through_last 125 r with
           | Some body => Some (c :: body)
           | None => match_braces r
           end
      else match_braces r
  end.

(** [text.substring(0, n)]. *)
Definition substring0 (n : nat) (text : jsstring) : jsstring := firstn n text.

(** ** Effects: console output, the network request, the timer *)

Inductive console_line :=
| Initialized                       (* Gemini AI service initialized *)
| KeyNotSet                         (* Gemini API key not set *)
| NotConfigured                     (* AI not configured, using fallback *)
| Sending                           (* Sending report to Gemini *)
| Completed                         (* AI analysis completed successfully *)
| ParseFailed (e : js_error)        (* Failed to parse AI response *)
| RawResponse (excerpt : jsstring)  (* Raw response *)
| ApiError (e : js_error).          (* Gemini API error *)

Inductive event :=
| Console (l : console_line)
| GenerateContent (prompt : jsstring)   (* the request to the model endpoint *)
| SetTimeout (ms : N).

(** A computation: the events it performs, in order, and how it completes. *)
Definition io (A : Type) : Type := (list event * completion A)%type.

Definition trace {A} (m : io A) : list event := fst m.
Definition outcome {A} (m : io A) : completion A := snd m.

Definition ret {A} (a : A) : io A := ([], Return a).
Definition throw {A} (e : js_error) : io A := ([], Throw e).
Definition lift {A} (c : completion A) : io A := ([], c).
Definition emit (ev : event) : io unit := ([ev], Return tt).

Definition bind {A B} (m : io A) (f : A -> io B) : io B :=
  match m with
  | (t, Return a) => let (t', c) := f a in (t ++ t', c)
  | (t, Throw e) => (t, Throw e)
  end.

(** [try { m } catch (e) { h e }]. *)
Definition try_catch {A} (m : io A) (h : js_error -> io A) : io A :=
  match m with
  | (t, Return a) => (t, Return a)
  | (t, Throw e) => let (t', c) := h e in (t ++ t', c)
  end.

Declare Scope io_scope.
Delimit Scope io_scope with io.
Notation "x <- m ;; k" := (bind m (fun x => k))
  (at level 61, m at next level, right associativity) : io_scope.
Notation "m ;; k" := (bind m (fun _ => k))
  (at level 61, right associativity) : io_scope.
Open Scope io_scope.

(** [xs.map(f)] on an array. *)
Fixpoint mapM {A B} (f : A -> io B) (xs : list A) : io (list B) :=
  match xs with
  | [] => ret []
  | x :: r => y <- f x ;; ys <- mapM f r ;; ret (y :: ys)
  end.

(** [v.map(f)]: only arrays have a callable [map] among the values of a
    parsed JSON text. *)
Definition array_map {B} (v : value) (f : value -> io B) : io (list B) :=
  match v with
  | VArray l => mapM f l
  | _ => throw TypeError
  end.

(** ** The model client *)

(** The client is the SDK's: its promises reject with Error objects, the
    [response] of a fulfilled call is a plain object (awaiting it is
    immediate), and [response.text()] returns a string or throws. *)
Inductive response :=
| TextOf (text : jsstring)
| TextThrows (e : js_error).

Inductive settled :=
| Fulfilled (r : response)
| Rejected (e : js_error).

(** The promise returned by [model.generateContent]: settled [ms]
    milliseconds after the call, or never. *)
Inductive model_call :=
| Settles (ms : N) (s : settled)
| Pending.

Record Model := { generateContent : jsstring -> model_call }.

Definition timeout_error : js_error := Error (lit "AI request timed out").

(** [await Promise.race([resultPromise, timeoutPromise])] with the timer set
    to [ms] milliseconds.  A promise that settles in the very millisecond the
    timer fires is taken to win; which one the event loop serves first is not
    determined by the source. *)
Definition race (p : model_call) (ms : N) : completion response :=
  match p with
  | Settles t s =>
      if N.leb t ms
      then match s with
           | Fulfilled r => Return r
           | Rejected e => Throw e
           end
      else Throw timeout_error
  | Pending => Throw timeout_error
  end.

Definition text_of (r : response) : completion jsstring :=
  match r with
  | TextOf text => Return text
  | TextThrows e => Throw e
  end.

(** ** config/env.js *)

(** [process.env[name] || defaultValue]. *)
Definition optionalEnv (env : jsstring -> option jsstring)
  (name defaultValue : jsstring) : jsstring :=
  match env name with
  | Some (c :: s) => c :: s
  | _ => defaultValue
  end.

Definition geminiApiKey (env : jsstring -> option jsstring) : jsstring :=
  optionalEnv env (lit "GEMINI_API_KEY") [].

(** ** services/geminiService.js *)

(** The module's [model] variable after the module has been loaded:
    [sdk key] stands for
    [new GoogleGenerativeAI(key).getGenerativeModel({ model: ... })]. *)
Definition initModel (env : jsstring -> option jsstring)
  (sdk : jsstring -> Model) : io (option Model) :=
  if truthy (VString (geminiApiKey env))
  then emit (Console Initialized) ;; ret (Some (sdk (geminiApiKey env)))
  else emit (Console KeyNotSet) ;; ret None.

Definition ANALYSIS_PROMPT : jsstring :=
  unlines
    [
     lit "You are a compassionate safety analyst helping anonymous reporters.";
     lit "Analyze the following incident report and provide structured guidance.";
     [];
     lit "IMPORTANT RULES:";
     lit "- Be supportive and non-judgmental";
     lit "- Focus on actionable next steps";
     lit "- Suggest relevant resources (NGOs, legal aid, hotlines)";
     lit "- Keep suggestions practical and accessible";
     [];
     lit "Respond ONLY with valid JSON in this exact format:";
     lit "{";
     lit "  `category`: `harassment` | `corruption` | `abuse` | `discrimination` | `other`,";
     lit "  `severity`: `low` | `medium` | `high` | `critical`,";
     lit "  `summary`: `Brief 1-2 sentence summary of the incident`,";
     lit "  `suggestions`: [";
     lit "    {";
     lit "      `type`: `ngo` | `legal` | `hotline` | `journalist` | `government`,";
     lit "      `name`: `Organization or resource name`,";
     lit "      `description`: `Brief description of how they can help`,";
     lit "      `contact`: `Website, phone, or email`";
     lit "    }";
     lit "  ]";
     lit "}";
     [];
     lit "CATEGORY GUIDELINES:";
     lit "- harassment: Workplace bullying, sexual harassment, intimidation";
     lit "- corruption: Bribery, fraud, misuse of power, financial crimes";
     lit "- abuse: Physical, emotional, or psychological harm";
     lit "- discrimination: Bias based on race, gender, religion, disability, etc.";
     lit "- other: Doesn't fit above categories";
     [];
     lit "SEVERITY GUIDELINES:";
     lit "- low: Minor issues, no immediate danger";
     lit "- medium: Significant concern, should be addressed soon";
     lit "- high: Serious situation, needs prompt attention";
     lit "- critical: Immediate danger or ongoing harm";
     [];
     lit "INCIDENT REPORT:"
    ].

Record Suggestion :=
  { type : value; name : value; description : value; contact : value }.

Record AnalysisResult :=
  { aiAnalyzed : bool;
    aiCategory : value;
    aiSeverity : value;
    aiSummary : value;
    aiSuggestions : list Suggestion }.

Definition getFallbackResponse : AnalysisResult :=
  {| aiAnalyzed := false;
     aiCategory := VString (lit "unknown");
     aiSeverity := VString (lit "unknown");
     aiSummary := VString (lit "Your report has been received. Our automated analysis is temporarily unavailable, but your report will be reviewed by our team.");
     aiSuggestions :=
       [ {| type := VString (lit "hotline");
            name := VString (lit "National Human Rights Helpline");
            description := VString (lit "General support for human rights issues");
            contact := VString (lit "1800-XXX-XXXX (toll-free)") |};
         {| type := VString (lit "ngo");
            name := VString (lit "Local Support Services");
            description := VString (lit "Connect with local NGOs that can provide guidance");
            contact := VString (lit "Visit your local community center") |};
         {| type := VString (lit "legal");
            name := VString (lit "Free Legal Aid");
            description := VString (lit "Many areas offer free legal consultation");
            contact := VString (lit "Search `free legal aid` + your location") |} ] |}.

Definition timeoutMs : N := 30000.

(** The callback of [analysis.suggestions.map]. *)
Definition normalize_suggestion (s : value) : io Suggestion :=
  t <- lift (get s (lit "type")) ;;
  n <- lift (get s (lit "name")) ;;
  d <- lift (get s (lit "description")) ;;
  c <- lift (get s (lit "contact")) ;;
  ret {| type := js_or t (VString (lit "other"));
         name := js_or n (VString (lit "Resource"));
         description := js_or d (VString []);
         contact := js_or c (VString []) |}.

(** [!analysis.category || !analysis.severity || !analysis.suggestions]. *)
Definition missing_required (analysis : value) : io bool :=
  category <- lift (get analysis (lit "category")) ;;
  if negb (truthy category) then ret true
  else
    severity <- lift (get analysis (lit "severity")) ;;
    if negb (truthy severity) then ret true
    else
      suggestions <- lift (get analysis (lit "suggestions")) ;;
      ret (negb (truthy suggestions)).

(** The body of the inner [try] of [analyzeReport]. *)
Definition parse_response (text : jsstring) : io AnalysisResult :=
  match match_braces text with
  | None => throw (Error (lit "No JSON found in response"))
  | Some jsonMatch =>
      analysis <- lift (Json.parse jsonMatch) ;;
      missing <- missing_required analysis ;;
      if missing
      then throw (Error (lit "Missing required fields in AI response"))
      else
        emit (Console Completed) ;;
        category <- lift (get analysis (lit "category")) ;;
        severity <- lift (get analysis (lit "severity")) ;;
        summary <- lift (get analysis (lit "summary")) ;;
        suggestions <- lift (get analysis (lit "suggestions")) ;;
        mapped <- array_map suggestions normalize_suggestion ;;
        ret {| aiAnalyzed := true;
               aiCategory := category;
               aiSeverity := severity;
               aiSummary := js_or summary (VString (lit "Analysis completed"));
               aiSuggestions := mapped |}
  end.

(** [analyzeReport(description)], the module's [model] variable being passed
    in.  The promise of the asynchronous function is fulfilled with [Return]
    and rejected with [Throw]. *)
Definition analyzeReport (model : option Model) (description : jsstring)
  : io AnalysisResult :=
  match model with
  | None =>
      emit (Console NotConfigured) ;;
      ret getFallbackResponse
  | Some m =>
      try_catch
        (emit (Console Sending) ;;
         let fullPrompt := ANALYSIS_PROMPT ++ description in
         emit (GenerateContent fullPrompt) ;;
         let resultPromise := generateContent m fullPrompt in
         emit (SetTimeout timeoutMs) ;;
         result <- lift (race resultPromise timeoutMs) ;;
         text <- lift (text_of result) ;;
         try_catch (parse_response text)
           (fun parseError =>
              emit (Console (ParseFailed parseError)) ;;
              emit (Console (RawResponse (substring0 200 text ++ lit "..."))) ;;
              ret getFallbackResponse))
        (fun error =>
           emit (Console (ApiError error)) ;;
           ret getFallbackResponse)
  end.

Record AIStatus :=
  { configured : bool; provider : jsstring; model : jsstring }.

(** [getAIStatus()]. *)
Definition getAIStatus (model : option Model) : io AIStatus :=
  ret {| configured := match model with Some _ => true | None => false end;
         provider := lit "Google Gemini";
         model := lit "gemini-2.5-flash" |}.

(** ** Reading the embedding *)

(** The value of [o.k] when the read does not throw. *)
Definition field (o : value) (k : jsstring) : value :=
  match get o k with
  | Return v => v
  | Throw _ => VUndefined
  end.

Definition nullish (v : value) : bool :=
  match v with
  | VUndefined | VNull => true
  | _ => false
  end.

(** What [normalize_suggestion] returns on a value that is not nullish. *)
Definition normalized (s : value) : Suggestion :=
  {| type := js_or (field s (lit "type")) (VString (lit "other"));
     name := js_or (field s (lit "name")) (VString (lit "Resource"));
     description := js_or (field s (lit "description")) (VString []);
     contact := js_or (field s (lit "contact")) (VString []) |}.

(** The object literal returned on success. *)
Definition success_result (analysis : value) (elems : list value)
  : AnalysisResult :=
  {| aiAnalyzed := true;
     aiCategory := field analysis (lit "category");
     aiSeverity := field analysis (lit "severity");
     aiSummary := js_or (field analysis (lit "summary"))
                    (VString (lit "Analysis completed"));
     aiSuggestions := List.map normalized elems |}.

(** The model answered [text] before the timer fired. *)
Definition responded (m : Model) (description text : jsstring) : Prop :=
  exists t,
    generateContent m (ANALYSIS_PROMPT ++ description)
      = Settles t (Fulfilled (TextOf text))
    /\ (t <= timeoutMs)%N.

(** The number of requests sent to the model endpoint. *)
Definition network_calls (t : list event) : nat :=
  List.length
    (filter (fun ev => match ev with GenerateContent _ => true | _ => false end)
       t).

Definition string_length (v : value) : option nat :=
  match v with
  | VString s => Some (List.length s)
  | _ => None
  end.

(** The enumerations of the prompt and of the Report schema. *)
Definition categories : list value :=
  List.map (fun s => VString (lit s))
    ["harassment"; "corruption"; "abuse"; "discrimination"; "other"]%string.

Definition severities : list value :=
  List.map (fun s => VString (lit s))
    ["low"; "medium"; "high"; "critical"]%string.

Definition suggestion_types : list value :=
  List.map (fun s => VString (lit s))
    ["ngo"; "legal"; "hotline"; "journalist"; "government"]%string.

Definition required_fields : list jsstring :=
  [lit "category"; lit "severity"; lit "suggestions"].

(** A model whose every call settles the same way. *)
Definition constant_model (c : model_call) : Model :=
  {| generateContent := fun _ => c |}.

(** A model that answers [text] after 1.2 seconds. *)
Definition answering (text : jsstring) : option Model :=
  Some (constant_model (Settles 1200 (Fulfilled (TextOf text)))).

(** How the inner try block completes once the match has been parsed. *)
Definition validated (analysis : value) : completion AnalysisResult :=
  if nullish analysis then Throw TypeError
  else if truthy (field analysis (lit "category"))
          && truthy (field analysis (lit "severity"))
          && truthy (field analysis (lit "suggestions"))
  then match field analysis (lit "suggestions") with
       | VArray elems =>
           if existsb nullish elems then Throw TypeError
           else Return (success_result analysis elems)
       | _ => Throw TypeError
       end
  else Throw (Error (lit "Missing required fields in AI response")).

(** The model call does not settle within the timeout bound. *)
Definition overdue (p : model_call) : Prop :=
  match p with
  | Settles t _ => (timeoutMs < t)%N
  | Pending => True
  end.

(** The ways an analysis can fail. *)
Inductive failure_mode (model : option Model) (description : jsstring)
  : Prop :=
| not_configured :
    model = None ->
    failure_mode model description
| transport_failure (m : Model) (t : N) (e : js_error) :
    model = Some m ->
    generateContent m (ANALYSIS_PROMPT ++ description)
      = Settles t (Rejected e) ->
    failure_mode model description
| response_unreadable (m : Model) (t : N) (e : js_error) :
    model = Some m ->
    generateContent m (ANALYSIS_PROMPT ++ description)
      = Settles t (Fulfilled (TextThrows e)) ->
    failure_mode model description
| timed_out (m : Model) :
    model = Some m ->
    overdue (generateContent m (ANALYSIS_PROMPT ++ description)) ->
    failure_mode model description
| no_json_found (m : Model) (text : jsstring) :
    model = Some m ->
    responded m description text ->
    match_braces text = None ->
    failure_mode model description
| unparsable_json (m : Model) (text jsonMatch : jsstring) (e : js_error) :
    model = Some m ->
    responded m description text ->
    match_braces text = Some jsonMatch ->
    Json.parse jsonMatch = Throw e ->
    failure_mode model description
| field_missing (m : Model) (text jsonMatch : jsstring)
    (members : list (jsstring * value)) (k : jsstring) :
    model = Some m ->
    responded m description text ->
    match_braces text = Some jsonMatch ->
    Json.parse jsonMatch = Return (VObject members) ->
    In k required_fields ->
    lookup k members = None ->
    failure_mode model description.

(** A suggestion keeps every field the model supplied. *)
Definition preserves (s : value) (sg : Suggestion) : Prop :=
  (truthy (field s (lit "type")) = true -> type sg = field s (lit "type"))
  /\ (truthy (field s (lit "name")) = true -> name sg = field s (lit "name"))
  /\ (truthy (field s (lit "description")) = true
      -> description sg = field s (lit "description"))
  /\ (truthy (field s (lit "contact")) = true
      -> contact sg = field s (lit "contact")).

(** [a || b], case by case. *)
Definition defaulted (supplied fallback result : value) : Prop :=
  (truthy supplied = true -> result = supplied)
  /\ (truthy supplied = false -> result = fallback).

(** The parser's stack rests on an object. *)
Fixpoint rests_on_object (stack : list Json.frame) : bool :=
  match stack with
  | [] => false
  | [Json.FObject _ _] => true
  | [Json.FArray _] => false
  | _ :: r => rests_on_object r
  end.

Definition is_object (v : value) : bool :=
  match v with
  | VObject _ => true
  | _ => false
  end.

Definition builds_object (st : Json.pstate) : bool :=
  match st with
  | (Json.PDone v, _) => is_object v
  | (_, stack) => rests_on_object stack
  end.

(** ** Sample inputs *)

Definition report : jsstring := lit "My manager threatens me every day.".

Definition harassment_response : jsstring :=
  lit "{`category`:`harassment`,`severity`:`high`,`summary`:`...`,`suggestions`:[{`type`:`legal`,`name`:`X`,`description`:`Y`,`contact`:`Z`}]}".

Definition prose_response : jsstring :=
  lit "Here you go: {`category`:`abuse`,`severity`:`low`,`suggestions`:[]}".

Definition missing_severity_response : jsstring :=
  lit "{`category`:`abuse`,`suggestions`:[]}".

Definition empty_category_response : jsstring :=
  lit "{`category`:``,`severity`:`low`,`suggestions`:[]}".

Definition bogus_enum_response : jsstring :=
  lit "{`category`:`gossip`,`severity`:`extreme`,`suggestions`:[]}".

Definition bogus_type_response : jsstring :=
  lit "{`category`:`abuse`,`severity`:`low`,`suggestions`:[{`type`:`bogus`,`name`:`X`}]}".

Definition long_summary_response : jsstring :=
  lit "{`category`:`abuse`,`severity`:`low`,`summary`:`"
  ++ repeat 97%N 501
  ++ lit "`,`suggestions`:[]}".

(** A well-formed object followed by prose that holds a closing brace. *)
Definition trailing_brace_response : jsstring :=
  lit "{`category`:`abuse`,`severity`:`low`,`suggestions`:[]} Stay safe :-}".

(** A well-formed object whose suggestion has the empty string as name. *)
Definition empty_name_response : jsstring :=
  lit "{`category`:`abuse`,`severity`:`low`,`suggestions`:[{`type`:`legal`,`name`:``,`description`:`Y`,`contact`:`Z`}]}".

Definition no_environment : jsstring -> option jsstring := fun _ => None.

Definition key_environment (key : jsstring) : jsstring -> option jsstring :=
  fun name => if jsstring_eqb name (lit "GEMINI_API_KEY") then Some key else None.

(** ** More sample inputs *)

Definition text_suggestions_response : jsstring :=
  lit "{`category`:`abuse`,`severity`:`low`,`suggestions`:`call a lawyer`}".

(** ** More of the string runtime *)

(** [s.startsWith(prefix)]. *)
Fixpoint starts_with (s prefix : jsstring) {struct prefix} : bool :=
  match prefix with
  | [] => true
  | p :: ps =>
      match s with
      | c :: cs => N.eqb c p && starts_with cs ps
      | [] => false
      end
  end.

(** [s.includes(sub)]. *)
Fixpoint includes (s sub : jsstring) : bool :=
  starts_with s sub
  || match s with
     | [] => false
     | _ :: r => includes r sub
     end.

(** [v === 'literal']. *)
Definition value_is (v : value) (s : jsstring) : bool :=
  match v with
  | VString s' => jsstring_eqb s' s
  | _ => false
  end.

(** ** config/env.js, the whole module *)

Module Env.

Definition environment := jsstring -> option jsstring.

Inductive line :=
| MissingVariable (name : jsstring)   (* Missing required environment variable *)
| PleaseSet (name : jsstring)         (* Please set ... in your .env file *)
| ConfigurationLoaded
| Port (port : jsstring)
| Environment (nodeEnv : jsstring)
| MongoDB (place : jsstring)          (* localhost or remote *)
| GeminiAPI (isSet : bool)            (* configured, or not set *)
| FrontendURL (url : jsstring).

(** The process goes on with a value, or has called [process.exit]. *)
Inductive process (A : Type) :=
| Running (a : A)
| Exited (code : N).
Arguments Running {A} a.
Arguments Exited {A} code.

Definition startup (A : Type) : Type := (list line * process A)%type.

Definition andThen {A B} (m : startup A) (f : A -> startup B) : startup B :=
  match m with
  | (t, Running a) => let (t', p) := f a in (t ++ t', p)
  | (t, Exited code) => (t, Exited code)
  end.

(** [requireEnv(name, defaultValue)]; the default may be left out. *)
Definition requireEnv (env : environment) (name : jsstring)
  (defaultValue : option jsstring) : startup jsstring :=
  let value :=
    match env name with
    | Some (c :: s) => Some (c :: s)
    | _ => defaultValue
    end in
  match value with
  | Some (c :: s) => ([], Running (c :: s))
  | _ => ([MissingVariable name; PleaseSet name], Exited 1)
  end.

Record Config :=
  { port : jsstring;
    nodeEnv : jsstring;
    mongodbUri : jsstring;
    jwtSecret : jsstring;
    jwtExpiresIn : jsstring;
    geminiApiKey : jsstring;
    frontendUrl : jsstring;
    isDevelopment : bool;
    isProduction : bool }.

(** The module body: the [config] object, then the log of what was loaded. *)
Definition load (env : environment) : startup Config :=
  andThen
    (requireEnv env (lit "MONGODB_URI")
       (Some (lit "mongodb://localhost:27017/safespeak")))
    (fun uri =>
  andThen
    (requireEnv env (lit "JWT_SECRET")
       (Some (lit "dev-secret-change-in-production")))
    (fun secret =>
  let config :=
    {| port := optionalEnv env (lit "PORT") (lit "5000");
       nodeEnv := optionalEnv env (lit "NODE_ENV") (lit "development");
       mongodbUri := uri;
       jwtSecret := secret;
       jwtExpiresIn := optionalEnv env (lit "JWT_EXPIRES_IN") (lit "24h");
       geminiApiKey := optionalEnv env (lit "GEMINI_API_KEY") [];
       frontendUrl :=
         optionalEnv env (lit "FRONTEND_URL") (lit "http://localhost:5173");
       isDevelopment :=
         jsstring_eqb
           (optionalEnv env (lit "NODE_ENV") (lit "development"))
           (lit "development");
       isProduction :=
         jsstring_eqb
           (optionalEnv env (lit "NODE_ENV") (lit "development"))
           (lit "production") |} in
  ([ConfigurationLoaded;
    Port config.(port);
    Environment config.(nodeEnv);
    MongoDB (if includes config.(mongodbUri) (lit "localhost")
             then lit "localhost" else lit "remote");
    GeminiAPI (truthy (VString config.(geminiApiKey)));
    FrontendURL config.(frontendUrl)],
   Running config))).

End Env.

Definition production_environment : Env.environment :=
  fun name =>
    if jsstring_eqb name (lit "NODE_ENV") then Some (lit "production")
    else if jsstring_eqb name (lit "PORT") then Some (lit "8080")
    else None.

Definition secret_environment (secret key : jsstring) : Env.environment :=
  fun name =>
    if jsstring_eqb name (lit "JWT_SECRET") then Some secret
    else if jsstring_eqb name (lit "GEMINI_API_KEY") then Some key
    else if jsstring_eqb name (lit "NODE_ENV") then Some (lit "test")
    else None.

(** ** config/database.js *)

Module Database.

(** The module's two variables: [isConnected] and [connectionError], which
    is null or the message of an error. *)
Record state :=
  { isConnected : bool;
    connectionError : option jsstring }.

Definition initial : state :=
  {| isConnected := false; connectionError := None |}.

(** What one call of [mongoose.connect] does: it resolves, or it rejects
    with an Error carrying a message. *)
Inductive attempt_result :=
| Connected
| Failed (message : jsstring).

Inductive event :=
| LogConnecting (attempt maxRetries : N)
| Connect (uri : jsstring) (serverSelectionTimeoutMS heartbeatFrequencyMS : N)
| LogConnected
| Listen (name : jsstring)          (* mongoose.connection.on(name, ...) *)
| LogFailed (message : jsstring)
| LogRetrying (seconds : N)
| Sleep (ms : N)                    (* await a timer of ms milliseconds *)
| LogGaveUp
| LogStartsAnyway
| Close                             (* mongoose.connection.close() *)
| LogClosed.

Definition maxRetries : N := 5.
Definition retryDelay : N := 5000.

(** The loop of [connectDatabase], entered with [attempt] and [todo]
    iterations left before [attempt] exceeds [maxRetries].  [connect k] is
    what the k-th call of [mongoose.connect] does. *)
Fixpoint attempts (connect : N -> attempt_result) (uri : jsstring)
  (todo : nat) (attempt : N) (st : state) : list event * state * bool :=
  match todo with
  | O => ([LogGaveUp; LogStartsAnyway], st, false)
  | S todo' =>
      match connect attempt with
      | Connected =>
          ([LogConnecting attempt maxRetries;
            Connect uri 5000 10000;
            LogConnected;
            Listen (lit "disconnected");
            Listen (lit "reconnected");
            Listen (lit "error")],
           {| isConnected := true; connectionError := None |},
           true)
      | Failed message =>
          let st' := {| isConnected := isConnected st;
                        connectionError := Some message |} in
          let '(t, st'', ok) :=
            attempts connect uri todo' (attempt + 1) st' in
          ([LogConnecting attempt maxRetries;
            Connect uri 5000 10000;
            LogFailed message]
             ++ (if N.ltb attempt maxRetries
                 then [LogRetrying (retryDelay / 1000); Sleep retryDelay]
                 else [])
             ++ t,
           st'', ok)
      end
  end.

(** [connectDatabase()]. *)
Definition connectDatabase (connect : N -> attempt_result) (uri : jsstring)
  (st : state) : list event * state * bool :=
  attempts connect uri (N.to_nat maxRetries) 1 st.

(** The listeners registered after a successful connection. *)
Definition on_disconnected (st : state) : state :=
  {| isConnected := false; connectionError := connectionError st |}.

Definition on_reconnected (st : state) : state :=
  {| isConnected := true; connectionError := connectionError st |}.

Definition on_error (message : jsstring) (st : state) : state :=
  {| isConnected := isConnected st; connectionError := Some message |}.

Record status :=
  { s_isConnected : bool;
    s_error : option jsstring;
    s_readyState : N;
    s_readyStateText : jsstring }.

(** [getDatabaseStatus()]; [readyState] is [mongoose.connection.readyState]. *)
Definition getDatabaseStatus (st : state) (readyState : N) : status :=
  {| s_isConnected := isConnected st;
     s_error := connectionError st;
     s_readyState := readyState;
     s_readyStateText :=
       match nth_error
               [lit "disconnected"; lit "connected"; lit "connecting";
                lit "disconnecting"]
               (N.to_nat readyState)
       with
       | Some (c :: s) => c :: s
       | _ => lit "unknown"
       end |}.

(** [closeDatabase()]. *)
Definition closeDatabase (st : state) : list event :=
  if isConnected st then [Close; LogClosed] else [].

Definition connects (t : list event) : nat :=
  List.length
    (filter (fun ev => match ev with Connect _ _ _ => true | _ => false end) t).

(** The time spent waiting between attempts, in milliseconds. *)
Fixpoint slept (t : list event) : N :=
  match t with
  | [] => 0
  | Sleep ms :: r => ms + slept r
  | _ :: r => slept r
  end.

End Database.

(** ** HTTP responses *)

(** A number of the runtime that is a natural number. *)
Definition int (n : N) : value :=
  VNumber {| neg := false; mant := n; exp10 := 0 |}.

Module Http.

(** [res.status(status).json(json)]. *)
Record response := { status : value; json : value }.

End Http.

(** ** src/server.js *)

Module Server.

(** The [origin] function given to the cors middleware: it allows the
    origin, or refuses it with an Error. *)
Inductive cors_decision :=
| Allowed
| Refused (message : jsstring).

Definition corsOrigin (config : Env.Config) (origin : option jsstring)
  : cors_decision :=
  match origin with
  | None | Some [] => Allowed
  | Some origin =>
      if Env.isDevelopment config
         && (includes origin (lit "localhost")
             || includes origin (lit "127.0.0.1"))
      then Allowed
      else if jsstring_eqb origin (Env.frontendUrl config) then Allowed
      else if includes origin (lit "vercel.app") then Allowed
      else Refused (lit "Not allowed by CORS")
  end.

(** The handler of GET /health; [now] is [new Date().toISOString()]. *)
Definition health (config : Env.Config) (db : Database.state)
  (readyState : N) (model : option Model) (now : jsstring) : io Http.response :=
  let dbStatus := Database.getDatabaseStatus db readyState in
  aiStatus <- getAIStatus model ;;
  let isHealthy := Database.s_isConnected dbStatus in
  ret {| Http.status := if isHealthy then int 200 else int 503;
         Http.json :=
           VObject
             [(lit "status",
               VString (if isHealthy then lit "healthy" else lit "unhealthy"));
              (lit "timestamp", VString now);
              (lit "services",
               VObject
                 [(lit "database",
                   VObject
                     [(lit "status",
                       VString (if Database.s_isConnected dbStatus
                                then lit "connected" else lit "disconnected"));
                      (lit "state",
                       VString (Database.s_readyStateText dbStatus))]);
                  (lit "ai",
                   VObject
                     [(lit "status",
                       VString (if configured aiStatus
                                then lit "configured"
                                else lit "not configured"));
                      (lit "provider", VString (provider aiStatus))])]);
              (lit "environment", VString (Env.nodeEnv config))] |}.

Inductive event :=
| LogBanner
| Db (ev : Database.event)
| LogWithoutDatabase
| ListenOn (port : jsstring)          (* app.listen(port, ...) *)
| LogRunning (port : jsstring).

(** [startServer()]. *)
Definition startServer (config : Env.Config)
  (connect : N -> Database.attempt_result) (db : Database.state)
  : list event * Database.state :=
  let '(t, db', dbConnected) :=
    Database.connectDatabase connect (Env.mongodbUri config) db in
  ([LogBanner]
     ++ List.map Db t
     ++ (if dbConnected then [] else [LogWithoutDatabase])
     ++ [ListenOn (Env.port config); LogRunning (Env.port config)],
   db').

End Server.

(** A connection that fails twice and then succeeds. *)
Definition third_time_lucky (attempt : N) : Database.attempt_result :=
  if N.ltb attempt 3 then Database.Failed (lit "ECONNREFUSED")
  else Database.Connected.

Definition never_up (attempt : N) : Database.attempt_result :=
  Database.Failed (lit "ECONNREFUSED").

(** ** More of the object runtime *)

Fixpoint digits (d : Decimal.uint) : jsstring :=
  match d with
  | Decimal.Nil => []
  | Decimal.D0 r => 48%N :: digits r
  | Decimal.D1 r => 49%N :: digits r
  | Decimal.D2 r => 50%N :: digits r
  | Decimal.D3 r => 51%N :: digits r
  | Decimal.D4 r => 52%N :: digits r
  | Decimal.D5 r => 53%N :: digits r
  | Decimal.D6 r => 54%N :: digits r
  | Decimal.D7 r => 55%N :: digits r
  | Decimal.D8 r => 56%N :: digits r
  | Decimal.D9 r => 57%N :: digits r
  end.

(** [String(n)] for a natural number. *)
Definition decimal (n : N) : jsstring := digits (N.to_uint n).

Fixpoint digits_value (acc : N) (s : jsstring) : option N :=
  match s with
  | [] => Some acc
  | c :: r =>
      if Json.is_digit c then digits_value (acc * 10 + (c - 48)) r else None
  end.

(** The array index a property key denotes, if it denotes one: a canonical
    decimal below 2^32 - 1. *)
Definition array_index (k : jsstring) : option N :=
  match k with
  | [] => None
  | [c] => if Json.is_digit c then Some (c - 48)%N else None
  | c :: _ =>
      if N.eqb c 48 then None
      else match digits_value 0 k with
           | Some n => if N.leb n 4294967294 then Some n else None
           | None => None
           end
  end.

Fixpoint mentions (k : jsstring) (ks : list jsstring) : bool :=
  match ks with
  | [] => false
  | k' :: r => jsstring_eqb k k' || mentions k r
  end.

(** The keys of a member list, each once, in the order of first mention. *)
Fixpoint distinct (seen : list jsstring) (ks : list jsstring)
  : list jsstring :=
  match ks with
  | [] => []
  | k :: r =>
      if mentions k seen then distinct seen r
      else k :: distinct (k :: seen) r
  end.

Fixpoint insert_index (i : N) (k : jsstring) (sorted : list (N * jsstring))
  : list (N * jsstring) :=
  match sorted with
  | [] => [(i, k)]
  | (j, k') :: r =>
      if N.leb i j then (i, k) :: sorted else (j, k') :: insert_index i k r
  end.

Fixpoint index_keys (ks : list jsstring) : list (N * jsstring) :=
  match ks with
  | [] => []
  | k :: r =>
      match array_index k with
      | Some i => insert_index i k (index_keys r)
      | None => index_keys r
      end
  end.

(** [Object.keys(o)] for an object given by its members: array indices in
    ascending order, then the other keys in the order of creation. *)
Definition own_keys (m : list (jsstring * value)) : list jsstring :=
  let ks := distinct [] (List.map fst m) in
  List.map snd (index_keys ks)
    ++ filter (fun k => match array_index k with Some _ => false | None => true end)
         ks.

Fixpoint upto (n : nat) : list N :=
  match n with
  | O => []
  | S n' => upto n' ++ [N.of_nat n']
  end.

(** [Object.keys(v)]; it throws on null and undefined. *)
Definition object_keys (v : value) : completion (list jsstring) :=
  match v with
  | VUndefined | VNull => Throw TypeError
  | VObject m => Return (own_keys m)
  | VArray l => Return (List.map decimal (upto (List.length l)))
  | VString s => Return (List.map decimal (upto (List.length s)))
  | VBool _ | VNumber _ => Return []
  end.

(** [Object.values(v)]. *)
Definition object_values (v : value) : completion (list value) :=
  match v with
  | VUndefined | VNull => Throw TypeError
  | VObject m =>
      Return (List.map (fun k => field (VObject m) k) (own_keys m))
  | VArray l => Return l
  | VString s => Return (List.map (fun c => VString [c]) s)
  | VBool _ | VNumber _ => Return []
  end.

(** [o.k = v] on an object given by its members: an existing property keeps
    its place, a new one goes last. *)
Fixpoint set_property (m : list (jsstring * value)) (k : jsstring) (v : value)
  : list (jsstring * value) :=
  match m with
  | [] => [(k, v)]
  | (k', v') :: r =>
      if jsstring_eqb k k'
      then (k', v)
             :: List.map
                  (fun kv => if jsstring_eqb k (fst kv) then (fst kv, v) else kv)
                  r
      else (k', v') :: set_property r k v
  end.

(** [parts.join(sep)] for parts that are strings. *)
Fixpoint join (sep : jsstring) (parts : list jsstring) : jsstring :=
  match parts with
  | [] => []
  | [p] => p
  | p :: r => p ++ sep ++ join sep r
  end.

(** The string an element contributes to [Array.prototype.join]: nothing
    for undefined and null, itself for a string, its name for a boolean.
    The text of a number, an array or an object is the engine's ToString,
    [toString], which returns the text or throws (ToString of an object
    runs the object's own conversion). *)
Definition join_part (toString : value -> completion jsstring) (v : value)
  : completion jsstring :=
  match v with
  | VUndefined | VNull => Return []
  | VString s => Return s
  | VBool true => Return (lit "true")
  | VBool false => Return (lit "false")
  | VNumber _ | VArray _ | VObject _ => toString v
  end.

(** The elements are converted from left to right: the first conversion
    that throws ends the join. *)
Fixpoint join_parts (toString : value -> completion jsstring)
  (vs : list value) : completion (list jsstring) :=
  match vs with
  | [] => Return []
  | v :: r =>
      match join_part toString v with
      | Throw e => Throw e
      | Return p =>
          match join_parts toString r with
          | Throw e => Throw e
          | Return ps => Return (p :: ps)
          end
      end
  end.

(** [n === 11000] for the double a decimal stands for: the decimals within
    2^-40 of 11000 round to it. *)
Definition is_11000 (n : number) : bool :=
  negb (neg n)
  && (if Z.leb 0 (exp10 n)
      then Z.eqb (Z.of_N (mant n) * 10 ^ exp10 n) 11000
      else Z.leb (Z.abs (Z.of_N (mant n) - 11000 * 10 ^ (- exp10 n)) * 2 ^ 40)
             (10 ^ (- exp10 n))).

(** ** src/utils/validation.js *)

Module Validation.

(** An issue of a ZodError: where, and what. *)
Inductive path_elem :=
| Key (k : jsstring)
| Index (i : N).

Record issue := { path : list path_elem; message : jsstring }.

(** What [schema.safeParse(data)] returns. *)
Inductive safe_parse (D : Type) :=
| Parsed (data : D)
| Rejected (issues : list issue).
Arguments Parsed {D} data.
Arguments Rejected {D} issues.

(** What [validate] returns: success with the data, or the error strings. *)
Inductive validation (D : Type) :=
| Valid (data : D)
| Invalid (errors : list jsstring).
Arguments Valid {D} data.
Arguments Invalid {D} errors.

Definition path_text (e : path_elem) : jsstring :=
  match e with
  | Key k => k
  | Index i => decimal i
  end.

(** The callback of [result.error.errors.map]. *)
Definition describe (err : issue) : jsstring :=
  match join (lit ".") (List.map path_text (path err)) with
  | [] => message err
  | c :: s => (c :: s) ++ lit ": " ++ message err
  end.

(** [validate(schema, data)]. *)
Definition validate {D} (schema : value -> safe_parse D) (data : value)
  : validation D :=
  match schema data with
  | Parsed d => Valid d
  | Rejected issues => Invalid (List.map describe issues)
  end.

End Validation.

(** ** src/middleware/errorHandler.js *)

Module ErrorHandler.

Inductive event :=
| LogError (message : value)   (* console.error of err.message *)
| LogStack (stack : value).    (* console.error of err.stack *)

(** The two variables the handler updates: [statusCode] and
    [errorResponse], an object given by its members. *)
Definition answer := (value * list (jsstring * value))%type.

(** The branch for a Mongoose validation error. *)
Definition validation_error (toString : value -> completion jsstring)
  (err : value) (a : answer) : completion answer :=
  if value_is (field err (lit "name")) (lit "ValidationError")
  then match object_values (field err (lit "errors")) with
       | Throw e => Throw e
       | Return es =>
           if existsb nullish es then Throw TypeError
           else
             let messages := List.map (fun e => field e (lit "message")) es in
             match join_parts toString messages with
             | Throw e => Throw e
             | Return parts =>
                 Return
                   (int 400,
                    [(lit "success", VBool false);
                     (lit "error", VString (lit "Validation Error"));
                     (lit "message", VString (join (lit ", ") parts));
                     (lit "details", VArray messages)])
             end
       end
  else Return a.

(** [Object.keys(err.keyValue || {})[0]]. *)
Definition first_key (err : value) : value :=
  match object_keys (js_or (field err (lit "keyValue")) (VObject [])) with
  | Return (k :: _) => VString k
  | _ => VUndefined
  end.

(** The branch for a duplicate key error. *)
Definition duplicate_error (err : value) (a : answer) : answer :=
  match field err (lit "code") with
  | VNumber n =>
      if is_11000 n
      then (int 400,
            [(lit "success", VBool false);
             (lit "error", VString (lit "Duplicate Error"));
             (lit "message",
              VString
                (match js_or (first_key err) (VString (lit "Value")) with
                 | VString s => s
                 | _ => []
                 end
                 ++ lit " already exists"))])
      else a
  | _ => a
  end.

Definition named (err : value) (name : jsstring) (status : N)
  (error message : jsstring) (a : answer) : answer :=
  if value_is (field err (lit "name")) name
  then (int status,
        [(lit "success", VBool false);
         (lit "error", VString error);
         (lit "message", VString message)])
  else a.

(** [errorHandler(err, req, res, next)]: what it logs, and the response it
    sends or the error it throws.  [toString] is the engine's ToString. *)
Definition errorHandler (toString : value -> completion jsstring)
  (config : Env.Config) (err : value)
  : list event * completion Http.response :=
  if nullish err then ([], Throw TypeError)
  else
    let log :=
      if negb (jsstring_eqb (Env.nodeEnv config) (lit "test"))
      then LogError (field err (lit "message"))
             :: (if Env.isDevelopment config
                 then [LogStack (field err (lit "stack"))] else [])
      else [] in
    let a0 : answer :=
      (js_or (js_or (field err (lit "statusCode")) (field err (lit "status")))
         (int 500),
       [(lit "success", VBool false);
        (lit "error", js_or (field err (lit "name")) (VString (lit "Error")));
        (lit "message",
         js_or (field err (lit "message"))
           (VString (lit "An unexpected error occurred")))]) in
    match validation_error toString err a0 with
    | Throw e => (log, Throw e)
    | Return a1 =>
        let a2 := duplicate_error err a1 in
        let a3 := named err (lit "CastError") 400 (lit "Invalid ID")
                    (lit "The provided ID is not valid") a2 in
        let a4 := named err (lit "JsonWebTokenError") 401 (lit "Invalid Token")
                    (lit "The authentication token is invalid") a3 in
        let a5 := named err (lit "TokenExpiredError") 401 (lit "Token Expired")
                    (lit "Your session has expired. Please log in again.") a4 in
        let members :=
          if Env.isDevelopment config
          then set_property (snd a5) (lit "stack") (field err (lit "stack"))
          else snd a5 in
        (log, Return {| Http.status := fst a5; Http.json := VObject members |})
    end.

(** [createError(statusCode, message)]: an Error object with a status code.
    [stack] is the stack trace the engine attaches. *)
Definition createError (stack : jsstring) (statusCode : value)
  (message : jsstring) : value :=
  VObject
    [(lit "name", VString (lit "Error"));
     (lit "message", VString message);
     (lit "stack", VString stack);
     (lit "statusCode", statusCode)].

(** [notFoundHandler(req, res, next)]. *)
Definition notFoundHandler (method path : jsstring) : Http.response :=
  {| Http.status := int 404;
     Http.json :=
       VObject
         [(lit "success", VBool false);
          (lit "error", VString (lit "Not Found"));
          (lit "message",
           VString (lit "Route " ++ method ++ lit " " ++ path
                    ++ lit " does not exist"))] |}.

End ErrorHandler.

(** ** src/routes/reportRoutes.js *)

Module ReportRoutes.

(** The output of [reportSchema]: a string and an optional, nullable
    category. *)
Record ReportData := { r_description : jsstring; r_category : value }.

(** The object given to [new Report]. *)
Record NewReport :=
  { n_description : jsstring;
    n_userSelectedCategory : value;
    n_analysis : AnalysisResult }.

(** What the handler reads from the saved document. *)
Record Saved :=
  { s_id : value;
    s_aiCategory : value;
    s_aiSeverity : value;
    s_aiSummary : value;
    s_aiSuggestions : value;
    s_aiAnalyzed : value }.

(** [new Report(doc)] followed by [report.save()]: the saved document, or
    the error thrown. *)
Definition store := NewReport -> Saved + value.

Inductive route_event :=
| LogReceived (length : nat)
| Analyzer (ev : event)
| Save (doc : NewReport)
| LogSaved (id : value).

(** How the asynchronous handler ends: it has sent a response, or its
    promise is rejected, by the analyzer or by the store. *)
Inductive ending :=
| Responded (r : Http.response)
| AnalyzerThrew (e : js_error)
| StoreThrew (err : value).

(** The handler of POST /api/report. *)
Definition post (schema : value -> Validation.safe_parse ReportData)
  (model : option Model) (save : store) (body : value)
  : list route_event * ending :=
  match Validation.validate schema body with
  | Validation.Invalid errors =>
      ([],
       Responded
         {| Http.status := int 400;
            Http.json :=
              VObject
                [(lit "success", VBool false);
                 (lit "error", VString (lit "Validation Error"));
                 (lit "message", VString (lit "Please check your input"));
                 (lit "details", VArray (List.map VString errors))] |})
  | Validation.Valid data =>
      let received := LogReceived (List.length (r_description data)) in
      match analyzeReport model (r_description data) with
      | (t, Throw e) => (received :: List.map Analyzer t, AnalyzerThrew e)
      | (t, Return aiAnalysis) =>
          let doc :=
            {| n_description := r_description data;
               n_userSelectedCategory := js_or (r_category data) VNull;
               n_analysis := aiAnalysis |} in
          match save doc with
          | inr err =>
              (received :: List.map Analyzer t ++ [Save doc], StoreThrew err)
          | inl report =>
              (received :: List.map Analyzer t
                 ++ [Save doc; LogSaved (s_id report)],
               Responded
                 {| Http.status := int 201;
                    Http.json :=
                      VObject
                        [(lit "success", VBool true);
                         (lit "message",
                          VString (lit "Your report has been submitted successfully. Thank you for speaking up."));
                         (lit "report",
                          VObject
                            [(lit "id", s_id report);
                             (lit "category", s_aiCategory report);
                             (lit "severity", s_aiSeverity report);
                             (lit "summary", s_aiSummary report);
                             (lit "suggestions", s_aiSuggestions report);
                             (lit "analyzedByAI", s_aiAnalyzed report)])] |})
          end
      end
  end.


Definition saves (t : list route_event) : list NewReport :=
  flat_map (fun ev => match ev with Save doc => [doc] | _ => [] end) t.

End ReportRoutes.

(** A store that accepts every document and gives it the identifier 1. *)
Definition accepting_store : ReportRoutes.store :=
  fun doc =>
    inl {| ReportRoutes.s_id := int 1;
           ReportRoutes.s_aiCategory := aiCategory (ReportRoutes.n_analysis doc);
           ReportRoutes.s_aiSeverity := aiSeverity (ReportRoutes.n_analysis doc);
           ReportRoutes.s_aiSummary := aiSummary (ReportRoutes.n_analysis doc);
           ReportRoutes.s_aiSuggestions := VArray [];
           ReportRoutes.s_aiAnalyzed :=
             VBool (aiAnalyzed (ReportRoutes.n_analysis doc)) |}.

(** A schema that accepts a body whose description is a string. *)
Definition lenient_schema (body : value)
  : Validation.safe_parse ReportRoutes.ReportData :=
  match field body (lit "description") with
  | VString s =>
      Validation.Parsed
        {| ReportRoutes.r_description := s;
           ReportRoutes.r_category := field body (lit "category") |}
  | _ =>
      Validation.Rejected
        [{| Validation.path := [Validation.Key (lit "description")];
            Validation.message := lit "Description is required" |}]
  end.

Definition report_body : value :=
  VObject [(lit "description", VString report)].

(** The responses the handler chooses from carry success: false and no
    stack. *)
Definition plain (a : ErrorHandler.answer) : Prop :=
  lookup (lit "stack") (snd a) = None
  /\ lookup (lit "success") (snd a) = Some (VBool false).

(** A Mongoose validation error with two failed paths. *)
Definition two_path_error : value :=
  VObject
    [(lit "name", VString (lit "ValidationError"));
     (lit "message", VString (lit "Report validation failed"));
     (lit "errors",
      VObject
        [(lit "aiCategory",
          VObject [(lit "message", VString (lit "gossip is not a valid enum value"))]);
         (lit "aiSummary",
          VObject [(lit "message", VString (lit "summary is too long"))])])].

Definition production_config : Env.Config :=
  {| Env.port := lit "5000";
     Env.nodeEnv := lit "production";
     Env.mongodbUri := lit "mongodb://db/safespeak";
     Env.jwtSecret := lit "s3cret";
     Env.jwtExpiresIn := lit "24h";
     Env.geminiApiKey := [];
     Env.frontendUrl := lit "https://safespeak.example";
     Env.isDevelopment := false;
     Env.isProduction := true |}.

(** A validation error whose only message is the number 5. *)
Definition number_message_error : value :=
  VObject
    [(lit "name", VString (lit "ValidationError"));
     (lit "message", VString (lit "Validation failed"));
     (lit "errors", VObject [(lit "age", VObject [(lit "message", int 5)])])].

(** ToString where the samples need it: the decimal text of a non-negative
    integer below 2^53.  The samples convert no other value. *)
Definition integer_text (v : value) : completion jsstring :=
  match v with
  | VNumber {| neg := false; mant := m; exp10 := 0%Z |} =>
      if (m <? 2 ^ 53)%N then Return (decimal m) else Throw TypeError
  | _ => Throw TypeError
  end.

(** An error named ValidationError that is not Mongoose's: it has no
    [errors]. *)
Definition foreign_validation_error : value :=
  VObject
    [(lit "name", VString (lit "ValidationError"));
     (lit "message", VString (lit "child fails"))].

(** [s.split(sep)] for a separator of one code unit. *)
Fixpoint split_on (sep : N) (s : jsstring) : list jsstring :=
  match s with
  | [] => [[]]
  | c :: r =>
      if N.eqb c sep then [] :: split_on sep r
      else match split_on sep r with
           | p :: ps => (c :: p) :: ps
           | [] => [[c]]
           end
  end.

(** ** src/middleware/auth.js *)

Module Auth.

(** The fields the code reads of an Admin document. *)
Record Admin :=
  { a_id : value;
    a_username : value;
    a_displayName : value;
    a_isActive : value }.

(** [req.admin]. *)
Record AdminInfo := { id : value; username : value; displayName : value }.

(** What was thrown: a value of the libraries, or an error of the engine. *)
Inductive thrown :=
| Thrown (err : value)
| Raised (e : js_error).

Inductive event :=
| Verify (token secret : jsstring)   (* jwt.verify(token, secret) *)
| FindById (id : value)              (* Admin.findById(id) *)
| LogError (err : thrown).           (* Auth middleware error *)

(** The middleware calls [next()], with [req.admin] set, or responds. *)
Inductive ending :=
| Next (admin : AdminInfo)
| Responded (r : Http.response).

Definition refuse (status : N) (error message : jsstring) : ending :=
  Responded
    {| Http.status := int status;
       Http.json :=
         VObject
           [(lit "success", VBool false);
            (lit "error", VString error);
            (lit "message", VString message)] |}.

Definition failed : ending :=
  refuse 500 (lit "Authentication error")
    (lit "An error occurred during authentication").

(** [requireAdmin(req, res, next)].  [verify] is [jwt.verify], which returns
    the decoded payload or throws; [findById] is [Admin.findById], which
    finds the admin, finds none, or throws.  [authHeader] is
    [req.headers.authorization]. *)
Definition requireAdmin (secret : jsstring)
  (verify : jsstring -> jsstring -> value + value)
  (findById : value -> option Admin + value)
  (authHeader : option jsstring) : list event * ending :=
  let no_header :=
    refuse 401 (lit "Authentication required")
      (lit "Please provide a valid authentication token") in
  match authHeader with
  | None | Some [] => ([], no_header)
  | Some header =>
      if negb (starts_with header (lit "Bearer ")) then ([], no_header)
      else
        match nth_error (split_on 32 header) 1 with
        | None | Some [] =>
            ([], refuse 401 (lit "Authentication required")
                   (lit "No token provided"))
        | Some token =>
            match verify token secret with
            | inr jwtError =>
                match get jwtError (lit "name") with
                | Throw e =>
                    ([Verify token secret; LogError (Raised e)], failed)
                | Return name =>
                    ([Verify token secret],
                     if value_is name (lit "TokenExpiredError")
                     then refuse 401 (lit "Token expired")
                            (lit "Your session has expired. Please log in again.")
                     else refuse 401 (lit "Invalid token")
                            (lit "The provided token is invalid"))
                end
            | inl decoded =>
                match get decoded (lit "adminId") with
                | Throw e =>
                    ([Verify token secret; LogError (Raised e)], failed)
                | Return adminId =>
                    match findById adminId with
                    | inr err =>
                        ([Verify token secret; FindById adminId;
                          LogError (Thrown err)],
                         failed)
                    | inl None =>
                        ([Verify token secret; FindById adminId],
                         refuse 401 (lit "Unauthorized")
                           (lit "Admin account not found or inactive"))
                    | inl (Some admin) =>
                        ([Verify token secret; FindById adminId],
                         if truthy (a_isActive admin)
                         then Next {| id := a_id admin;
                                      username := a_username admin;
                                      displayName := a_displayName admin |}
                         else refuse 401 (lit "Unauthorized")
                                (lit "Admin account not found or inactive"))
                    end
                end
            end
        end
  end.

End Auth.

(** ** src/routes/adminRoutes.js *)

Module AdminRoutes.

(** The output of [loginSchema]. *)
Record Credentials := { c_username : jsstring; c_password : jsstring }.

(** What the routes ask of the collections and of jsonwebtoken: each call
    returns, or throws the value on the right. *)
Record services :=
  { (* Admin.findOne({ username, isActive: true }).select('+password') *)
    findOne : jsstring -> option Auth.Admin + value;
    (* bcrypt.compare(candidatePassword, admin.password) *)
    compare : Auth.Admin -> jsstring -> bool + value;
    (* admin.save(), after admin.lastLogin is set *)
    save : Auth.Admin -> unit + value;
    (* jwt.sign(payload, secret, { expiresIn }) *)
    sign : value -> jsstring -> jsstring -> jsstring + value;
    (* Report.findByIdAndUpdate(id, update, { new: true, runValidators: true }) *)
    findByIdAndUpdate : value -> list (jsstring * value) -> value + value }.

Inductive event :=
| FindOne (username : jsstring)
| Compare (admin : Auth.Admin) (password : jsstring)
| Save (admin : Auth.Admin)
| Sign (payload : value) (secret expiresIn : jsstring)
| LogLoggedIn (username : value)
| FindByIdAndUpdate (id : value) (update : list (jsstring * value))
| LogUpdated (id username : value).

(** How an asynchronous handler ends: it has sent a response, or its promise
    is rejected with a value of the libraries or an error of the engine. *)
Inductive ending :=
| Responded (r : Http.response)
| Threw (err : value)
| Raised (e : js_error).

(** [Admin.findByCredentials(username, password)] of models/Admin.js. *)
Definition findByCredentials (s : services) (username password : jsstring)
  : list event * (option Auth.Admin + value) :=
  match findOne s username with
  | inr err => ([FindOne username], inr err)
  | inl None => ([FindOne username], inl None)
  | inl (Some admin) =>
      match compare s admin password with
      | inr err => ([FindOne username; Compare admin password], inr err)
      | inl isMatch =>
          ([FindOne username; Compare admin password],
           inl (if negb isMatch then None else Some admin))
      end
  end.

(** The payload of [generateToken(admin)] of middleware/auth.js. *)
Definition token_payload (admin : Auth.Admin) : value :=
  VObject
    [(lit "adminId", Auth.a_id admin);
     (lit "username", Auth.a_username admin)].

Definition authentication_failed : Http.response :=
  {| Http.status := int 401;
     Http.json :=
       VObject
         [(lit "success", VBool false);
          (lit "error", VString (lit "Authentication Failed"));
          (lit "message", VString (lit "Invalid username or password"))] |}.

(** The handler of POST /api/admin/login. *)
Definition login (schema : value -> Validation.safe_parse Credentials)
  (s : services) (config : Env.Config) (body : value)
  : list event * ending :=
  match Validation.validate schema body with
  | Validation.Invalid errors =>
      ([],
       Responded
         {| Http.status := int 400;
            Http.json :=
              VObject
                [(lit "success", VBool false);
                 (lit "error", VString (lit "Validation Error"));
                 (lit "message",
                  VString (lit "Please provide username and password"));
                 (lit "details", VArray (List.map VString errors))] |})
  | Validation.Valid data =>
      match findByCredentials s (c_username data) (c_password data) with
      | (t, inr err) => (t, Threw err)
      | (t, inl None) => (t, Responded authentication_failed)
      | (t, inl (Some admin)) =>
          match save s admin with
          | inr err => (t ++ [Save admin], Threw err)
          | inl _ =>
              let payload := token_payload admin in
              let signing :=
                Sign payload (Env.jwtSecret config)
                  (Env.jwtExpiresIn config) in
              match sign s payload (Env.jwtSecret config)
                      (Env.jwtExpiresIn config) with
              | inr err => (t ++ [Save admin; signing], Threw err)
              | inl token =>
                  (t ++ [Save admin; signing;
                         LogLoggedIn (Auth.a_username admin)],
                   Responded
                     {| Http.status := int 200;
                        Http.json :=
                          VObject
                            [(lit "success", VBool true);
                             (lit "message", VString (lit "Login successful"));
                             (lit "token", VString token);
                             (lit "admin",
                              VObject
                                [(lit "username", Auth.a_username admin);
                                 (lit "displayName",
                                  Auth.a_displayName admin)])] |})
              end
          end
      end
  end.

(** The update object that PATCH /api/admin/reports/:id builds from the
    body. *)
Definition build_update (body : value)
  : completion (list (jsstring * value)) :=
  match get body (lit "status"), get body (lit "adminNotes") with
  | Return status, Return adminNotes =>
      let update0 := [] in
      let update1 :=
        if truthy status then set_property update0 (lit "status") status
        else update0 in
      Return
        (match adminNotes with
         | VUndefined => update1
         | _ => set_property update1 (lit "adminNotes") adminNotes
         end)
  | Throw e, _ | _, Throw e => Throw e
  end.

(** The handler of PATCH /api/admin/reports/:id, behind [requireAdmin].
    [stack] is the stack trace the engine attaches to a new Error. *)
Definition patch (s : services) (stack : jsstring) (id : value)
  (admin : Auth.AdminInfo) (body : value) : list event * ending :=
  match build_update body with
  | Throw e => ([], Raised e)
  | Return update =>
      match own_keys update with   (* Object.keys(update) *)
      | [] =>
          ([],
           Responded
             {| Http.status := int 400;
                Http.json :=
                  VObject
                    [(lit "success", VBool false);
                     (lit "error", VString (lit "No updates provided"));
                     (lit "message",
                      VString
                        (lit "Please provide status or adminNotes to update"))]
             |})
      | _ :: _ =>
          match findByIdAndUpdate s id update with
          | inr err => ([FindByIdAndUpdate id update], Threw err)
          | inl report =>
              if negb (truthy report)
              then ([FindByIdAndUpdate id update],
                    Threw (ErrorHandler.createError stack (int 404)
                             (lit "Report not found")))
              else
                ([FindByIdAndUpdate id update;
                  LogUpdated (field report (lit "_id")) (Auth.username admin)],
                 Responded
                   {| Http.status := int 200;
                      Http.json :=
                        VObject
                          [(lit "success", VBool true);
                           (lit "message",
                            VString (lit "Report updated successfully"));
                           (lit "data",
                            VObject
                              [(lit "id", field report (lit "_id"));
                               (lit "status", field report (lit "status"));
                               (lit "adminNotes",
                                field report (lit "adminNotes"))])] |})
          end
      end
  end.

End AdminRoutes.

(** A verifier that accepts one token, and a collection with one admin. *)
Definition sample_verify (token secret : jsstring) : value + value :=
  if jsstring_eqb token (lit "good.token")
  then inl (VObject [(lit "adminId", VString (lit "a1"))])
  else inr (VObject [(lit "name", VString (lit "JsonWebTokenError"))]).

Definition sample_findById (id : value) : option Auth.Admin + value :=
  if value_is id (lit "a1")
  then inl (Some {| Auth.a_id := VString (lit "a1");
                    Auth.a_username := VString (lit "admin");
                    Auth.a_displayName := VString (lit "Administrator");
                    Auth.a_isActive := VBool true |})
  else inl None.

(** A login schema that accepts a body whose username and password are
    strings. *)
Definition lenient_login (body : value)
  : Validation.safe_parse AdminRoutes.Credentials :=
  match field body (lit "username"), field body (lit "password") with
  | VString u, VString p =>
      Validation.Parsed
        {| AdminRoutes.c_username := u; AdminRoutes.c_password := p |}
  | _, _ =>
      Validation.Rejected
        [{| Validation.path := [];
            Validation.message := lit "Please provide username and password" |}]
  end.

(** The collections behind [sample_findById] and a signer whose tokens
    [sample_verify] accepts. *)
Definition sample_services : AdminRoutes.services :=
  {| AdminRoutes.findOne :=
       fun username =>
         if jsstring_eqb username (lit "admin")
         then sample_findById (VString (lit "a1"))
         else inl None;
     AdminRoutes.compare :=
       fun _ password => inl (jsstring_eqb password (lit "admin123"));
     AdminRoutes.save := fun _ => inl tt;
     AdminRoutes.sign :=
       fun payload _ _ =>
         if value_is (field payload (lit "adminId")) (lit "a1")
         then inl (lit "good.token")
         else inr (VObject [(lit "name", VString (lit "Error"))]);
     AdminRoutes.findByIdAndUpdate :=
       fun id update =>
         if value_is id (lit "r1")
         then inl (VObject ((lit "_id", id) :: update))
         else inl VNull |}.

Definition login_body (username password : string) : value :=
  VObject
    [(lit "username", VString (lit username));
     (lit "password", VString (lit password))].

Definition sample_admin : Auth.AdminInfo :=
  {| Auth.id := VString (lit "a1");
     Auth.username := VString (lit "admin");
     Auth.displayName := VString (lit "Administrator") |}.

(** A body that sets the status and two members the handler does not read. *)
Definition patch_body : value :=
  VObject
    [(lit "status", VString (lit "resolved"));
     (lit "aiSeverity", VString (lit "low"));
     (lit "description", VString (lit "rewritten"))].

(** ** The monad *)

Lemma outcome_bind {A B} (m : io A) (f : A -> io B) :
  outcome (bind m f)
  = match outcome m with
    | Return a => outcome (f a)
    | Throw e => Throw e
    end.
Proof.
  destruct m as [t [a | e]]; simpl; [destruct (f a) |]; reflexivity.
Qed.

Lemma trace_bind {A B} (m : io A) (f : A -> io B) :
  trace (bind m f)
  = match outcome m with
    | Return a => trace m ++ trace (f a)
    | Throw _ => trace m
    end.
Proof.
  destruct m as [t [a | e]]; simpl; [destruct (f a) |]; reflexivity.
Qed.

Lemma outcome_try_catch {A} (m : io A) (h : js_error -> io A) :
  outcome (try_catch m h)
  = match outcome m with
    | Return a => Return a
    | Throw e => outcome (h e)
    end.
Proof.
  destruct m as [t [a | e]]; simpl; [| destruct (h e)]; reflexivity.
Qed.

Lemma trace_try_catch {A} (m : io A) (h : js_error -> io A) :
  trace (try_catch m h)
  = match outcome m with
    | Return _ => trace m
    | Throw e => trace m ++ trace (h e)
    end.
Proof.
  destruct m as [t [a | e]]; simpl; [| destruct (h e)]; reflexivity.
Qed.

Lemma outcome_lift {A} (c : completion A) : outcome (lift c) = c.
Proof. reflexivity. Qed.

Lemma outcome_ret {A} (a : A) : outcome (ret a) = Return a.
Proof. reflexivity. Qed.

Lemma outcome_throw {A} (e : js_error) : outcome (@throw A e) = Throw e.
Proof. reflexivity. Qed.

Lemma outcome_emit (ev : event) : outcome (emit ev) = Return tt.
Proof. reflexivity. Qed.

Create Rewrite HintDb io.
#[local] Hint Rewrite @outcome_bind @outcome_try_catch @outcome_lift
  @outcome_ret @outcome_throw outcome_emit : io.

Arguments bind : simpl never.
Arguments try_catch : simpl never.

Arguments substring0 : simpl never.
Arguments ANALYSIS_PROMPT : simpl never.

Ltac io_simpl := repeat progress (autorewrite with io; cbv beta match).

(** ** Strings and property reads *)

Lemma jsstring_eqb_eq (a b : jsstring) : jsstring_eqb a b = true <-> a = b.
Proof.
  revert b; induction a as [| x a IH]; intros [| y b]; simpl;
    try (split; [discriminate | discriminate]); [tauto |].
  rewrite andb_true_iff, N.eqb_eq, IH.
  split; [intros [-> ->]; reflexivity | intros H; inversion H; auto].
Qed.

Lemma get_field (o : value) (k : jsstring) :
  nullish o = false -> get o k = Return (field o k).
Proof.
  unfold field; destruct o; simpl; intros H; try discriminate; reflexivity.
Qed.

Lemma get_nullish (o : value) (k : jsstring) :
  nullish o = true -> get o k = Throw TypeError.
Proof.
  destruct o; simpl; intros H; try discriminate; reflexivity.
Qed.

Lemma field_object (members : list (jsstring * value)) (k : jsstring) :
  field (VObject members) k
  = match lookup k members with Some v => v | None => VUndefined end.
Proof. reflexivity. Qed.

(** ** [suggestions.map] *)

Lemma normalize_suggestion_outcome (s : value) :
  outcome (normalize_suggestion s)
  = if nullish s then Throw TypeError else Return (normalized s).
Proof.
  unfold normalize_suggestion; destruct (nullish s) eqn:E; io_simpl.
  - rewrite (get_nullish _ _ E); reflexivity.
  - rewrite !(get_field _ _ E); io_simpl; reflexivity.
Qed.

Lemma mapM_normalize_outcome (elems : list value) :
  outcome (mapM normalize_suggestion elems)
  = if existsb nullish elems then Throw TypeError
    else Return (List.map normalized elems).
Proof.
  induction elems as [| s elems IH]; simpl; [reflexivity |].
  io_simpl; rewrite normalize_suggestion_outcome.
  destruct (nullish s); simpl; [reflexivity |].
  io_simpl; rewrite IH; destruct (existsb nullish elems); reflexivity.
Qed.

Lemma array_map_outcome (v : value) :
  outcome (array_map v normalize_suggestion)
  = match v with
    | VArray elems =>
        if existsb nullish elems then Throw TypeError
        else Return (List.map normalized elems)
    | _ => Throw TypeError
    end.
Proof.
  destruct v; simpl; try reflexivity; apply mapM_normalize_outcome.
Qed.

(** ** The inner try block *)

Lemma missing_required_outcome (analysis : value) :
  nullish analysis = false ->
  outcome (missing_required analysis)
  = Return (negb (truthy (field analysis (lit "category"))
                  && truthy (field analysis (lit "severity"))
                  && truthy (field analysis (lit "suggestions")))).
Proof.
  intros H; unfold missing_required; io_simpl.
  rewrite (get_field _ (lit "category") H).
  destruct (truthy (field analysis (lit "category"))); simpl; [| reflexivity].
  io_simpl; rewrite (get_field _ (lit "severity") H).
  destruct (truthy (field analysis (lit "severity"))); simpl; [| reflexivity].
  io_simpl; rewrite (get_field _ (lit "suggestions") H); reflexivity.
Qed.

Lemma parse_response_outcome (text : jsstring) :
  outcome (parse_response text)
  = match match_braces text with
    | None => Throw (Error (lit "No JSON found in response"))
    | Some jsonMatch =>
        match Json.parse jsonMatch with
        | Return analysis => validated analysis
        | Throw e => Throw e
        end
    end.
Proof.
  unfold parse_response.
  destruct (match_braces text) as [jsonMatch |]; [| reflexivity].
  io_simpl.
  destruct (Json.parse jsonMatch) as [analysis | e]; [| reflexivity].
  unfold validated.
  destruct (nullish analysis) eqn:E.
  - unfold missing_required; io_simpl.
    rewrite (get_nullish _ _ E); reflexivity.
  - io_simpl; rewrite (missing_required_outcome _ E).
    destruct (truthy (field analysis (lit "category"))
              && truthy (field analysis (lit "severity"))
              && truthy (field analysis (lit "suggestions"))); simpl;
      [| reflexivity].
    io_simpl.
    rewrite !(get_field _ _ E); io_simpl.
    rewrite array_map_outcome.
    destruct (field analysis (lit "suggestions")); try reflexivity.
    destruct (existsb nullish l); reflexivity.
Qed.

(** ** analyzeReport *)

(** The result of [analyzeReport] as a function of what the model call and
    the inner try block do. *)
Lemma analyzeReport_outcome (m : Model) (description : jsstring) :
  outcome (analyzeReport (Some m) description)
  = Return
      match race (generateContent m (ANALYSIS_PROMPT ++ description)) timeoutMs
      with
      | Return (TextOf text) =>
          match outcome (parse_response text) with
          | Return r => r
          | Throw _ => getFallbackResponse
          end
      | _ => getFallbackResponse
      end.
Proof.
  unfold analyzeReport; io_simpl.
  destruct (race _ timeoutMs) as [[text | e] | e]; simpl; io_simpl;
    try reflexivity.
  destruct (outcome (parse_response text)); reflexivity.
Qed.

Lemma analyzeReport_unconfigured (description : jsstring) :
  analyzeReport None description
  = ([Console NotConfigured], Return getFallbackResponse).
Proof. reflexivity. Qed.

Lemma race_responded (m : Model) (description text : jsstring) :
  responded m description text ->
  race (generateContent m (ANALYSIS_PROMPT ++ description)) timeoutMs
  = Return (TextOf text).
Proof.
  intros [t [E Ht]]; rewrite E; simpl.
  apply N.leb_le in Ht; rewrite Ht; reflexivity.
Qed.

Lemma race_inv (p : model_call) (text : jsstring) :
  race p timeoutMs = Return (TextOf text) ->
  exists t, p = Settles t (Fulfilled (TextOf text)) /\ (t <= timeoutMs)%N.
Proof.
  destruct p as [t [r | e] |]; simpl; try discriminate;
    destruct (N.leb t timeoutMs) eqn:E; try discriminate.
  intros H; injection H as ->; exists t; split; [reflexivity |].
  apply N.leb_le; exact E.
Qed.

(** Every run ends in the fallback payload or in a validated model answer. *)
Lemma analyzeReport_cases (model : option Model) (description : jsstring) :
  outcome (analyzeReport model description) = Return getFallbackResponse
  \/ exists m text jsonMatch analysis elems,
       model = Some m
       /\ responded m description text
       /\ match_braces text = Some jsonMatch
       /\ Json.parse jsonMatch = Return analysis
       /\ truthy (field analysis (lit "category")) = true
       /\ truthy (field analysis (lit "severity")) = true
       /\ field analysis (lit "suggestions") = VArray elems
       /\ existsb nullish elems = false
       /\ outcome (analyzeReport model description)
          = Return (success_result analysis elems).
Proof.
  destruct model as [m |]; [| left; reflexivity].
  rewrite analyzeReport_outcome.
  destruct (race _ timeoutMs) as [[text | e] | e] eqn:R; try (left; reflexivity).
  rewrite parse_response_outcome.
  destruct (match_braces text) as [jsonMatch |] eqn:M; [| left; reflexivity].
  destruct (Json.parse jsonMatch) as [analysis | e] eqn:P;
    [| left; reflexivity].
  unfold validated.
  destruct (nullish analysis); [left; reflexivity |].
  destruct (truthy (field analysis (lit "category"))) eqn:C;
    [| left; reflexivity].
  destruct (truthy (field analysis (lit "severity"))) eqn:S;
    [| left; reflexivity].
  destruct (truthy (field analysis (lit "suggestions"))) eqn:G;
    [| left; reflexivity].
  simpl.
  destruct (field analysis (lit "suggestions")) as [| | | | | elems |] eqn:F;
    try (left; reflexivity).
  destruct (existsb nullish elems) eqn:X; [left; reflexivity |].
  right; exists m, text, jsonMatch, analysis, elems.
  repeat split; try assumption; try reflexivity.
  apply race_inv; exact R.
Qed.

(** A response the inner try block rejects yields the fallback payload. *)
Lemma analyzeReport_rejected (m : Model) (description text : jsstring)
  (e : js_error) :
  responded m description text ->
  outcome (parse_response text) = Throw e ->
  outcome (analyzeReport (Some m) description) = Return getFallbackResponse.
Proof.
  intros R P; rewrite analyzeReport_outcome, (race_responded _ _ _ R), P.
  reflexivity.
Qed.

Lemma analyzeReport_accepted (m : Model) (description text : jsstring)
  (r : AnalysisResult) :
  responded m description text ->
  outcome (parse_response text) = Return r ->
  outcome (analyzeReport (Some m) description) = Return r.
Proof.
  intros R P; rewrite analyzeReport_outcome, (race_responded _ _ _ R), P.
  reflexivity.
Qed.

(** A required field bound to a falsy value, or to nothing at all. *)
Lemma validated_falsy (analysis : value) (k : jsstring) :
  In k required_fields ->
  truthy (field analysis k) = false ->
  exists e, validated analysis = Throw e.
Proof.
  intros K F; unfold validated.
  destruct (nullish analysis); [eexists; reflexivity |].
  destruct K as [<- | [<- | [<- | []]]]; rewrite F;
    rewrite ?andb_false_r; simpl; eexists; reflexivity.
Qed.

(** ** The parsed match is an object *)

Lemma push_value_builds (v : value) (stack : list Json.frame)
  (st : Json.pstate) :
  (stack = [] -> is_object v = true) ->
  (stack <> [] -> rests_on_object stack = true) ->
  Json.push_value v stack = Some st ->
  builds_object st = true.
Proof.
  intros Hnil Hcons H.
  destruct stack as [| [acc | acc [k |]] r]; simpl in H;
    try discriminate; injection H as <-; simpl.
  - auto.
  - destruct r; [specialize (Hcons ltac:(discriminate)); discriminate |].
    apply (Hcons ltac:(discriminate)).
  - destruct r; [reflexivity |].
    apply (Hcons ltac:(discriminate)).
Qed.

Lemma start_value_builds (t : Json.token) (stack : list Json.frame)
  (st : Json.pstate) :
  rests_on_object stack = true ->
  Json.start_value t stack = Some st ->
  builds_object st = true.
Proof.
  intros R H.
  assert (N : stack <> []) by (destruct stack; [discriminate | discriminate]).
  destruct t; simpl in H; try discriminate;
    try (apply push_value_builds with (stack := stack) in H; auto;
         intros E; contradiction);
    injection H as <-; simpl; destruct stack; auto; contradiction.
Qed.

Lemma rests_on_object_tail (f : Json.frame) (r : list Json.frame) :
  rests_on_object (f :: r) = true -> r <> [] -> rests_on_object r = true.
Proof.
  intros H N; destruct r; [contradiction |]; destruct f; exact H.
Qed.

Lemma parse_step_builds (st st' : Json.pstate) (t : Json.token) :
  builds_object st = true ->
  Json.parse_step st t = Some st' ->
  builds_object st' = true.
Proof.
  destruct st as [mode stack]; intros B H.
  assert (close : forall f r v st'',
             stack = f :: r ->
             (r = [] -> is_object v = true) ->
             Json.push_value v r = Some st'' -> builds_object st'' = true).
  { intros f r v st'' -> Hv P.
    destruct mode; simpl in B;
      try (apply push_value_builds with (stack := r) in P; auto;
           intros; apply (rests_on_object_tail _ _ B); assumption).
    apply push_value_builds with (stack := r) in P; auto.
    intros N. exfalso. simpl in H. discriminate. }
  destruct mode; simpl in B, H.
  - eapply start_value_builds; eauto.
  - destruct t; try (eapply start_value_builds; eauto; fail).
    destruct stack as [| [acc | acc k] r].
    + discriminate.
    + eapply close; eauto.
      intros ->; simpl in B; discriminate.
    + eapply start_value_builds; eauto.
  - destruct t; try discriminate;
      destruct stack as [| [acc | acc k] r]; try discriminate.
    + eapply close; eauto; intros; reflexivity.
    + injection H as <-; simpl; destruct r; auto.
  - destruct t; try discriminate;
      destruct stack as [| [acc | acc k] r]; try discriminate.
    injection H as <-; simpl; destruct r; auto.
  - destruct t; try discriminate. injection H as <-; exact B.
  - destruct t; try discriminate;
      destruct stack as [| [acc | acc k] r]; try discriminate.
    + eapply close; eauto; intros; reflexivity.
    + eapply close; eauto.
      intros ->; simpl in B; discriminate.
    + injection H as <-; exact B.
    + injection H as <-; exact B.
  - discriminate.
Qed.

Lemma parse_tokens_builds (ts : list Json.token) (st : Json.pstate)
  (v : value) :
  builds_object st = true ->
  Json.parse_tokens st ts = Some v ->
  is_object v = true.
Proof.
  revert st; induction ts as [| t ts IH]; intros st B H; simpl in H.
  - destruct st as [[] stack]; try discriminate.
    injection H as <-; exact B.
  - destruct (Json.parse_step st t) as [st' |] eqn:E; [| discriminate].
    eapply IH; [eapply parse_step_builds; eauto | exact H].
Qed.

Lemma match_braces_starts (text jsonMatch : jsstring) :
  match_braces text = Some jsonMatch ->
  exists body, jsonMatch = 123%N :: body.
Proof.
  induction text as [| c r IH]; simpl; [discriminate |].
  destruct (N.eqb c 123) eqn:E; [| exact IH].
  destruct (through_last 125 r) as [body |]; [| exact IH].
  intros H; injection H as <-.
  apply N.eqb_eq in E; subst c; exists body; reflexivity.
Qed.

(** [analysis] is always an object: the match starts with a brace. *)
Lemma parsed_match_is_object (text jsonMatch : jsstring) (analysis : value) :
  match_braces text = Some jsonMatch ->
  Json.parse jsonMatch = Return analysis ->
  exists members, analysis = VObject members.
Proof.
  intros M P.
  destruct (match_braces_starts _ _ M) as [body ->].
  unfold Json.parse in P; simpl in P.
  destruct (Json.lex Json.LStart body) as [ts |]; [| discriminate].
  simpl in P.
  destruct (Json.parse_tokens _ ts) as [v |] eqn:T; [| discriminate].
  injection P as ->.
  apply parse_tokens_builds in T; [| reflexivity].
  destruct analysis; try discriminate; eexists; reflexivity.
Qed.

(** ** The match inside prose *)

Lemma through_last_absent (c : N) (s : jsstring) :
  ~ In c s -> through_last c s = None.
Proof.
  induction s as [| x r IH]; simpl; [reflexivity |].
  intros H; rewrite IH by tauto.
  destruct (N.eqb x c) eqn:E; [| reflexivity].
  apply N.eqb_eq in E; tauto.
Qed.

Lemma through_last_closing (c : N) (body post : jsstring) :
  ~ In c post ->
  through_last c (body ++ c :: post) = Some (body ++ [c]).
Proof.
  intros H; induction body as [| x r IH]; simpl.
  - rewrite (through_last_absent _ _ H), N.eqb_refl; reflexivity.
  - rewrite IH; reflexivity.
Qed.

Lemma match_braces_in_prose (pre body post : jsstring) :
  ~ In 123%N pre -> ~ In 125%N post ->
  match_braces (pre ++ 123%N :: body ++ 125%N :: post)
  = Some (123%N :: body ++ [125%N]).
Proof.
  intros Hpre Hpost; induction pre as [| c r IH]; simpl.
  - rewrite (through_last_closing _ _ _ Hpost); reflexivity.
  - destruct (N.eqb c 123) eqn:E.
    + apply N.eqb_eq in E; subst c; simpl in Hpre; tauto.
    + apply IH; simpl in Hpre; tauto.
Qed.

(** ** Failures are absorbed *)

Lemma race_overdue (p : model_call) :
  overdue p -> race p timeoutMs = Throw timeout_error.
Proof.
  destruct p as [t s |]; simpl; [| reflexivity].
  intros H; apply N.leb_gt in H; rewrite H; reflexivity.
Qed.

Lemma race_rejected (t : N) (e : js_error) :
  exists e', race (Settles t (Rejected e)) timeoutMs = Throw e'.
Proof.
  simpl; destruct (N.leb t timeoutMs); eexists; reflexivity.
Qed.

Lemma race_unreadable (t : N) (e : js_error) :
  race (Settles t (Fulfilled (TextThrows e))) timeoutMs
  = Return (TextThrows e)
  \/ race (Settles t (Fulfilled (TextThrows e))) timeoutMs
     = Throw timeout_error.
Proof.
  simpl; destruct (N.leb t timeoutMs); auto.
Qed.

Lemma failure_absorbed (model : option Model) (description : jsstring) :
  failure_mode model description ->
  outcome (analyzeReport model description) = Return getFallbackResponse.
Proof.
  intros [-> | m t e -> E | m t e -> E | m -> O | m text -> R M
          | m text j e -> R M P | m text j members k -> R M P K L].
  - reflexivity.
  - rewrite analyzeReport_outcome, E.
    destruct (race_rejected t e) as [e' ->]; reflexivity.
  - rewrite analyzeReport_outcome, E.
    destruct (race_unreadable t e) as [-> | ->]; reflexivity.
  - rewrite analyzeReport_outcome, (race_overdue _ O); reflexivity.
  - eapply analyzeReport_rejected; [exact R |].
    rewrite parse_response_outcome, M; reflexivity.
  - eapply analyzeReport_rejected; [exact R |].
    rewrite parse_response_outcome, M, P; reflexivity.
  - destruct (validated_falsy (VObject members) k K) as [e V].
    { rewrite field_object, L; reflexivity. }
    eapply analyzeReport_rejected; [exact R |].
    rewrite parse_response_outcome, M, P; exact V.
Qed.

Lemma analyzeReport_returns (model : option Model) (description : jsstring) :
  exists r, outcome (analyzeReport model description) = Return r.
Proof.
  destruct model as [m |]; [| eexists; reflexivity].
  rewrite analyzeReport_outcome; eexists; reflexivity.
Qed.

(** ** The events of a run *)

Lemma trace_lift {A} (c : completion A) : trace (lift c) = [].
Proof. reflexivity. Qed.

Lemma trace_ret {A} (a : A) : trace (ret a) = [].
Proof. reflexivity. Qed.

Lemma trace_throw {A} (e : js_error) : trace (@throw A e) = [].
Proof. reflexivity. Qed.

Lemma trace_emit (ev : event) : trace (emit ev) = [ev].
Proof. reflexivity. Qed.

#[local] Hint Rewrite @trace_bind @trace_try_catch @trace_lift @trace_ret
  @trace_throw trace_emit app_nil_r : io.

Lemma normalize_suggestion_trace (s : value) :
  trace (normalize_suggestion s) = [].
Proof.
  unfold normalize_suggestion; io_simpl.
  repeat (destruct (get s _); io_simpl; try reflexivity).
Qed.

Lemma mapM_normalize_trace (elems : list value) :
  trace (mapM normalize_suggestion elems) = [].
Proof.
  induction elems as [| s elems IH]; simpl; [reflexivity |].
  io_simpl; rewrite normalize_suggestion_trace.
  destruct (outcome (normalize_suggestion s)); [| reflexivity].
  io_simpl; rewrite IH.
  destruct (outcome (mapM normalize_suggestion elems)); reflexivity.
Qed.

Lemma array_map_trace (v : value) :
  trace (array_map v normalize_suggestion) = [].
Proof.
  destruct v; try reflexivity; apply mapM_normalize_trace.
Qed.

Lemma missing_required_trace (analysis : value) :
  trace (missing_required analysis) = [].
Proof.
  unfold missing_required; io_simpl.
  destruct (get analysis (lit "category")) as [c |]; [| reflexivity].
  destruct (negb (truthy c)); io_simpl; [reflexivity |].
  destruct (get analysis (lit "severity")) as [s |]; [| reflexivity].
  destruct (negb (truthy s)); io_simpl; [reflexivity |].
  destruct (get analysis (lit "suggestions")); reflexivity.
Qed.

(** The inner try block sends nothing to the model endpoint. *)
Lemma parse_response_calls (text : jsstring) :
  network_calls (trace (parse_response text)) = 0%nat.
Proof.
  unfold parse_response.
  destruct (match_braces text) as [j |]; [| reflexivity].
  io_simpl.
  destruct (Json.parse j) as [analysis |]; [| reflexivity].
  io_simpl; rewrite missing_required_trace.
  destruct (outcome (missing_required analysis)) as [[] |]; io_simpl;
    try reflexivity.
  repeat (destruct (get analysis _); io_simpl; try reflexivity).
  rewrite array_map_trace.
  destruct (outcome (array_map _ normalize_suggestion)); reflexivity.
Qed.

Lemma network_calls_app (a b : list event) :
  network_calls (a ++ b) = (network_calls a + network_calls b)%nat.
Proof.
  unfold network_calls; rewrite filter_app, length_app; reflexivity.
Qed.

(** One request per analysis when a model is configured, none otherwise:
    nothing is retried. *)
Lemma analyzeReport_calls (model : option Model) (description : jsstring) :
  network_calls (trace (analyzeReport model description))
  = match model with Some _ => 1%nat | None => 0%nat end.
Proof.
  destruct model as [m |]; [| reflexivity].
  unfold analyzeReport; io_simpl.
  destruct (race _ timeoutMs) as [[text | e] | e]; unfold text_of; io_simpl;
    try reflexivity.
  destruct (outcome (parse_response text)); io_simpl;
    rewrite !network_calls_app, parse_response_calls; reflexivity.
Qed.

(** ** Successful analyses *)

Lemma truthy_field_bound (members : list (jsstring * value)) (k : jsstring) :
  truthy (field (VObject members) k) = true ->
  lookup k members = Some (field (VObject members) k).
Proof.
  rewrite field_object; destruct (lookup k members); [reflexivity |].
  discriminate.
Qed.

(** Where a result with aiAnalyzed = true comes from. *)
Lemma analyzed_inv (model : option Model) (description : jsstring)
  (r : AnalysisResult) :
  outcome (analyzeReport model description) = Return r ->
  aiAnalyzed r = true ->
  exists m text jsonMatch members elems,
    model = Some m
    /\ responded m description text
    /\ match_braces text = Some jsonMatch
    /\ Json.parse jsonMatch = Return (VObject members)
    /\ truthy (field (VObject members) (lit "category")) = true
    /\ truthy (field (VObject members) (lit "severity")) = true
    /\ field (VObject members) (lit "suggestions") = VArray elems
    /\ existsb nullish elems = false
    /\ r = success_result (VObject members) elems.
Proof.
  intros H A.
  destruct (analyzeReport_cases model description)
    as [F | (m & text & j & analysis & elems & Hm & R & M & P & C & S & G
             & X & E)].
  - rewrite F in H; injection H as <-; discriminate A.
  - destruct (parsed_match_is_object _ _ _ M P) as [members ->].
    rewrite E in H; injection H as <-.
    exists m, text, j, members, elems; repeat split; assumption.
Qed.

Lemma analyzeReport_success (m : Model) (description text jsonMatch : jsstring)
  (members : list (jsstring * value)) (elems : list value) :
  responded m description text ->
  match_braces text = Some jsonMatch ->
  Json.parse jsonMatch = Return (VObject members) ->
  truthy (field (VObject members) (lit "category")) = true ->
  truthy (field (VObject members) (lit "severity")) = true ->
  field (VObject members) (lit "suggestions") = VArray elems ->
  existsb nullish elems = false ->
  outcome (analyzeReport (Some m) description)
  = Return (success_result (VObject members) elems).
Proof.
  intros R M P C S G X.
  apply analyzeReport_accepted with (text := text); [exact R |].
  rewrite parse_response_outcome, M, P; unfold validated.
  change (nullish (VObject members)) with false; cbv beta match.
  rewrite C, S, G, X; reflexivity.
Qed.

Lemma js_or_defaulted (supplied fallback : value) :
  defaulted supplied fallback (js_or supplied fallback).
Proof.
  unfold defaulted, js_or; destruct (truthy supplied); split; intros H;
    try reflexivity; discriminate H.
Qed.

Lemma normalized_preserves (s : value) : preserves s (normalized s).
Proof.
  unfold preserves, normalized, js_or; simpl.
  repeat split; intros ->; reflexivity.
Qed.

Lemma Forall2_map_normalized (P : value -> Suggestion -> Prop)
  (elems : list value) :
  (forall s, P s (normalized s)) ->
  Forall2 P elems (List.map normalized elems).
Proof.
  intros H; induction elems; simpl; constructor; auto.
Qed.

(** ** Sample runs *)

Ltac responded_now :=
  eexists; split; [reflexivity | apply N.leb_le; reflexivity].

Lemma answering_responded (text description : jsstring) :
  exists m, answering text = Some m /\ responded m description text.
Proof.
  eexists; split; [reflexivity | responded_now].
Qed.

(** ** The claims *)

(** C1: for every report text [analyzeReport] returns a result and never
    throws; when no credential is configured, the transport fails, the call
    times out, no JSON object is found, the JSON does not parse, or a
    required field is missing, the result is exactly the fallback payload. *)
Theorem analyzeReport_total (model : option Model) (description : jsstring) :
  (exists r, outcome (analyzeReport model description) = Return r)
  /\ (failure_mode model description ->
      outcome (analyzeReport model description) = Return getFallbackResponse).
Proof.
  split; [apply analyzeReport_returns | apply failure_absorbed].
Qed.

(** The response without a severity field, from the specification. *)
Lemma analyzeReport_total_missing_severity :
  failure_mode (answering missing_severity_response) report
  /\ outcome (analyzeReport (answering missing_severity_response) report)
     = Return getFallbackResponse.
Proof.
  assert (F : failure_mode (answering missing_severity_response) report).
  { eapply field_missing
      with (k := lit "severity") (jsonMatch := missing_severity_response).
    - reflexivity.
    - responded_now.
    - vm_compute; reflexivity.
    - lazy; reflexivity.
    - simpl; auto.
    - vm_compute; reflexivity. }
  split; [exact F |].
  exact (proj2 (analyzeReport_total _ _) F).
Defined.

(** C2, as the code has it: a result with aiAnalyzed = true carries the
    truthy values the model bound to category and severity, whatever they
    are (they are not compared with the enumerations); a response with a
    required field missing or falsy is discarded whole and replaced by the
    fallback payload. *)
Theorem analyzed_result_carries_model_values (model : option Model)
  (description : jsstring) :
  (forall r,
     outcome (analyzeReport model description) = Return r ->
     aiAnalyzed r = true ->
     exists m text jsonMatch members,
       model = Some m
       /\ responded m description text
       /\ match_braces text = Some jsonMatch
       /\ Json.parse jsonMatch = Return (VObject members)
       /\ lookup (lit "category") members = Some (aiCategory r)
       /\ truthy (aiCategory r) = true
       /\ lookup (lit "severity") members = Some (aiSeverity r)
       /\ truthy (aiSeverity r) = true)
  /\ (forall m text jsonMatch members k,
        model = Some m ->
        responded m description text ->
        match_braces text = Some jsonMatch ->
        Json.parse jsonMatch = Return (VObject members) ->
        In k required_fields ->
        truthy (field (VObject members) k) = false ->
        outcome (analyzeReport model description)
        = Return getFallbackResponse).
Proof.
  split.
  - intros r H A.
    destruct (analyzed_inv _ _ _ H A)
      as (m & text & j & members & elems & Hm & R & M & P & C & S & _ & _
          & ->).
    exists m, text, j, members; simpl.
    repeat split; try assumption; apply truthy_field_bound; assumption.
  - intros m text j members k -> R M P K F.
    destruct (validated_falsy (VObject members) k K F) as [e V].
    eapply analyzeReport_rejected; [exact R |].
    rewrite parse_response_outcome, M, P; exact V.
Qed.

Lemma analyzed_result_of_bogus_enumeration :
  exists members,
    Json.parse bogus_enum_response = Return (VObject members)
    /\ lookup (lit "category") members = Some (VString (lit "gossip"))
    /\ lookup (lit "severity") members = Some (VString (lit "extreme")).
Proof.
  destruct (proj1 (analyzed_result_carries_model_values
                     (answering bogus_enum_response) report)
              (success_result
                 (VObject [(lit "category", VString (lit "gossip"));
                           (lit "severity", VString (lit "extreme"));
                           (lit "suggestions", VArray [])]) []))
    as (m & text & j & members & Hm & R & M & P & C & _ & S & _).
  - vm_compute; reflexivity.
  - reflexivity.
  - exists members.
    destruct R as (t & E & _).
    injection Hm as <-; injection E as _ <-.
    vm_compute in M; injection M as <-.
    split; [exact P | split; [exact C | exact S]].
Defined.

(** C2 as stated fails: a category and a severity outside the enumerations
    come back with aiAnalyzed = true. *)
Lemma enumeration_is_not_enforced :
  exists r,
    outcome (analyzeReport (answering bogus_enum_response) report) = Return r
    /\ aiAnalyzed r = true
    /\ aiCategory r = VString (lit "gossip")
    /\ ~ In (aiCategory r) categories
    /\ aiSeverity r = VString (lit "extreme")
    /\ ~ In (aiSeverity r) severities
    /\ r <> getFallbackResponse.
Proof.
  eexists; split; [vm_compute; reflexivity |].
  repeat split; simpl; try discriminate; intuition discriminate.
Qed.

(** C3: a result with aiAnalyzed = false is the fallback payload: category
    and severity are unknown and the suggestions are the three fixed ones
    (a hotline, an NGO pointer, a legal-aid pointer); every failure mode
    produces this same payload. *)
Theorem unanalyzed_result_is_fallback (model : option Model)
  (description : jsstring) (r : AnalysisResult) :
  outcome (analyzeReport model description) = Return r ->
  aiAnalyzed r = false ->
  r = getFallbackResponse
  /\ aiCategory r = VString (lit "unknown")
  /\ aiSeverity r = VString (lit "unknown")
  /\ aiSuggestions r = aiSuggestions getFallbackResponse
  /\ List.map type (aiSuggestions r)
     = [VString (lit "hotline"); VString (lit "ngo"); VString (lit "legal")]
  /\ List.length (aiSuggestions r) = 3%nat
  /\ (forall model' description',
        failure_mode model' description' ->
        outcome (analyzeReport model' description') = Return r).
Proof.
  intros H A.
  assert (E : r = getFallbackResponse).
  { destruct (analyzeReport_cases model description)
      as [F | (m & text & j & analysis & elems & _ & _ & _ & _ & _ & _ & _
               & _ & S)].
    - rewrite F in H; injection H as <-; reflexivity.
    - rewrite S in H; injection H as <-; discriminate A. }
  subst r; repeat split; try reflexivity.
  intros model' description'; apply failure_absorbed.
Qed.

Lemma unanalyzed_result_without_credential :
  outcome (analyzeReport None report) = Return getFallbackResponse
  /\ aiSuggestions getFallbackResponse <> [].
Proof.
  split; [reflexivity |].
  destruct (unanalyzed_result_is_fallback None report getFallbackResponse
              eq_refl eq_refl) as (_ & _ & _ & _ & _ & L & _).
  intros E; rewrite E in L; discriminate L.
Defined.

(** C4, as the code has it: the object is the span from the first opening
    brace to the last closing brace, so prose before the object without an
    opening brace and prose after it without a closing brace leave the span
    equal to the object.  When that span parses to an object with truthy
    category and severity and an array of suggestions that holds no null,
    the result has aiAnalyzed = true, the category and the severity of the
    object, and every truthy suggestion field unchanged.  The two responses
    of the specification give the stated results. *)
Theorem well_formed_response_is_returned :
  (forall pre body post,
     ~ In 123%N pre -> ~ In 125%N post ->
     match_braces (pre ++ 123%N :: body ++ 125%N :: post)
     = Some (123%N :: body ++ [125%N]))
  /\ (forall m description text jsonMatch members category severity elems,
        responded m description text ->
        match_braces text = Some jsonMatch ->
        Json.parse jsonMatch = Return (VObject members) ->
        lookup (lit "category") members = Some category ->
        truthy category = true ->
        lookup (lit "severity") members = Some severity ->
        truthy severity = true ->
        lookup (lit "suggestions") members = Some (VArray elems) ->
        existsb nullish elems = false ->
        exists r,
          outcome (analyzeReport (Some m) description) = Return r
          /\ aiAnalyzed r = true
          /\ aiCategory r = category
          /\ aiSeverity r = severity
          /\ Forall2 preserves elems (aiSuggestions r))
  /\ outcome (analyzeReport (answering harassment_response) report)
     = Return
         {| aiAnalyzed := true;
            aiCategory := VString (lit "harassment");
            aiSeverity := VString (lit "high");
            aiSummary := VString (lit "...");
            aiSuggestions :=
              [ {| type := VString (lit "legal");
                   name := VString (lit "X");
                   description := VString (lit "Y");
                   contact := VString (lit "Z") |} ] |}
  /\ outcome (analyzeReport (answering prose_response) report)
     = Return
         {| aiAnalyzed := true;
            aiCategory := VString (lit "abuse");
            aiSeverity := VString (lit "low");
            aiSummary := VString (lit "Analysis completed");
            aiSuggestions := [] |}.
Proof.
  split; [exact match_braces_in_prose |].
  split; [| split; vm_compute; reflexivity].
  intros m description text j members category severity elems
    R M P C Tc S Ts G X.
  exists (success_result (VObject members) elems).
  assert (Fc : field (VObject members) (lit "category") = category)
    by (rewrite field_object, C; reflexivity).
  assert (Fs : field (VObject members) (lit "severity") = severity)
    by (rewrite field_object, S; reflexivity).
  assert (Fg : field (VObject members) (lit "suggestions") = VArray elems)
    by (rewrite field_object, G; reflexivity).
  split.
  - apply analyzeReport_success with (text := text) (jsonMatch := j);
      try assumption; [rewrite Fc | rewrite Fs]; assumption.
  - simpl; repeat split; try assumption.
    apply Forall2_map_normalized, normalized_preserves.
Qed.

(** The prose-wrapped response of the specification. *)
Lemma well_formed_response_in_prose :
  exists r,
    outcome (analyzeReport (answering prose_response) report) = Return r
    /\ aiAnalyzed r = true
    /\ aiCategory r = VString (lit "abuse")
    /\ aiSeverity r = VString (lit "low")
    /\ aiSuggestions r = [].
Proof.
  destruct well_formed_response_is_returned as (L & W & _).
  pose (m := constant_model (Settles 1200 (Fulfilled (TextOf prose_response)))).
  assert (R : responded m report prose_response) by responded_now.
  assert (M : match_braces prose_response
              = Some (lit "{`category`:`abuse`,`severity`:`low`,`suggestions`:[]}")).
  { apply (L (lit "Here you go: ")
             (lit "`category`:`abuse`,`severity`:`low`,`suggestions`:[]") []);
      simpl; intuition discriminate. }
  destruct (W m report prose_response _
              [(lit "category", VString (lit "abuse"));
               (lit "severity", VString (lit "low"));
               (lit "suggestions", VArray [])]
              (VString (lit "abuse")) (VString (lit "low")) [] R M)
    as (r & O & A & C & S & F); try (vm_compute; reflexivity).
  exists r; repeat split; try assumption.
  inversion F; reflexivity.
Defined.

(** C4 as stated fails.  A well-formed object followed by prose that holds
    a closing brace is not extracted: the span runs to the last closing
    brace, does not parse, and the result is the fallback payload.  And a
    suggestion field the model supplied as the empty string is not kept:
    the name becomes Resource. *)
Lemma well_formed_object_is_not_always_returned :
  (exists object post,
      trailing_brace_response = object ++ post
      /\ Json.parse object
         = Return
             (VObject
                [(lit "category", VString (lit "abuse"));
                 (lit "severity", VString (lit "low"));
                 (lit "suggestions", VArray [])])
      /\ match_braces trailing_brace_response = Some trailing_brace_response
      /\ Json.parse trailing_brace_response = Throw SyntaxError
      /\ outcome (analyzeReport (answering trailing_brace_response) report)
         = Return getFallbackResponse)
  /\ (exists supplied r sg,
        Json.parse empty_name_response = Return supplied
        /\ field supplied (lit "suggestions")
           = VArray
               [VObject
                  [(lit "type", VString (lit "legal"));
                   (lit "name", VString []);
                   (lit "description", VString (lit "Y"));
                   (lit "contact", VString (lit "Z"))]]
        /\ outcome (analyzeReport (answering empty_name_response) report)
           = Return r
        /\ aiAnalyzed r = true
        /\ aiSuggestions r = [sg]
        /\ name sg = VString (lit "Resource")).
Proof.
  split.
  - exists (lit "{`category`:`abuse`,`severity`:`low`,`suggestions`:[]}"),
      (lit " Stay safe :-}").
    repeat split; vm_compute; reflexivity.
  - eexists; eexists; eexists.
    split; [vm_compute; reflexivity |].
    split; [vm_compute; reflexivity |].
    split; [vm_compute; reflexivity |].
    repeat split.
Qed.

(** C5: with no credential configured the module has no model, and then
    [analyzeReport] sends no request and returns the fallback payload, whose
    aiAnalyzed is false. *)
Theorem unconfigured_analysis_stays_local
  (env : jsstring -> option jsstring) (sdk : jsstring -> Model)
  (description : jsstring) :
  geminiApiKey env = [] ->
  outcome (initModel env sdk) = Return None
  /\ network_calls (trace (analyzeReport None description)) = 0%nat
  /\ (forall prompt,
        ~ In (GenerateContent prompt) (trace (analyzeReport None description)))
  /\ outcome (analyzeReport None description) = Return getFallbackResponse
  /\ aiAnalyzed getFallbackResponse = false.
Proof.
  intros K; unfold initModel; rewrite K; simpl.
  repeat split; try reflexivity.
  intros prompt [H | []]; discriminate H.
Qed.

Lemma unconfigured_analysis_without_environment :
  outcome (analyzeReport None report) = Return getFallbackResponse
  /\ network_calls (trace (analyzeReport None report)) = 0%nat.
Proof.
  destruct (unconfigured_analysis_stays_local no_environment
              (fun _ => constant_model Pending) report eq_refl)
    as (_ & C & _ & O & _).
  split; [exact O | exact C].
Defined.

(** C6: when the model call has not settled after 30 seconds the run is:
    one request, the timer, the logged timeout error, the fallback payload.
    Nothing is retried and nothing is thrown, and the result is the one of
    every other failure. *)
Theorem timeout_yields_fallback (m : Model) (description : jsstring) :
  overdue (generateContent m (ANALYSIS_PROMPT ++ description)) ->
  analyzeReport (Some m) description
  = ([Console Sending;
      GenerateContent (ANALYSIS_PROMPT ++ description);
      SetTimeout 30000;
      Console (ApiError timeout_error)],
     Return getFallbackResponse)
  /\ network_calls (trace (analyzeReport (Some m) description)) = 1%nat
  /\ (forall model',
        failure_mode model' description ->
        outcome (analyzeReport model' description)
        = outcome (analyzeReport (Some m) description)).
Proof.
  intros O.
  assert (E : analyzeReport (Some m) description
              = ([Console Sending;
                  GenerateContent (ANALYSIS_PROMPT ++ description);
                  SetTimeout 30000;
                  Console (ApiError timeout_error)],
                 Return getFallbackResponse)).
  { unfold analyzeReport; rewrite (race_overdue _ O); reflexivity. }
  split; [exact E |].
  split; [apply analyzeReport_calls with (model := Some m) |].
  intros model' F; rewrite E; apply failure_absorbed; exact F.
Qed.

Lemma timeout_of_a_hanging_call :
  outcome (analyzeReport (Some (constant_model Pending)) report)
  = Return getFallbackResponse
  /\ network_calls (trace (analyzeReport (Some (constant_model Pending)) report))
     = 1%nat.
Proof.
  destruct (timeout_yields_fallback (constant_model Pending) report I)
    as (E & C & _).
  split; [rewrite E; reflexivity | exact C].
Defined.

(** C7, as the code has it: on success the summary and every suggestion
    field are defaulted when absent or falsy and kept unchanged otherwise:
    summary to the placeholder, type to other, name to Resource, description
    and contact to the empty string.  A type outside the enumeration is kept
    as it is. *)
Theorem successful_result_is_normalized (model : option Model)
  (input : jsstring) (r : AnalysisResult) :
  outcome (analyzeReport model input) = Return r ->
  aiAnalyzed r = true ->
  exists m text jsonMatch members elems,
    model = Some m
    /\ responded m input text
    /\ match_braces text = Some jsonMatch
    /\ Json.parse jsonMatch = Return (VObject members)
    /\ lookup (lit "suggestions") members = Some (VArray elems)
    /\ defaulted (field (VObject members) (lit "summary"))
         (VString (lit "Analysis completed")) (aiSummary r)
    /\ (lookup (lit "summary") members = None ->
        aiSummary r = VString (lit "Analysis completed"))
    /\ Forall2
         (fun s sg =>
            defaulted (field s (lit "type")) (VString (lit "other")) (type sg)
            /\ defaulted (field s (lit "name")) (VString (lit "Resource"))
                 (name sg)
            /\ defaulted (field s (lit "description")) (VString [])
                 (description sg)
            /\ defaulted (field s (lit "contact")) (VString []) (contact sg)
            /\ forall fields k,
                 s = VObject fields -> lookup k fields = None ->
                 truthy (field s k) = false)
         elems (aiSuggestions r).
Proof.
  intros H A.
  destruct (analyzed_inv _ _ _ H A)
    as (m & text & j & members & elems & Hm & R & M & P & C & S & G & X & ->).
  exists m, text, j, members, elems; simpl.
  repeat split; try assumption.
  - rewrite <- G; apply truthy_field_bound; rewrite G; reflexivity.
  - apply js_or_defaulted.
  - apply js_or_defaulted.
  - intros L; rewrite field_object, L; reflexivity.
  - apply Forall2_map_normalized; intros s.
    repeat split; try apply js_or_defaulted.
    intros fields k -> L; rewrite field_object, L; reflexivity.
Qed.

Lemma successful_result_of_prose_response :
  exists r,
    outcome (analyzeReport (answering prose_response) report) = Return r
    /\ aiSummary r = VString (lit "Analysis completed").
Proof.
  eexists; split; [vm_compute; reflexivity |].
  destruct (successful_result_is_normalized
              (answering prose_response) report _ eq_refl eq_refl)
    as (m & text & j & members & elems & Hm & R & M & P & _ & _ & D & _).
  apply D.
  destruct R as (t & E & _).
  injection Hm as <-; injection E as _ <-.
  vm_compute in M; injection M as <-.
  vm_compute in P; injection P as <-.
  reflexivity.
Defined.

(** C7 as stated fails: a suggestion type outside the enumeration is not
    replaced by the generic value. *)
Lemma invalid_type_is_kept :
  exists r sg,
    outcome (analyzeReport (answering bogus_type_response) report) = Return r
    /\ aiAnalyzed r = true
    /\ aiSuggestions r = [sg]
    /\ type sg = VString (lit "bogus")
    /\ ~ In (type sg) suggestion_types
    /\ type sg <> VString (lit "other").
Proof.
  eexists; eexists; split; [vm_compute; reflexivity |].
  repeat split; simpl; try discriminate; intuition discriminate.
Qed.

(** C8, as the code has it: the summary of the fallback payload has 127
    characters; the summary of a successful analysis is the one the model
    supplied, unchanged whatever its length, or the 18 character placeholder
    when the model supplied none. *)
Theorem summary_is_fallback_or_model_supplied (model : option Model)
  (description : jsstring) (r : AnalysisResult) :
  outcome (analyzeReport model description) = Return r ->
  (aiAnalyzed r = false
   /\ aiSummary r = aiSummary getFallbackResponse
   /\ string_length (aiSummary r) = Some 127%nat)
  \/ (aiAnalyzed r = true
      /\ exists m text jsonMatch members,
           model = Some m
           /\ responded m description text
           /\ match_braces text = Some jsonMatch
           /\ Json.parse jsonMatch = Return (VObject members)
           /\ (forall summary,
                 lookup (lit "summary") members = Some summary ->
                 truthy summary = true ->
                 aiSummary r = summary)
           /\ (forall summary,
                 lookup (lit "summary") members = Some summary ->
                 truthy summary = false ->
                 aiSummary r = VString (lit "Analysis completed"))
           /\ (lookup (lit "summary") members = None ->
               aiSummary r = VString (lit "Analysis completed"))
           /\ string_length (VString (lit "Analysis completed"))
              = Some 18%nat).
Proof.
  intros H.
  destruct (aiAnalyzed r) eqn:A; [right | left].
  - split; [reflexivity |].
    destruct (analyzed_inv _ _ _ H A)
      as (m & text & j & members & elems & Hm & R & M & P & _ & _ & _ & _
          & ->).
    exists m, text, j, members; simpl; unfold js_or.
    rewrite field_object.
    repeat split; try assumption.
    + intros summary -> T; rewrite T; reflexivity.
    + intros summary -> T; rewrite T; reflexivity.
    + intros ->; reflexivity.
  - destruct (analyzeReport_cases model description)
      as [F | (m & text & j & analysis & elems & _ & _ & _ & _ & _ & _ & _
               & _ & S)].
    + rewrite F in H; injection H as <-; repeat split; reflexivity.
    + rewrite S in H; injection H as <-; discriminate A.
Qed.

Lemma summary_of_the_fallback :
  string_length (aiSummary getFallbackResponse) = Some 127%nat
  /\ (127 <= 500)%nat.
Proof.
  destruct (summary_is_fallback_or_model_supplied None report
              getFallbackResponse eq_refl)
    as [(_ & _ & L) | (A & _)]; [| discriminate A].
  split; [exact L | lia].
Defined.

(** C8 as stated fails: a summary of 501 characters supplied by the model is
    returned as it is. *)
Lemma long_summary_is_returned :
  exists r s,
    outcome (analyzeReport (answering long_summary_response) report) = Return r
    /\ aiAnalyzed r = true
    /\ aiSummary r = VString s
    /\ List.length s = 501%nat
    /\ (500 < List.length s)%nat.
Proof.
  eexists; eexists; split; [vm_compute; reflexivity |].
  repeat split; simpl; lia.
Qed.

(** C9: [getAIStatus] performs no effect at all, hence no network call, and
    returns a record with a boolean [configured] and the provider name;
    [configured] is false exactly when no credential is set, that is when
    GEMINI_API_KEY is unset or empty. *)
Theorem getAIStatus_reports_configuration
  (env : jsstring -> option jsstring) (sdk : jsstring -> Model)
  (model : option Model) :
  outcome (initModel env sdk) = Return model ->
  exists st,
    getAIStatus model = ([], Return st)
    /\ provider st = lit "Google Gemini"
    /\ (configured st = false <-> geminiApiKey env = [])
    /\ (geminiApiKey env = []
        <-> env (lit "GEMINI_API_KEY") = None
            \/ env (lit "GEMINI_API_KEY") = Some []).
Proof.
  intros H; eexists; split; [reflexivity |]; split; [reflexivity |]; simpl.
  split.
  - unfold initModel in H.
    destruct (geminiApiKey env) as [| c s]; simpl in H; injection H as <-;
      split; intros E; try reflexivity; discriminate E.
  - unfold geminiApiKey, optionalEnv.
    destruct (env (lit "GEMINI_API_KEY")) as [[| c s] |].
    + split; auto.
    + split; [discriminate | intros [E | E]; discriminate E].
    + split; auto.
Qed.

Lemma getAIStatus_with_and_without_key :
  (exists st, getAIStatus None = ([], Return st) /\ configured st = false)
  /\ (forall sdk,
        exists st,
          getAIStatus (Some (sdk (lit "secret"))) = ([], Return st)
          /\ configured st <> false).
Proof.
  split.
  - destruct (getAIStatus_reports_configuration no_environment
                (fun _ => constant_model Pending) None eq_refl)
      as (st & E & _ & C & _).
    exists st; split; [exact E | apply C; reflexivity].
  - intros sdk.
    destruct (getAIStatus_reports_configuration
                (key_environment (lit "secret")) sdk
                (Some (sdk (lit "secret"))) eq_refl)
      as (st & E & _ & C & _).
    exists st; split; [exact E |].
    intros F; apply C in F; discriminate F.
Defined.

(** C10: a required field that is present but bound to a falsy value (the
    empty string, null, false, zero) is treated like a missing one: the
    result is the fallback payload. *)
Theorem falsy_required_field_is_missing (m : Model)
  (description text jsonMatch : jsstring)
  (members : list (jsstring * value)) (k : jsstring) (v : value) :
  responded m description text ->
  match_braces text = Some jsonMatch ->
  Json.parse jsonMatch = Return (VObject members) ->
  In k required_fields ->
  lookup k members = Some v ->
  truthy v = false ->
  outcome (analyzeReport (Some m) description) = Return getFallbackResponse.
Proof.
  intros R M P K L F.
  destruct (validated_falsy (VObject members) k K) as [e V].
  { rewrite field_object, L; exact F. }
  eapply analyzeReport_rejected; [exact R |].
  rewrite parse_response_outcome, M, P; exact V.
Qed.

Lemma falsy_required_field_empty_category :
  outcome (analyzeReport (answering empty_category_response) report)
  = Return getFallbackResponse.
Proof.
  eapply falsy_required_field_is_missing
    with (k := lit "category") (v := VString [])
         (jsonMatch := empty_category_response).
  - responded_now.
  - vm_compute; reflexivity.
  - lazy; reflexivity.
  - simpl; auto.
  - vm_compute; reflexivity.
  - reflexivity.
Defined.

(** ** More about geminiService.js *)

Lemma through_last_none_absent (c : N) (s : jsstring) :
  through_last c s = None -> ~ In c s.
Proof.
  induction s as [| x r IH]; simpl; [tauto |].
  destruct (through_last c r); [discriminate |].
  destruct (N.eqb x c) eqn:E; [discriminate |].
  apply N.eqb_neq in E; intros _ [H | H]; [congruence | exact (IH eq_refl H)].
Qed.

Lemma through_last_inv (c : N) (s p : jsstring) :
  through_last c s = Some p ->
  exists body post, p = body ++ [c] /\ s = p ++ post /\ ~ In c post.
Proof.
  revert p; induction s as [| x r IH]; simpl; [discriminate |].
  intros p; destruct (through_last c r) as [p' |] eqn:E.
  - intros H; injection H as <-.
    destruct (IH p' eq_refl) as (body & post & -> & Hr & Hp).
    exists (x :: body), post; simpl; rewrite Hr at 1; auto.
  - destruct (N.eqb x c) eqn:X; [| discriminate].
    intros H; injection H as <-; apply N.eqb_eq in X; subst x.
    exists [], r; repeat split; auto using through_last_none_absent.
Qed.

Lemma match_braces_without_closing (text : jsstring) :
  ~ In 125%N text -> match_braces text = None.
Proof.
  induction text as [| c r IH]; simpl; [reflexivity |].
  intros H; rewrite (through_last_absent 125 r) by tauto.
  rewrite IH by tauto; destruct (N.eqb c 123); reflexivity.
Qed.

Lemma match_braces_inv (text jsonMatch : jsstring) :
  match_braces text = Some jsonMatch ->
  exists pre body post,
    text = pre ++ 123%N :: body ++ 125%N :: post
    /\ ~ In 123%N pre /\ ~ In 125%N post
    /\ jsonMatch = 123%N :: body ++ [125%N].
Proof.
  induction text as [| c r IH]; simpl; [discriminate |].
  destruct (N.eqb c 123) eqn:E.
  - apply N.eqb_eq in E; subst c.
    destruct (through_last 125 r) as [p |] eqn:T.
    + intros H; injection H as <-.
      destruct (through_last_inv _ _ _ T) as (body & post & -> & Hr & Hp).
      exists [], body, post; simpl; rewrite Hr, <- app_assoc; auto.
    + rewrite match_braces_without_closing
        by (apply through_last_none_absent; exact T).
      discriminate.
  - intros H; destruct (IH H) as (pre & body & post & -> & Hpre & Hpost & ->).
    exists (c :: pre), body, post; repeat split; auto.
    apply N.eqb_neq in E; simpl; intros [F | F]; [congruence | tauto].
Qed.

Lemma match_braces_found (pre mid post : jsstring) :
  match_braces (pre ++ 123%N :: mid ++ 125%N :: post) <> None.
Proof.
  assert (T : forall s, through_last 125 (s ++ 125%N :: post) <> None).
  { intros s E; apply through_last_none_absent in E.
    apply E, in_or_app; right; left; reflexivity. }
  induction pre as [| c r IH]; simpl.
  - destruct (through_last 125 (mid ++ 125%N :: post)) eqn:E;
      [discriminate | destruct (T _ E)].
  - destruct (N.eqb c 123); [| exact IH].
    change (r ++ 123%N :: mid ++ 125%N :: post)
      with (r ++ [123%N] ++ mid ++ 125%N :: post).
    rewrite 2!app_assoc.
    destruct (through_last 125 (((r ++ [123%N]) ++ mid) ++ 125%N :: post))
      eqn:E; [discriminate | destruct (T _ E)].
Qed.

(** X1: the regular expression matches exactly when a closing brace follows
    an opening brace, and the match is then the span from the first opening
    brace to the last closing brace. *)
Theorem match_braces_is_first_to_last :
  (forall text jsonMatch,
     match_braces text = Some jsonMatch
     <-> exists pre body post,
           text = pre ++ 123%N :: body ++ 125%N :: post
           /\ ~ In 123%N pre /\ ~ In 125%N post
           /\ jsonMatch = 123%N :: body ++ [125%N])
  /\ (forall text,
        match_braces text = None
        <-> ~ exists pre mid post,
              text = pre ++ 123%N :: mid ++ 125%N :: post).
Proof.
  split.
  - intros text j; split; [apply match_braces_inv |].
    intros (pre & body & post & -> & Hpre & Hpost & ->).
    apply match_braces_in_prose; assumption.
  - intros text; split.
    + intros E (pre & mid & post & ->); exact (match_braces_found _ _ _ E).
    + intros H; destruct (match_braces text) as [j |] eqn:E; [| reflexivity].
      destruct (match_braces_inv _ _ E) as (pre & body & post & -> & _).
      exfalso; apply H; exists pre, body, post; reflexivity.
Qed.

Lemma parse_throws_syntax_error (text : jsstring) (e : js_error) :
  Json.parse text = Throw e -> e = SyntaxError.
Proof.
  unfold Json.parse; destruct (Json.lex _ text) as [ts |];
    [destruct (Json.parse_tokens _ ts) |]; intros H; try discriminate;
    injection H as <-; reflexivity.
Qed.

(** X2: the inner try block fails in exactly four ways: no brace span, a
    span that is not JSON, a required field that is missing or falsy, or
    suggestions that are not an array of non-null values.  The parsed span
    is always an object, so reading its fields never throws. *)
Theorem parse_response_failures (text : jsstring) (e : js_error) :
  outcome (parse_response text) = Throw e ->
  (match_braces text = None
   /\ e = Error (lit "No JSON found in response"))
  \/ (exists jsonMatch,
        match_braces text = Some jsonMatch
        /\ Json.parse jsonMatch = Throw SyntaxError
        /\ e = SyntaxError)
  \/ (exists jsonMatch members k,
        match_braces text = Some jsonMatch
        /\ Json.parse jsonMatch = Return (VObject members)
        /\ In k required_fields
        /\ truthy (field (VObject members) k) = false
        /\ e = Error (lit "Missing required fields in AI response"))
  \/ (exists jsonMatch members v,
        match_braces text = Some jsonMatch
        /\ Json.parse jsonMatch = Return (VObject members)
        /\ lookup (lit "suggestions") members = Some v
        /\ truthy v = true
        /\ (forall elems, v = VArray elems -> existsb nullish elems = true)
        /\ e = TypeError).
Proof.
  rewrite parse_response_outcome.
  destruct (match_braces text) as [j |] eqn:M.
  2: { intros H; injection H as <-; left; auto. }
  destruct (Json.parse j) as [analysis | e'] eqn:P.
  2: { intros H; injection H as ->; right; left; exists j.
       pose proof (parse_throws_syntax_error _ _ P); subst e; auto. }
  destruct (parsed_match_is_object _ _ _ M P) as [members ->].
  unfold validated; change (nullish (VObject members)) with false.
  cbv beta match.
  destruct (truthy (field (VObject members) (lit "category"))) eqn:C.
  2: { intros H; injection H as <-; right; right; left.
       exists j, members, (lit "category").
       repeat split; try assumption; unfold required_fields; simpl; tauto. }
  destruct (truthy (field (VObject members) (lit "severity"))) eqn:S.
  2: { intros H; injection H as <-; right; right; left.
       exists j, members, (lit "severity").
       repeat split; try assumption; unfold required_fields; simpl; tauto. }
  destruct (truthy (field (VObject members) (lit "suggestions"))) eqn:G.
  2: { intros H; injection H as <-; right; right; left.
       exists j, members, (lit "suggestions").
       repeat split; try assumption; unfold required_fields; simpl; tauto. }
  cbv beta match; simpl andb; cbv beta match.
  pose proof (truthy_field_bound _ _ G) as L.
  intros H; right; right; right.
  exists j, members, (field (VObject members) (lit "suggestions")).
  repeat split; try assumption.
  - intros elems E; rewrite E in H.
    destruct (existsb nullish elems); [reflexivity | discriminate H].
  - destruct (field (VObject members) (lit "suggestions")) as [| | | | | l |];
      try (injection H as <-; reflexivity).
    destruct (existsb nullish l); [injection H as <-; reflexivity |].
    discriminate H.
Qed.

Lemma parse_response_failure_missing_severity :
  outcome (parse_response missing_severity_response)
  = Throw (Error (lit "Missing required fields in AI response")).
Proof.
  destruct (outcome (parse_response missing_severity_response)) as [r | e]
    eqn:O; [vm_compute in O; discriminate O |].
  destruct (parse_response_failures _ _ O)
    as [(M & _) | [(j & M & P & _) | [(j & ms & k & _ & _ & _ & _ & ->)
        | (j & ms & v & M & P & L & _ & A & _)]]].
  - vm_compute in M; discriminate M.
  - vm_compute in M; injection M as <-; vm_compute in P; discriminate P.
  - reflexivity.
  - vm_compute in M; injection M as <-; vm_compute in P; injection P as <-.
    vm_compute in L; injection L as <-.
    specialize (A [] eq_refl); discriminate A.
Defined.

Lemma js_or_truthy (a b : value) : truthy b = true -> truthy (js_or a b) = true.
Proof.
  unfold js_or; destruct (truthy a) eqn:E; auto.
Qed.

Lemma js_or_truthy_or_default (a b : value) :
  truthy (js_or a b) = true \/ js_or a b = b.
Proof.
  unfold js_or; destruct (truthy a) eqn:E; auto.
Qed.

(** X3: in every result, fallback or not, category, severity and summary are
    truthy, every suggestion has a truthy type and name, and its description
    and contact are truthy or the empty string: no field is undefined, null
    or missing. *)
Theorem result_fields_are_present (model : option Model)
  (input : jsstring) (r : AnalysisResult) :
  outcome (analyzeReport model input) = Return r ->
  truthy (aiCategory r) = true
  /\ truthy (aiSeverity r) = true
  /\ truthy (aiSummary r) = true
  /\ Forall
       (fun sg =>
          truthy (type sg) = true
          /\ truthy (name sg) = true
          /\ (truthy (description sg) = true \/ description sg = VString [])
          /\ (truthy (contact sg) = true \/ contact sg = VString []))
       (aiSuggestions r).
Proof.
  intros H.
  destruct (analyzeReport_cases model input)
    as [F | (m & text & j & analysis & elems & _ & _ & _ & _ & C & S & _ & _
             & E)].
  - rewrite F in H; injection H as <-.
    repeat split; try reflexivity.
    repeat constructor; left; reflexivity.
  - rewrite E in H; injection H as <-; simpl.
    repeat split; try assumption.
    + apply js_or_truthy; reflexivity.
    + apply Forall_forall; intros sg I.
      apply in_map_iff in I; destruct I as (s & <- & _); simpl.
      repeat split; try (apply js_or_truthy; reflexivity);
        apply js_or_truthy_or_default.
Qed.

Lemma result_fields_of_bogus_type_response :
  exists r,
    outcome (analyzeReport (answering bogus_type_response) report) = Return r
    /\ Forall (fun sg => description sg = VString []) (aiSuggestions r).
Proof.
  eexists; split; [vm_compute; reflexivity |].
  pose proof (result_fields_are_present (answering bogus_type_response)
                report _ eq_refl) as (_ & _ & _ & F).
  inversion F as [| sg l (_ & _ & [D | D] & _) _]; subst.
  - discriminate D.
  - repeat constructor.
Defined.

(** X4: a result has aiAnalyzed = true exactly when a model is configured,
    it answered in time, the brace span of its answer parses to an object
    whose category and severity are truthy and whose suggestions are an
    array without null. *)
Theorem analyzed_exactly_when_valid (model : option Model)
  (input : jsstring) (r : AnalysisResult) :
  outcome (analyzeReport model input) = Return r ->
  (aiAnalyzed r = true
   <-> exists m text jsonMatch members elems,
         model = Some m
         /\ responded m input text
         /\ match_braces text = Some jsonMatch
         /\ Json.parse jsonMatch = Return (VObject members)
         /\ truthy (field (VObject members) (lit "category")) = true
         /\ truthy (field (VObject members) (lit "severity")) = true
         /\ lookup (lit "suggestions") members = Some (VArray elems)
         /\ existsb nullish elems = false).
Proof.
  intros H; split.
  - intros A.
    destruct (analyzed_inv _ _ _ H A)
      as (m & text & j & members & elems & Hm & R & M & P & C & S & G & X & _).
    exists m, text, j, members, elems; repeat split; try assumption.
    rewrite <- G; apply truthy_field_bound; rewrite G; reflexivity.
  - intros (m & text & j & members & elems & -> & R & M & P & C & S & G & X).
    rewrite (analyzeReport_success m input text j members elems) in H;
      try assumption.
    + injection H as <-; reflexivity.
    + rewrite field_object, G; reflexivity.
Qed.

Lemma analyzed_exactly_when_valid_unconfigured :
  outcome (analyzeReport None report) = Return getFallbackResponse
  /\ aiAnalyzed getFallbackResponse <> true.
Proof.
  split; [reflexivity |].
  intros A.
  apply (analyzed_exactly_when_valid None report getFallbackResponse eq_refl)
    in A.
  destruct A as (m & _ & _ & _ & _ & F & _); discriminate F.
Defined.

(** The whole run of a configured analysis. *)
Lemma analyzeReport_run (m : Model) (input : jsstring) :
  analyzeReport (Some m) input
  = match race (generateContent m (ANALYSIS_PROMPT ++ input)) timeoutMs with
    | Return (TextOf text) =>
        match parse_response text with
        | (t, Return r) =>
            (Console Sending :: GenerateContent (ANALYSIS_PROMPT ++ input)
               :: SetTimeout timeoutMs :: t,
             Return r)
        | (t, Throw e) =>
            (Console Sending :: GenerateContent (ANALYSIS_PROMPT ++ input)
               :: SetTimeout timeoutMs
               :: t ++ [Console (ParseFailed e);
                        Console (RawResponse (substring0 200 text ++ lit "..."))],
             Return getFallbackResponse)
        end
    | Return (TextThrows e) | Throw e =>
        ([Console Sending; GenerateContent (ANALYSIS_PROMPT ++ input);
          SetTimeout timeoutMs; Console (ApiError e)],
         Return getFallbackResponse)
    end.
Proof.
  unfold analyzeReport.
  destruct (race _ timeoutMs) as [[text | e] | e]; try reflexivity.
  cbv [bind try_catch emit lift text_of app].
  destruct (parse_response text) as [t [r | e]]; cbv [ret app];
    rewrite ?app_nil_r; reflexivity.
Qed.

Lemma parse_response_trace (text : jsstring) :
  trace (parse_response text) = []
  \/ trace (parse_response text) = [Console Completed].
Proof.
  unfold parse_response.
  destruct (match_braces text) as [j |]; [| left; reflexivity].
  io_simpl.
  destruct (Json.parse j) as [analysis |]; [| left; reflexivity].
  io_simpl; rewrite missing_required_trace.
  destruct (outcome (missing_required analysis)) as [[] |]; io_simpl;
    try (left; reflexivity).
  repeat (destruct (get analysis _); io_simpl; try (right; reflexivity)).
  rewrite array_map_trace.
  destruct (outcome (array_map _ normalize_suggestion)); right; reflexivity.
Qed.

(** X5: a configured analysis logs that it is sending, sends one request
    whose prompt is the template followed by the report text as it is, arms
    one timer of 30000 ms, and after that only writes to the console. *)
Theorem configured_run_sends_once (m : Model) (input : jsstring) :
  exists rest,
    trace (analyzeReport (Some m) input)
    = Console Sending
        :: GenerateContent (ANALYSIS_PROMPT ++ input)
        :: SetTimeout 30000
        :: rest
    /\ Forall (fun ev => exists l, ev = Console l) rest.
Proof.
  rewrite analyzeReport_run.
  destruct (race _ timeoutMs) as [[text | e] | e];
    try (eexists; split; [reflexivity | repeat constructor; eexists; reflexivity]).
  destruct (parse_response_trace text) as [T | T];
    destruct (parse_response text) as [t [r | e]]; simpl in T; subst t;
    eexists; (split; [reflexivity |]);
    repeat constructor; eexists; reflexivity.
Qed.

(** X6: the Raw response line of the console (line 146) holds the first 200
    code units of the model's answer followed by three dots, 203 code units
    at most, and is written only when that answer was rejected and the
    fallback payload returned.  The line before it (line 145) carries the
    message of the parse error, which this bound does not cover. *)
Theorem raw_response_line_is_an_excerpt (model : option Model)
  (input excerpt : jsstring) :
  In (Console (RawResponse excerpt)) (trace (analyzeReport model input)) ->
  (List.length excerpt <= 203)%nat
  /\ outcome (analyzeReport model input) = Return getFallbackResponse
  /\ exists m text,
       model = Some m
       /\ responded m input text
       /\ excerpt = firstn 200 text ++ lit "...".
Proof.
  destruct model as [m |]; [| intros [H | []]; discriminate H].
  rewrite analyzeReport_run.
  destruct (race _ timeoutMs) as [[text | e] | e] eqn:R.
  - destruct (parse_response_trace text) as [T | T];
      destruct (parse_response text) as [t [r | e]]; simpl in T; subst t;
      simpl; intros H;
      repeat (destruct H as [H | H]; try discriminate H); try contradiction;
      injection H as <-;
      (split; [rewrite length_app; unfold substring0;
               pose proof (firstn_le_length 200 text);
               change (List.length (lit "...")) with 3%nat; lia |]);
      (split; [reflexivity |]);
      exists m, text; (split; [reflexivity |]);
      (split; [apply race_inv; exact R | reflexivity]).
  - simpl; intros H.
    repeat (destruct H as [H | H]; try discriminate H); contradiction.
  - simpl; intros H.
    repeat (destruct H as [H | H]; try discriminate H); contradiction.
Qed.

Lemma raw_response_line_of_missing_severity :
  In (Console (RawResponse (missing_severity_response ++ lit "...")))
    (trace (analyzeReport (answering missing_severity_response) report))
  /\ (List.length (missing_severity_response ++ lit "...") <= 203)%nat.
Proof.
  assert (I : In (Console (RawResponse (missing_severity_response ++ lit "...")))
                (trace (analyzeReport (answering missing_severity_response)
                          report))).
  { vm_compute; auto 10. }
  split; [exact I |].
  exact (proj1 (raw_response_line_is_an_excerpt _ _ _ I)).
Defined.

(** X7: when category and severity are truthy but suggestions is a truthy
    value that is not an array of non-null values, the run logs that the
    analysis completed successfully, then that parsing failed with a
    TypeError, and returns the fallback payload. *)
Theorem malformed_suggestions_fall_back (m : Model)
  (input text jsonMatch : jsstring)
  (members : list (jsstring * value)) (v : value) :
  responded m input text ->
  match_braces text = Some jsonMatch ->
  Json.parse jsonMatch = Return (VObject members) ->
  truthy (field (VObject members) (lit "category")) = true ->
  truthy (field (VObject members) (lit "severity")) = true ->
  lookup (lit "suggestions") members = Some v ->
  truthy v = true ->
  (forall elems, v = VArray elems -> existsb nullish elems = true) ->
  analyzeReport (Some m) input
  = ([Console Sending;
      GenerateContent (ANALYSIS_PROMPT ++ input);
      SetTimeout 30000;
      Console Completed;
      Console (ParseFailed TypeError);
      Console (RawResponse (firstn 200 text ++ lit "..."))],
     Return getFallbackResponse).
Proof.
  intros R M P C S L T A.
  assert (G : field (VObject members) (lit "suggestions") = v)
    by (rewrite field_object, L; reflexivity).
  assert (O : outcome (parse_response text) = Throw TypeError).
  { rewrite parse_response_outcome, M, P; unfold validated.
    change (nullish (VObject members)) with false; cbv beta match.
    rewrite C, S, G, T; simpl.
    destruct v; try reflexivity.
    rewrite (A l eq_refl); reflexivity. }
  assert (Tr : trace (parse_response text) = [Console Completed]).
  { unfold parse_response; rewrite M; io_simpl; rewrite P; io_simpl.
    rewrite missing_required_trace.
    rewrite (missing_required_outcome (VObject members) eq_refl).
    rewrite C, S, G, T; simpl; io_simpl.
    rewrite array_map_trace.
    destruct (outcome (array_map _ normalize_suggestion)); reflexivity. }
  rewrite analyzeReport_run, (race_responded _ _ _ R).
  destruct (parse_response text) as [t c]; simpl in O, Tr; subst t c.
  reflexivity.
Qed.

Lemma malformed_suggestions_given_as_text :
  outcome (analyzeReport (answering text_suggestions_response) report)
  = Return getFallbackResponse
  /\ In (Console Completed)
       (trace (analyzeReport (answering text_suggestions_response) report)).
Proof.
  pose proof (malformed_suggestions_fall_back
                (constant_model
                   (Settles 1200 (Fulfilled (TextOf text_suggestions_response))))
                report text_suggestions_response text_suggestions_response
                [(lit "category", VString (lit "abuse"));
                 (lit "severity", VString (lit "low"));
                 (lit "suggestions", VString (lit "call a lawyer"))]
                (VString (lit "call a lawyer"))) as H.
  unfold answering; rewrite H.
  - split; [reflexivity | simpl; auto].
  - responded_now.
  - vm_compute; reflexivity.
  - vm_compute; reflexivity.
  - reflexivity.
  - reflexivity.
  - vm_compute; reflexivity.
  - reflexivity.
  - intros elems E; discriminate E.
Defined.

(** ** config/env.js *)

(** [requireEnv] exits with code 1, after two error lines, exactly when
    the variable is unset or empty and the default is absent or empty;
    otherwise it returns a non-empty string, the variable when it is set and
    the default when it is not, and logs nothing. *)
Lemma requireEnv_exits_only_without_value (env : Env.environment)
  (name : jsstring) (defaultValue : option jsstring) :
  (Env.requireEnv env name defaultValue
   = ([Env.MissingVariable name; Env.PleaseSet name], Env.Exited 1)
   <-> (env name = None \/ env name = Some [])
       /\ (defaultValue = None \/ defaultValue = Some []))
  /\ (forall t code,
        Env.requireEnv env name defaultValue = (t, Env.Exited code) ->
        t = [Env.MissingVariable name; Env.PleaseSet name] /\ code = 1%N)
  /\ (forall t v,
        Env.requireEnv env name defaultValue = (t, Env.Running v) ->
        t = [] /\ v <> []
        /\ (env name = Some v
            \/ ((env name = None \/ env name = Some [])
                /\ defaultValue = Some v))).
Proof.
  unfold Env.requireEnv.
  destruct (env name) as [[| c s] |]; destruct defaultValue as [[| d r] |];
    (split; [split; [intros H; try discriminate H; auto
                    | intros [[E | E] [D | D]]; try discriminate E;
                      try discriminate D; reflexivity]
            | split; intros t v H; try discriminate H; injection H as <- <-;
              repeat split; try discriminate; auto]).
Qed.

Lemma load_runs (env : Env.environment) :
  exists t config, Env.load env = (t, Env.Running config).
Proof.
  unfold Env.load, Env.requireEnv, Env.andThen.
  destruct (env (lit "MONGODB_URI")) as [[| c s] |];
    destruct (env (lit "JWT_SECRET")) as [[| d r] |];
    eexists; eexists; reflexivity.
Qed.

(** X8: loading the configuration never exits, whatever the environment:
    both calls of [requireEnv] carry a non-empty default.  An unset or empty
    JWT_SECRET gives the development secret, also when NODE_ENV is
    production; the key the analyzer sees is the one of the configuration. *)
Theorem load_never_exits (env : Env.environment) :
  exists t config,
    Env.load env = (t, Env.Running config)
    /\ List.length t = 6%nat
    /\ Env.mongodbUri config <> []
    /\ Env.jwtSecret config <> []
    /\ (env (lit "JWT_SECRET") = None \/ env (lit "JWT_SECRET") = Some [] ->
        Env.jwtSecret config = lit "dev-secret-change-in-production")
    /\ (env (lit "MONGODB_URI") = None \/ env (lit "MONGODB_URI") = Some [] ->
        Env.mongodbUri config = lit "mongodb://localhost:27017/safespeak")
    /\ Env.geminiApiKey config = geminiApiKey env.
Proof.
  unfold Env.load, Env.requireEnv, Env.andThen.
  destruct (env (lit "MONGODB_URI")) as [[| c s] |];
    destruct (env (lit "JWT_SECRET")) as [[| d r] |];
    eexists; eexists; (split; [reflexivity |]); cbn [Env.mongodbUri
      Env.jwtSecret Env.geminiApiKey List.length app];
    repeat split; try discriminate; try reflexivity;
    intros [E | E]; try discriminate E; reflexivity.
Qed.

Lemma load_in_production_without_secret :
  exists t config,
    Env.load production_environment = (t, Env.Running config)
    /\ Env.isProduction config = true
    /\ Env.jwtSecret config = lit "dev-secret-change-in-production".
Proof.
  destruct (load_never_exits production_environment)
    as (t & config & L & _ & _ & _ & S & _).
  exists t, config; split; [exact L |]; split.
  - vm_compute in L; injection L as _ <-; reflexivity.
  - apply S; left; reflexivity.
Defined.

(** X9: [isDevelopment] holds exactly when NODE_ENV is development or is
    unset or empty, [isProduction] exactly when it is production; they never
    hold together, and for any other NODE_ENV neither holds. *)
Theorem development_and_production (env : Env.environment)
  (t : list Env.line) (config : Env.Config) :
  Env.load env = (t, Env.Running config) ->
  (Env.isDevelopment config = true
   <-> env (lit "NODE_ENV") = None \/ env (lit "NODE_ENV") = Some []
       \/ env (lit "NODE_ENV") = Some (lit "development"))
  /\ (Env.isProduction config = true
      <-> env (lit "NODE_ENV") = Some (lit "production"))
  /\ ~ (Env.isDevelopment config = true /\ Env.isProduction config = true).
Proof.
  intros L.
  unfold Env.load, Env.requireEnv, Env.andThen in L.
  destruct (env (lit "MONGODB_URI")) as [[| c s] |];
    destruct (env (lit "JWT_SECRET")) as [[| d r] |];
    injection L as _ <-; cbn [Env.isDevelopment Env.isProduction];
    unfold optionalEnv;
    destruct (env (lit "NODE_ENV")) as [[| x y] |];
    rewrite ?jsstring_eqb_eq;
    (split; [| split];
     [ split; [intros E; try (right; right; rewrite E; reflexivity); auto
              | intros [E | [E | E]]; try discriminate E;
                try (injection E as -> ->); reflexivity]
     | split; [intros E; try discriminate E; rewrite E; reflexivity
              | intros E; try discriminate E; injection E as -> ->;
                reflexivity]
     | intros [A B]; try discriminate A; try discriminate B;
       rewrite A in B; discriminate B ]).
Qed.

Lemma development_and_production_under_test :
  exists t config,
    Env.load (secret_environment (lit "s3cret") (lit "key")) = (t, Env.Running config)
    /\ Env.isDevelopment config = false
    /\ Env.isProduction config = false.
Proof.
  destruct (load_runs (secret_environment (lit "s3cret") (lit "key")))
    as (t & config & L).
  exists t, config; split; [exact L |].
  destruct (development_and_production _ _ _ L) as (D & P & _).
  split.
  - destruct (Env.isDevelopment config); [| reflexivity].
    destruct (proj1 D eq_refl) as [E | [E | E]]; discriminate E.
  - destruct (Env.isProduction config); [| reflexivity].
    discriminate (proj1 P eq_refl).
Defined.

Lemma load_log (env : Env.environment) (t : list Env.line)
  (config : Env.Config) :
  Env.load env = (t, Env.Running config) ->
  t = [Env.ConfigurationLoaded;
       Env.Port (Env.port config);
       Env.Environment (Env.nodeEnv config);
       Env.MongoDB (if includes (Env.mongodbUri config) (lit "localhost")
                    then lit "localhost" else lit "remote");
       Env.GeminiAPI (truthy (VString (Env.geminiApiKey config)));
       Env.FrontendURL (Env.frontendUrl config)].
Proof.
  unfold Env.load, Env.requireEnv, Env.andThen.
  destruct (env (lit "MONGODB_URI")) as [[| ? ?] |];
    destruct (env (lit "JWT_SECRET")) as [[| ? ?] |];
    intros L; injection L as <- <-; reflexivity.
Qed.

(** X10: what the module logs depends only on the port, NODE_ENV, the
    frontend URL, whether the database URI mentions localhost and whether an
    API key is set: the JWT secret, the API key and the database URI are not
    written to the log. *)
Theorem load_log_hides_secrets (env1 env2 : Env.environment)
  (t1 t2 : list Env.line) (c1 c2 : Env.Config) :
  Env.load env1 = (t1, Env.Running c1) ->
  Env.load env2 = (t2, Env.Running c2) ->
  Env.port c1 = Env.port c2 ->
  Env.nodeEnv c1 = Env.nodeEnv c2 ->
  Env.frontendUrl c1 = Env.frontendUrl c2 ->
  includes (Env.mongodbUri c1) (lit "localhost")
  = includes (Env.mongodbUri c2) (lit "localhost") ->
  (Env.geminiApiKey c1 = [] <-> Env.geminiApiKey c2 = []) ->
  t1 = t2.
Proof.
  intros L1 L2 P N F M G.
  assert (K : truthy (VString (Env.geminiApiKey c1))
              = truthy (VString (Env.geminiApiKey c2))).
  { destruct (Env.geminiApiKey c1), (Env.geminiApiKey c2); try reflexivity.
    - discriminate (proj1 G eq_refl).
    - discriminate (proj2 G eq_refl). }
  rewrite (load_log _ _ _ L1), (load_log _ _ _ L2), P, N, F, M, K.
  reflexivity.
Qed.

Lemma load_log_of_two_secrets :
  fst (Env.load (secret_environment (lit "s3cret") (lit "key-one")))
  = fst (Env.load (secret_environment (lit "another") (lit "key-two"))).
Proof.
  destruct (load_runs (secret_environment (lit "s3cret") (lit "key-one")))
    as (t1 & c1 & L1).
  destruct (load_runs (secret_environment (lit "another") (lit "key-two")))
    as (t2 & c2 & L2).
  rewrite L1, L2; simpl.
  apply (load_log_hides_secrets _ _ _ _ c1 c2 L1 L2);
    vm_compute in L1; vm_compute in L2;
    injection L1 as _ <-; injection L2 as _ <-; try reflexivity.
  split; intros E; discriminate E.
Defined.

(** ** config/database.js *)

Ltac connect_cases connect :=
  unfold Database.connectDatabase; simpl;
  destruct (connect 1%N) eqn:?; simpl;
  [| destruct (connect 2%N) eqn:?; simpl;
     [| destruct (connect 3%N) eqn:?; simpl;
        [| destruct (connect 4%N) eqn:?; simpl;
           [| destruct (connect 5%N) eqn:?; simpl]]]].

Ltac one_to_five k :=
  let H := fresh in
  assert (H : (k = 1 \/ k = 2 \/ k = 3 \/ k = 4 \/ k = 5)%N) by lia;
  destruct H as [-> | [-> | [-> | [-> | ->]]]].

(** X11: [connectDatabase] tries at most five times and stops at the first
    success.  It returns true exactly when one of the first five attempts
    succeeds; the k-th being the first, it has then connected k times,
    waited 5 seconds after each failure, and left isConnected true and
    connectionError null. *)
Theorem connectDatabase_stops_at_first_success
  (connect : N -> Database.attempt_result) (uri : jsstring)
  (st : Database.state) :
  let '(t, st', ok) := Database.connectDatabase connect uri st in
  (ok = true <-> exists k, (1 <= k <= 5)%N /\ connect k = Database.Connected)
  /\ (1 <= Database.connects t <= 5)%nat
  /\ (forall k,
        (1 <= k <= 5)%N ->
        connect k = Database.Connected ->
        (forall j, (1 <= j < k)%N -> connect j <> Database.Connected) ->
        Database.connects t = N.to_nat k
        /\ Database.slept t = (5000 * (k - 1))%N
        /\ st' = {| Database.isConnected := true;
                    Database.connectionError := None |}).
Proof.
  connect_cases connect; (split; [| split]).
  all: try (split; [intros _; eexists; split; [| eassumption]; lia
                   | reflexivity]).
  all: try (split; [discriminate
                   | intros (k & B & C); one_to_five k; congruence]).
  all: try (unfold Database.connects; simpl; lia).
  all: intros k B C F; one_to_five k; try congruence;
    try (split; [reflexivity | split; reflexivity]);
    exfalso;
    first [ apply (F 1%N); [lia | assumption]
          | apply (F 2%N); [lia | assumption]
          | apply (F 3%N); [lia | assumption]
          | apply (F 4%N); [lia | assumption] ].
Qed.

(** X12: when all five attempts fail, [connectDatabase] returns false after
    five connection attempts and four waits of 5 seconds (none after the
    last attempt); connectionError is the message of the fifth failure and
    isConnected is left as it was. *)
Theorem connectDatabase_gives_up_after_five
  (connect : N -> Database.attempt_result) (uri : jsstring)
  (st : Database.state) :
  (forall k, (1 <= k <= 5)%N -> connect k <> Database.Connected) ->
  exists t st' message,
    Database.connectDatabase connect uri st = (t, st', false)
    /\ connect 5%N = Database.Failed message
    /\ Database.connectionError st' = Some message
    /\ Database.isConnected st' = Database.isConnected st
    /\ Database.connects t = 5%nat
    /\ Database.slept t = 20000%N
    /\ (exists before, t = before ++ [Database.LogFailed message;
                                      Database.LogGaveUp;
                                      Database.LogStartsAnyway]).
Proof.
  intros F.
  connect_cases connect;
    try (exfalso;
         first [ apply (F 1%N); [lia | assumption]
               | apply (F 2%N); [lia | assumption]
               | apply (F 3%N); [lia | assumption]
               | apply (F 4%N); [lia | assumption]
               | apply (F 5%N); [lia | assumption] ]).
  eexists; eexists; eexists; split; [reflexivity |].
  repeat split.
  eexists (_ :: _ :: _ :: _ :: _ :: _ :: _ :: _ :: _ :: _ :: _ :: _ :: _ :: _ :: _ :: _ :: _ :: _ :: _ :: _ :: _
             :: [_]).
  reflexivity.
Qed.

Lemma connectDatabase_never_up :
  exists t st',
    Database.connectDatabase never_up (lit "mongodb://db/safespeak")
      Database.initial = (t, st', false)
    /\ Database.isConnected st' = false
    /\ Database.slept t = 20000%N.
Proof.
  destruct (connectDatabase_gives_up_after_five never_up
              (lit "mongodb://db/safespeak") Database.initial)
    as (t & st' & message & E & _ & _ & I & _ & S & _).
  - intros k _; discriminate.
  - exists t, st'; split; [exact E | split; [exact I | exact S]].
Defined.

(** ** src/server.js *)

Lemma starts_with_iff (s prefix : jsstring) :
  starts_with s prefix = true <-> exists post, s = prefix ++ post.
Proof.
  revert s; induction prefix as [| p ps IH]; intros s; simpl.
  - split; [intros _; exists s; reflexivity | reflexivity].
  - destruct s as [| c cs].
    + split; [discriminate | intros (post & E); discriminate E].
    + rewrite andb_true_iff, N.eqb_eq, IH; split.
      * intros (-> & post & ->); exists post; reflexivity.
      * intros (post & E); injection E as -> ->; split; [| exists post];
          reflexivity.
Qed.

Lemma includes_iff (s sub : jsstring) :
  includes s sub = true <-> exists pre post, s = pre ++ sub ++ post.
Proof.
  induction s as [| c r IH].
  - simpl; rewrite orb_false_r, starts_with_iff; split.
    + intros (post & E); exists [], post; exact E.
    + intros (pre & post & E).
      destruct pre; [exists post; exact E | discriminate E].
  - change (includes (c :: r) sub)
      with (starts_with (c :: r) sub || includes r sub).
    rewrite orb_true_iff, starts_with_iff, IH; split.
    + intros [(post & E) | (pre & post & E)].
      * exists [], post; exact E.
      * exists (c :: pre), post; rewrite E; reflexivity.
    + intros (pre & post & E); destruct pre as [| x pre].
      * left; exists post; exact E.
      * right; injection E as -> ->; exists pre, post; reflexivity.
Qed.

(** X13: the health check answers 200 when the isConnected flag is set and
    503 when it is not; the AI service has no part in it: the handler makes
    no request to the model, and an unconfigured model is reported only in
    the body, never in the status code. *)
Theorem health_follows_the_database (config : Env.Config)
  (db : Database.state) (readyState : N) (model : option Model)
  (now : jsstring) :
  exists r,
    Server.health config db readyState model now = ([], Return r)
    /\ (Http.status r = int 200 <-> Database.isConnected db = true)
    /\ (Http.status r = int 503 <-> Database.isConnected db = false)
    /\ (forall model',
          exists r',
            Server.health config db readyState model' now = ([], Return r')
            /\ Http.status r' = Http.status r)
    /\ (field (field (field (Http.json r) (lit "services")) (lit "ai"))
          (lit "status")
        = VString (lit "not configured")
        <-> model = None).
Proof.
  destruct db as [[|] e]; (eexists; split; [reflexivity |]); simpl;
    repeat split;
    try discriminate; try reflexivity;
    try (intros model'; eexists; split; reflexivity);
    destruct model; try discriminate; try reflexivity.
Qed.

(** An error event of the connection changes only connectionError, so
    the health check keeps answering as before; a disconnected event turns
    it to 503 and a reconnected event back to 200. *)
Lemma health_after_connection_events (config : Env.Config)
  (db : Database.state) (readyState : N) (model : option Model)
  (now message : jsstring) :
  outcome (Server.health config (Database.on_error message db)
             readyState model now)
  = outcome (Server.health config db readyState model now)
  /\ (exists r,
        outcome (Server.health config (Database.on_disconnected db)
                   readyState model now) = Return r
        /\ Http.status r = int 503)
  /\ (exists r,
        outcome (Server.health config
                   (Database.on_reconnected (Database.on_disconnected db))
                   readyState model now) = Return r
        /\ Http.status r = int 200).
Proof.
  repeat split; eexists; split; reflexivity.
Qed.

Lemma connectDatabase_bounds (connect : N -> Database.attempt_result)
  (uri : jsstring) (st : Database.state) :
  (Database.connects (fst (fst (Database.connectDatabase connect uri st)))
   <= 5)%nat
  /\ (Database.slept (fst (fst (Database.connectDatabase connect uri st)))
      <= 20000)%N.
Proof.
  connect_cases connect; split;
    try (unfold Database.connects; simpl; lia);
    vm_compute; discriminate.
Qed.

Lemma server_connects (t : list Database.event) (tail : list Server.event) :
  (forall ev, In ev tail -> forall d, ev <> Server.Db d) ->
  List.length
    (filter
       (fun ev =>
          match ev with
          | Server.Db (Database.Connect _ _ _) => true
          | _ => false
          end)
       (List.map Server.Db t ++ tail))
  = Database.connects t.
Proof.
  intros H; unfold Database.connects; induction t as [| ev t IH]; simpl.
  - induction tail as [| x tail IH]; [reflexivity |]; simpl.
    destruct x as [| d | | |]; try (apply IH; intros; apply H; right; assumption).
    destruct (H (Server.Db d) (or_introl eq_refl) d eq_refl).
  - destruct ev; simpl; rewrite ?IH; reflexivity.
Qed.

Lemma server_slept (t : list Database.event) (tail : list Server.event) :
  (forall ev, In ev tail -> forall d, ev <> Server.Db d) ->
  fold_right
    (fun ev total =>
       match ev with
       | Server.Db (Database.Sleep ms) => (ms + total)%N
       | _ => total
       end)
    0%N (List.map Server.Db t ++ tail)
  = Database.slept t.
Proof.
  intros H; induction t as [| ev t IH]; simpl.
  - induction tail as [| x tail IH]; [reflexivity |]; simpl.
    destruct x as [| d | | |]; try (apply IH; intros; apply H; right; assumption).
    destruct (H (Server.Db d) (or_introl eq_refl) d eq_refl).
  - destruct ev; simpl; rewrite ?IH; reflexivity.
Qed.

(** X14: [startServer] always ends by listening on the configured port,
    connected or not, after at most five connection attempts and at most 20
    seconds of waiting. *)
Theorem startServer_always_listens (config : Env.Config)
  (connect : N -> Database.attempt_result) (db : Database.state) :
  exists before db',
    Server.startServer config connect db
    = (before ++ [Server.ListenOn (Env.port config);
                  Server.LogRunning (Env.port config)],
       db')
    /\ (List.length
          (filter
             (fun ev =>
                match ev with
                | Server.Db (Database.Connect _ _ _) => true
                | _ => false
                end)
             before) <= 5)%nat
    /\ (fold_right
          (fun ev total =>
             match ev with
             | Server.Db (Database.Sleep ms) => ms + total
             | _ => total
             end)
          0 before <= 20000)%N.
Proof.
  pose proof (connectDatabase_bounds connect (Env.mongodbUri config) db)
    as [C S].
  unfold Server.startServer.
  destruct (Database.connectDatabase connect (Env.mongodbUri config) db)
    as [[t db'] ok]; simpl in C, S.
  exists (Server.LogBanner
            :: List.map Server.Db t
               ++ (if ok then [] else [Server.LogWithoutDatabase])), db'.
  assert (T : forall ev,
             In ev (if ok then [] else [Server.LogWithoutDatabase]) ->
             forall d, ev <> Server.Db d).
  { destruct ok; simpl; [tauto |].
    intros ev [<- | []] d; discriminate. }
  split; [simpl; rewrite <- app_assoc; reflexivity |].
  split.
  - cbn [filter]; rewrite (server_connects _ _ T); exact C.
  - cbn [fold_right]; rewrite (server_slept _ _ T); exact S.
Qed.

(** X15: the CORS callback allows a request without an origin, and allows an
    origin exactly when it is empty, or equals the configured frontend URL,
    or has vercel.app anywhere inside it, or (in development only) has
    localhost or 127.0.0.1 anywhere inside it; every other origin is refused
    with the error Not allowed by CORS. *)
Theorem corsOrigin_allows (config : Env.Config) :
  Server.corsOrigin config None = Server.Allowed
  /\ (forall origin,
        Server.corsOrigin config (Some origin) = Server.Allowed
        <-> origin = []
            \/ (Env.isDevelopment config = true
                /\ ((exists pre post, origin = pre ++ lit "localhost" ++ post)
                    \/ (exists pre post,
                          origin = pre ++ lit "127.0.0.1" ++ post)))
            \/ origin = Env.frontendUrl config
            \/ (exists pre post, origin = pre ++ lit "vercel.app" ++ post))
  /\ (forall origin,
        Server.corsOrigin config origin = Server.Allowed
        \/ Server.corsOrigin config origin
           = Server.Refused (lit "Not allowed by CORS"))
  /\ (forall pre post,
        Server.corsOrigin config (Some (pre ++ lit "vercel.app" ++ post))
        = Server.Allowed).
Proof.
  assert (A : forall origin,
             Server.corsOrigin config (Some origin) = Server.Allowed
             <-> origin = []
                 \/ (Env.isDevelopment config = true
                     /\ (includes origin (lit "localhost") = true
                         \/ includes origin (lit "127.0.0.1") = true))
                 \/ jsstring_eqb origin (Env.frontendUrl config) = true
                 \/ includes origin (lit "vercel.app") = true).
  { intros [| c s]; [split; auto |].
    unfold Server.corsOrigin.
    destruct (Env.isDevelopment config);
      destruct (includes (c :: s) (lit "localhost"));
      destruct (includes (c :: s) (lit "127.0.0.1"));
      destruct (jsstring_eqb (c :: s) (Env.frontendUrl config));
      destruct (includes (c :: s) (lit "vercel.app")); simpl;
      split; auto 6; intros H; try discriminate H;
      destruct H as [H | [(D & [H | H]) | [H | H]]]; discriminate. }
  split; [reflexivity |].
  split; [| split].
  - intros origin; rewrite A, !includes_iff, jsstring_eqb_eq; reflexivity.
  - intros [[| c s] |]; auto.
    unfold Server.corsOrigin.
    destruct (Env.isDevelopment config && _); auto.
    destruct (jsstring_eqb _ _); auto.
    destruct (includes _ (lit "vercel.app")); auto.
  - intros pre post; apply A; right; right; right.
    apply includes_iff; exists pre, post; reflexivity.
Qed.

(** ** src/routes/reportRoutes.js *)


Lemma saves_of_analyzer (t : list event) (tail : list ReportRoutes.route_event) :
  ReportRoutes.saves (List.map ReportRoutes.Analyzer t ++ tail)
  = ReportRoutes.saves tail.
Proof.
  unfold ReportRoutes.saves; induction t as [| ev t IH]; simpl; auto.
Qed.

(** X16: a body the schema rejects is answered with 400 and the error
    strings; the analyzer is not called and nothing is saved. *)
Theorem invalid_report_stops_at_validation
  (schema : value -> Validation.safe_parse ReportRoutes.ReportData)
  (model : option Model) (save : ReportRoutes.store) (body : value)
  (issues : list Validation.issue) :
  schema body = Validation.Rejected issues ->
  exists r,
    ReportRoutes.post schema model save body = ([], ReportRoutes.Responded r)
    /\ Http.status r = int 400
    /\ field (Http.json r) (lit "details")
       = VArray (List.map (fun i => VString (Validation.describe i)) issues).
Proof.
  intros E; unfold ReportRoutes.post, Validation.validate; rewrite E.
  eexists; split; [reflexivity |]; split; [reflexivity |].
  cbn [Http.json]; rewrite map_map; reflexivity.
Qed.

Lemma invalid_report_without_description :
  exists r,
    ReportRoutes.post lenient_schema (answering harassment_response)
      accepting_store (VObject []) = ([], ReportRoutes.Responded r)
    /\ field (Http.json r) (lit "details")
       = VArray [VString (lit "description: Description is required")].
Proof.
  destruct (invalid_report_stops_at_validation lenient_schema
              (answering harassment_response) accepting_store (VObject [])
              _ eq_refl) as (r & E & _ & D).
  exists r; split; [exact E | exact D].
Defined.



Lemma saves_of_run (n : nat) (t : list event) (doc : ReportRoutes.NewReport)
  (tail : list ReportRoutes.route_event) :
  ReportRoutes.saves tail = [] ->
  ReportRoutes.saves
    (ReportRoutes.LogReceived n
       :: List.map ReportRoutes.Analyzer t ++ ReportRoutes.Save doc :: tail)
  = [doc].
Proof.
  intros H.
  change (ReportRoutes.saves
            (List.map ReportRoutes.Analyzer t ++ ReportRoutes.Save doc :: tail)
          = [doc]).
  rewrite saves_of_analyzer.
  change (doc :: ReportRoutes.saves tail = [doc]); rewrite H; reflexivity.
Qed.

(** X18: when the analysis fails, in any of its failure modes, the report is
    saved all the same, with the fallback payload as its analysis, and a
    store that accepts it leads to the 201 response. *)
Theorem failed_analysis_is_still_saved
  (schema : value -> Validation.safe_parse ReportRoutes.ReportData)
  (model : option Model) (save : ReportRoutes.store) (body : value)
  (data : ReportRoutes.ReportData) :
  schema body = Validation.Parsed data ->
  failure_mode model (ReportRoutes.r_description data) ->
  let doc :=
    {| ReportRoutes.n_description := ReportRoutes.r_description data;
       ReportRoutes.n_userSelectedCategory :=
         js_or (ReportRoutes.r_category data) VNull;
       ReportRoutes.n_analysis := getFallbackResponse |} in
  let run := ReportRoutes.post schema model save body in
  ReportRoutes.saves (fst run) = [doc]
  /\ (forall saved, save doc = inl saved ->
        exists r, snd run = ReportRoutes.Responded r
                  /\ Http.status r = int 201).
Proof.
  intros E F; cbv zeta.
  pose proof (failure_absorbed _ _ F) as O.
  unfold ReportRoutes.post, Validation.validate; rewrite E.
  destruct (analyzeReport model (ReportRoutes.r_description data))
    as [t [a | e]]; simpl in O; [injection O as -> | discriminate O].
  destruct (save _) as [saved | err] eqn:S; cbn [fst snd]; split;
    try (apply saves_of_run; reflexivity).
  - intros saved' H; injection H as <-; eexists; split; reflexivity.
  - intros saved H; discriminate H.
Qed.

Lemma failed_analysis_without_credential :
  ReportRoutes.saves
    (fst (ReportRoutes.post lenient_schema None accepting_store report_body))
  = [{| ReportRoutes.n_description := report;
        ReportRoutes.n_userSelectedCategory := VNull;
        ReportRoutes.n_analysis := getFallbackResponse |}].
Proof.
  exact (proj1 (failed_analysis_is_still_saved lenient_schema None
                  accepting_store report_body _ eq_refl
                  (not_configured None report eq_refl))).
Defined.

(** ** src/middleware/errorHandler.js *)

Lemma lookup_overwritten (m : list (jsstring * value)) (k : jsstring)
  (v : value) :
  lookup k
    (List.map (fun kv => if jsstring_eqb k (fst kv) then (fst kv, v) else kv) m)
  = match lookup k m with Some _ => Some v | None => None end.
Proof.
  induction m as [| [k' v'] r IH]; simpl; [reflexivity |].
  destruct (jsstring_eqb k k') eqn:E; simpl; rewrite IH, E;
    destruct (lookup k r); reflexivity.
Qed.

Lemma lookup_set_property (m : list (jsstring * value)) (k : jsstring)
  (v : value) :
  lookup k (set_property m k v) = Some v.
Proof.
  assert (R : jsstring_eqb k k = true) by (apply jsstring_eqb_eq; reflexivity).
  induction m as [| [k' v'] r IH]; simpl; [rewrite R; reflexivity |].
  destruct (jsstring_eqb k k') eqn:E; simpl.
  - rewrite lookup_overwritten, E; destruct (lookup k r); reflexivity.
  - rewrite IH; reflexivity.
Qed.

Lemma lookup_set_other (m : list (jsstring * value)) (k k' : jsstring)
  (v : value) :
  jsstring_eqb k' k = false ->
  lookup k' (set_property m k v) = lookup k' m.
Proof.
  intros N.
  assert (S : forall a b, jsstring_eqb a b = jsstring_eqb b a).
  { intros a b; destruct (jsstring_eqb a b) eqn:A, (jsstring_eqb b a) eqn:B;
      try reflexivity.
    - apply jsstring_eqb_eq in A; subst b.
      rewrite (proj2 (jsstring_eqb_eq a a) eq_refl) in B; discriminate B.
    - apply jsstring_eqb_eq in B; subst b.
      rewrite (proj2 (jsstring_eqb_eq a a) eq_refl) in A; discriminate A. }
  induction m as [| [x y] r IH]; simpl; [rewrite N; reflexivity |].
  destruct (jsstring_eqb k x) eqn:E; simpl.
  - apply jsstring_eqb_eq in E; subst x; rewrite N.
    assert (M : lookup k'
                  (List.map
                     (fun kv =>
                        if jsstring_eqb k (fst kv) then (fst kv, v) else kv) r)
                = lookup k' r).
    { clear IH; induction r as [| [a b] r IH]; simpl; [reflexivity |].
      destruct (jsstring_eqb k a) eqn:A; simpl; rewrite IH; [| reflexivity].
      apply jsstring_eqb_eq in A; subst a; rewrite N; reflexivity. }
    rewrite M; reflexivity.
  - rewrite IH; reflexivity.
Qed.

Lemma value_is_eq (v : value) (s : jsstring) :
  value_is v s = true <-> v = VString s.
Proof.
  destruct v; simpl; try (split; [discriminate | discriminate]).
  rewrite jsstring_eqb_eq; split; [intros -> | intros H; injection H as ->];
    reflexivity.
Qed.

Lemma plain_named (err : value) (name : jsstring) (status : N)
  (error message : jsstring) (a : ErrorHandler.answer) :
  plain a -> plain (ErrorHandler.named err name status error message a).
Proof.
  unfold ErrorHandler.named; destruct (value_is _ name); [| auto].
  intros _; split; reflexivity.
Qed.

Lemma plain_duplicate (err : value) (a : ErrorHandler.answer) :
  plain a -> plain (ErrorHandler.duplicate_error err a).
Proof.
  unfold ErrorHandler.duplicate_error.
  destruct (field err (lit "code")); auto.
  destruct (is_11000 n); auto; intros _; split; reflexivity.
Qed.

Lemma plain_validation (toString : value -> completion jsstring)
  (err : value) (a a1 : ErrorHandler.answer) :
  ErrorHandler.validation_error toString err a = Return a1 ->
  plain a -> plain a1.
Proof.
  unfold ErrorHandler.validation_error.
  destruct (value_is _ _).
  - destruct (object_values _) as [es |]; [| discriminate].
    destruct (existsb nullish es); [discriminate |].
    destruct (join_parts _ _); [| discriminate].
    intros H _; injection H as <-; split; reflexivity.
  - intros H; injection H as <-; auto.
Qed.

(** X19: every response of the error handler carries success: false; it
    carries the stack of the error exactly in development, and outside
    development neither the response nor the console receives the stack. *)
Theorem stack_only_in_development
  (toString : value -> completion jsstring) (config : Env.Config)
  (err : value) (t : list ErrorHandler.event) (r : Http.response) :
  ErrorHandler.errorHandler toString config err = (t, Return r) ->
  exists members,
    Http.json r = VObject members
    /\ lookup (lit "success") members = Some (VBool false)
    /\ (Env.isDevelopment config = true ->
        lookup (lit "stack") members = Some (field err (lit "stack")))
    /\ (Env.isDevelopment config = false ->
        lookup (lit "stack") members = None
        /\ forall stack, ~ In (ErrorHandler.LogStack stack) t).
Proof.
  unfold ErrorHandler.errorHandler.
  destruct (nullish err); [discriminate |].
  match goal with
  | |- context [ErrorHandler.validation_error toString err ?a] =>
      assert (P0 : plain a) by (split; reflexivity);
      destruct (ErrorHandler.validation_error toString err a) as [a1 | e]
        eqn:V; try discriminate
  end.
  pose proof (plain_validation _ _ _ _ V P0) as P1.
  cbv zeta.
  match goal with
  | |- context [ErrorHandler.named err (lit "TokenExpiredError") ?s ?e ?m ?a] =>
      assert (P5 : plain (ErrorHandler.named err (lit "TokenExpiredError")
                            s e m a))
        by (repeat apply plain_named; apply plain_duplicate; exact P1);
      generalize dependent (ErrorHandler.named err (lit "TokenExpiredError")
                              s e m a)
  end.
  intros a5 [S5 U5] H; injection H as <- <-.
  eexists; split; [reflexivity |].
  destruct (Env.isDevelopment config).
  - repeat split; try discriminate.
    + rewrite lookup_set_other; [exact U5 | reflexivity].
    + intros _; apply lookup_set_property.
  - repeat split; try discriminate; try assumption.
    intros stack.
    destruct (negb _); simpl; [intros [F | []]; discriminate F | tauto].
Qed.

Lemma stack_hidden_in_production :
  exists t r members,
    ErrorHandler.errorHandler integer_text production_config
      number_message_error
    = (t, Return r)
    /\ Http.json r = VObject members
    /\ lookup (lit "stack") members = None.
Proof.
  destruct (ErrorHandler.errorHandler integer_text production_config
              number_message_error)
    as [t [r | e]] eqn:E; try (vm_compute in E; discriminate E).
  destruct (stack_only_in_development _ _ _ _ _ E)
    as (members & J & _ & _ & P).
  exists t, r, members; split; [reflexivity |]; split; [exact J |].
  apply P; reflexivity.
Defined.

Lemma errorHandler_answer (toString : value -> completion jsstring)
  (config : Env.Config) (err : value)
  (t : list ErrorHandler.event) (r : Http.response) :
  ErrorHandler.errorHandler toString config err = (t, Return r) ->
  exists a1,
    ErrorHandler.validation_error toString err
      (js_or (js_or (field err (lit "statusCode")) (field err (lit "status")))
         (int 500),
       [(lit "success", VBool false);
        (lit "error", js_or (field err (lit "name")) (VString (lit "Error")));
        (lit "message",
         js_or (field err (lit "message"))
           (VString (lit "An unexpected error occurred")))])
    = Return a1
    /\ Http.status r
       = fst (ErrorHandler.named err (lit "TokenExpiredError") 401
                (lit "Token Expired")
                (lit "Your session has expired. Please log in again.")
                (ErrorHandler.named err (lit "JsonWebTokenError") 401
                   (lit "Invalid Token")
                   (lit "The authentication token is invalid")
                   (ErrorHandler.named err (lit "CastError") 400
                      (lit "Invalid ID") (lit "The provided ID is not valid")
                      (ErrorHandler.duplicate_error err a1)))).
Proof.
  unfold ErrorHandler.errorHandler.
  destruct (nullish err); [discriminate |].
  destruct (ErrorHandler.validation_error toString err _) as [a1 | e];
    try discriminate.
  intros H; injection H as <- <-; exists a1; split; reflexivity.
Qed.

(** X20: the status code of the error handler, case by case.  An expired or
    malformed token gives 401 and a cast error 400, whatever else the error
    carries; a duplicate key (code 11000) gives 400 unless the name is one
    of those three, also when the name is ValidationError; a validation
    error gives 400; every other error gives its statusCode, else its
    status, else 500. *)
Theorem errorHandler_status (toString : value -> completion jsstring)
  (config : Env.Config) (err : value)
  (t : list ErrorHandler.event) (r : Http.response) :
  ErrorHandler.errorHandler toString config err = (t, Return r) ->
  let name := field err (lit "name") in
  let duplicate :=
    match field err (lit "code") with
    | VNumber n => is_11000 n
    | _ => false
    end in
  (name = VString (lit "TokenExpiredError")
   \/ name = VString (lit "JsonWebTokenError") ->
   Http.status r = int 401)
  /\ (name = VString (lit "CastError") -> Http.status r = int 400)
  /\ (duplicate = true ->
      name <> VString (lit "TokenExpiredError") ->
      name <> VString (lit "JsonWebTokenError") ->
      name <> VString (lit "CastError") ->
      Http.status r = int 400)
  /\ (name = VString (lit "ValidationError") -> Http.status r = int 400)
  /\ (duplicate = false ->
      name <> VString (lit "TokenExpiredError") ->
      name <> VString (lit "JsonWebTokenError") ->
      name <> VString (lit "CastError") ->
      name <> VString (lit "ValidationError") ->
      Http.status r
      = js_or (js_or (field err (lit "statusCode")) (field err (lit "status")))
          (int 500)).
Proof.
  intros H; destruct (errorHandler_answer _ _ _ _ _ H) as (a1 & V & ->).
  clear H; cbv zeta.
  unfold ErrorHandler.named, ErrorHandler.duplicate_error.
  unfold ErrorHandler.validation_error in V.
  assert (F : forall s, field err (lit "name") <> VString s ->
                        value_is (field err (lit "name")) s = false).
  { intros s N; destruct (value_is _ s) eqn:E; [| reflexivity].
    apply value_is_eq in E; contradiction. }
  repeat split.
  - intros [E | E]; rewrite E; reflexivity.
  - intros E; rewrite E; reflexivity.
  - intros D N1 N2 N3; rewrite (F _ N1), (F _ N2), (F _ N3).
    destruct (field err (lit "code")); try discriminate D.
    rewrite D; reflexivity.
  - intros E; rewrite E in *; simpl in V |- *.
    destruct (object_values _) as [es |]; [| discriminate V].
    destruct (existsb nullish es); [discriminate V |].
    destruct (join_parts _ _); [| discriminate V].
    injection V as <-.
    destruct (field err (lit "code")); try reflexivity.
    destruct (is_11000 n); reflexivity.
  - intros D N1 N2 N3 N4; rewrite (F _ N1), (F _ N2), (F _ N3).
    rewrite (F _ N4) in V; injection V as <-.
    destruct (field err (lit "code")); try reflexivity.
    rewrite D; reflexivity.
Qed.

Lemma errorHandler_status_of_validation_error :
  exists t r,
    ErrorHandler.errorHandler integer_text production_config
      number_message_error
    = (t, Return r)
    /\ Http.status r = int 400
    /\ field (Http.json r) (lit "message") = VString (lit "5")
    /\ field (Http.json r) (lit "details") = VArray [int 5].
Proof.
  destruct (ErrorHandler.errorHandler integer_text production_config
              number_message_error)
    as [t [r | e]] eqn:E; try (vm_compute in E; discriminate E).
  exists t, r; split; [reflexivity |].
  split; [| vm_compute in E; injection E as _ <-; split; reflexivity].
  destruct (errorHandler_status _ _ _ _ _ E) as (_ & _ & _ & S & _).
  apply S; reflexivity.
Defined.

(** An error made by [createError] with a truthy status code and a
    non-empty message is answered with that status code and that message
    under the error name Error; the stack is added in development only. *)
Lemma createError_answer (toString : value -> completion jsstring)
  (config : Env.Config) (stack message : jsstring) (statusCode : value) :
  truthy statusCode = true ->
  message <> [] ->
  exists t,
    ErrorHandler.errorHandler toString config
      (ErrorHandler.createError stack statusCode message)
    = (t,
       Return
         {| Http.status := statusCode;
            Http.json :=
              VObject
                ([(lit "success", VBool false);
                  (lit "error", VString (lit "Error"));
                  (lit "message", VString message)]
                   ++ (if Env.isDevelopment config
                       then [(lit "stack", VString stack)] else [])) |}).
Proof.
  intros T M; destruct message as [| c s]; [contradiction |].
  set (err := ErrorHandler.createError stack statusCode (c :: s)).
  assert (Fn : field err (lit "name") = VString (lit "Error")) by reflexivity.
  assert (Fm : field err (lit "message") = VString (c :: s)) by reflexivity.
  assert (Fk : field err (lit "stack") = VString stack) by reflexivity.
  assert (Fs : field err (lit "statusCode") = statusCode) by reflexivity.
  assert (Ft : field err (lit "status") = VUndefined) by reflexivity.
  assert (Fc : field err (lit "code") = VUndefined) by reflexivity.
  unfold ErrorHandler.errorHandler, ErrorHandler.validation_error,
    ErrorHandler.duplicate_error, ErrorHandler.named.
  change (nullish err) with false; cbv beta match.
  rewrite Fn, Fm, Fk, Fs, Ft, Fc.
  unfold js_or at 2; rewrite T; unfold js_or at 1; rewrite T.
  destruct (Env.isDevelopment config); eexists; reflexivity.
Qed.

Lemma join_parts_strings (toString : value -> completion jsstring)
  (parts : list jsstring) :
  join_parts toString (List.map VString parts) = Return parts.
Proof.
  induction parts as [| p r IH]; simpl; [reflexivity | rewrite IH; reflexivity].
Qed.

Lemma messages_not_nullish (es : list value) (parts : list jsstring) :
  List.map (fun e => field e (lit "message")) es = List.map VString parts ->
  existsb nullish es = false.
Proof.
  revert parts; induction es as [| e es IH]; intros [| p parts] H;
    try discriminate H; [reflexivity |].
  simpl in H; injection H as E H; simpl; rewrite (IH _ H), orb_false_r.
  destruct e; try reflexivity; discriminate E.
Qed.

(** X21: a validation error whose [errors] hold string messages is answered
    with 400, the error name Validation Error, the messages joined by a
    comma and a space, and the list of the messages as details. *)
Theorem validation_error_lists_messages
  (toString : value -> completion jsstring) (config : Env.Config)
  (err : value) (es : list value) (parts : list jsstring) :
  nullish err = false ->
  field err (lit "name") = VString (lit "ValidationError") ->
  (forall n, field err (lit "code") = VNumber n -> is_11000 n = false) ->
  object_values (field err (lit "errors")) = Return es ->
  List.map (fun e => field e (lit "message")) es = List.map VString parts ->
  exists t,
    ErrorHandler.errorHandler toString config err
    = (t,
       Return
         {| Http.status := int 400;
            Http.json :=
              VObject
                ([(lit "success", VBool false);
                  (lit "error", VString (lit "Validation Error"));
                  (lit "message", VString (join (lit ", ") parts));
                  (lit "details", VArray (List.map VString parts))]
                   ++ (if Env.isDevelopment config
                       then [(lit "stack", field err (lit "stack"))]
                       else [])) |}).
Proof.
  intros N E C O M.
  unfold ErrorHandler.errorHandler, ErrorHandler.validation_error,
    ErrorHandler.duplicate_error, ErrorHandler.named.
  rewrite N, E, O, (messages_not_nullish _ _ M), M, join_parts_strings.
  destruct (field err (lit "code")) as [| | | n | | |] eqn:K;
    try rewrite (C _ eq_refl);
    destruct (Env.isDevelopment config); eexists; reflexivity.
Qed.

Lemma validation_error_of_two_paths :
  exists t r,
    ErrorHandler.errorHandler integer_text production_config two_path_error
    = (t, Return r)
    /\ field (Http.json r) (lit "message")
       = VString (lit "gossip is not a valid enum value, summary is too long").
Proof.
  destruct (validation_error_lists_messages integer_text production_config
              two_path_error
              [VObject [(lit "message",
                         VString (lit "gossip is not a valid enum value"))];
               VObject [(lit "message", VString (lit "summary is too long"))]]
              [lit "gossip is not a valid enum value";
               lit "summary is too long"]) as (t & E);
    try reflexivity.
  - intros n F; discriminate F.
  - eexists; eexists; split; [exact E | reflexivity].
Defined.

(** X22: an error named ValidationError without [errors] (null or
    undefined) makes the error handler itself throw a TypeError: no response
    is sent. *)
Theorem validation_error_without_errors_throws
  (toString : value -> completion jsstring) (config : Env.Config)
  (err : value) :
  nullish err = false ->
  field err (lit "name") = VString (lit "ValidationError") ->
  nullish (field err (lit "errors")) = true ->
  exists t,
    ErrorHandler.errorHandler toString config err = (t, Throw TypeError).
Proof.
  intros N E O.
  unfold ErrorHandler.errorHandler, ErrorHandler.validation_error.
  rewrite N, E; cbn [value_is].
  destruct (field err (lit "errors")); try discriminate O;
    eexists; reflexivity.
Qed.

Lemma validation_error_from_elsewhere :
  exists t,
    ErrorHandler.errorHandler integer_text production_config
      foreign_validation_error
    = (t, Throw TypeError).
Proof.
  apply (validation_error_without_errors_throws integer_text
           production_config foreign_validation_error); reflexivity.
Defined.

(** ** src/middleware/auth.js *)

Lemma split_on_whole (sep : N) (token : jsstring) :
  ~ In sep token -> split_on sep token = [token].
Proof.
  induction token as [| c r IH]; simpl; [reflexivity |].
  intros H; destruct (N.eqb c sep) eqn:E.
  - apply N.eqb_eq in E; tauto.
  - rewrite IH by tauto; reflexivity.
Qed.

Lemma split_on_first (sep : N) (token rest : jsstring) :
  ~ In sep token ->
  split_on sep (token ++ sep :: rest) = token :: split_on sep rest.
Proof.
  induction token as [| c r IH]; simpl.
  - rewrite N.eqb_refl; reflexivity.
  - intros H; destruct (N.eqb c sep) eqn:E.
    + apply N.eqb_eq in E; tauto.
    + rewrite IH by tauto; reflexivity.
Qed.

Lemma bearer_token (token : jsstring) (tail : jsstring) :
  ~ In 32%N token ->
  tail = [] \/ (exists rest, tail = 32%N :: rest) ->
  nth_error (split_on 32 (lit "Bearer " ++ token ++ tail)) 1 = Some token.
Proof.
  intros H T.
  change (lit "Bearer " ++ token ++ tail)
    with (lit "Bearer" ++ 32%N :: token ++ tail).
  rewrite split_on_first by (simpl; intuition discriminate).
  destruct T as [-> | (rest & ->)].
  - rewrite app_nil_r, split_on_whole by assumption; reflexivity.
  - rewrite split_on_first by assumption; reflexivity.
Qed.

(** X23: the middleware calls next only for a header that starts with
    Bearer and a space, whose second space-separated part is a non-empty
    token that jwt.verify accepts, and whose adminId names an admin that
    exists and is active; req.admin is then that admin, and the run is one
    verification and one lookup. *)
Theorem requireAdmin_passes_only_verified (secret : jsstring)
  (verify : jsstring -> jsstring -> value + value)
  (findById : value -> option Auth.Admin + value)
  (authHeader : option jsstring) (t : list Auth.event)
  (info : Auth.AdminInfo) :
  Auth.requireAdmin secret verify findById authHeader = (t, Auth.Next info) ->
  exists header token decoded adminId admin,
    authHeader = Some header
    /\ starts_with header (lit "Bearer ") = true
    /\ nth_error (split_on 32 header) 1 = Some token
    /\ token <> []
    /\ verify token secret = inl decoded
    /\ get decoded (lit "adminId") = Return adminId
    /\ findById adminId = inl (Some admin)
    /\ truthy (Auth.a_isActive admin) = true
    /\ info = {| Auth.id := Auth.a_id admin;
                 Auth.username := Auth.a_username admin;
                 Auth.displayName := Auth.a_displayName admin |}
    /\ t = [Auth.Verify token secret; Auth.FindById adminId].
Proof.
  unfold Auth.requireAdmin, Auth.failed, Auth.refuse.
  destruct authHeader as [[| c s] |]; try discriminate.
  destruct (starts_with (c :: s) (lit "Bearer ")) eqn:B; [| discriminate].
  cbv beta match; simpl negb; cbv beta match.
  destruct (nth_error (split_on 32 (c :: s)) 1) as [[| x token] |] eqn:T;
    try discriminate.
  destruct (verify (x :: token) secret) as [decoded | jwtError] eqn:V.
  - destruct (get decoded (lit "adminId")) as [adminId | e] eqn:G;
      [| discriminate].
    destruct (findById adminId) as [[admin |] | err] eqn:F; try discriminate.
    destruct (truthy (Auth.a_isActive admin)) eqn:A; [| discriminate].
    intros H; injection H as <- <-.
    exists (c :: s), (x :: token), decoded, adminId, admin.
    repeat split; try assumption; discriminate.
  - destruct (get jwtError (lit "name")) as [name | e]; [| discriminate].
    destruct (value_is name (lit "TokenExpiredError")); discriminate.
Qed.

Lemma requireAdmin_passes_the_sample_admin :
  exists t info,
    Auth.requireAdmin (lit "s3cret") sample_verify sample_findById
      (Some (lit "Bearer good.token"))
    = (t, Auth.Next info)
    /\ Auth.username info = VString (lit "admin").
Proof.
  destruct (Auth.requireAdmin (lit "s3cret") sample_verify sample_findById
              (Some (lit "Bearer good.token"))) as [t [info | r]] eqn:E;
    [| vm_compute in E; discriminate E].
  exists t, info; split; [reflexivity |].
  destruct (requireAdmin_passes_only_verified _ _ _ _ _ _ E)
    as (h & token & decoded & adminId & admin & H & _ & T & _ & V & G & F & _
        & -> & _).
  injection H as <-; vm_compute in T; injection T as <-.
  vm_compute in V; injection V as <-.
  vm_compute in G; injection G as <-.
  vm_compute in F; injection F as <-; reflexivity.
Defined.

(** X24: when the middleware responds instead, the status is 401 or 500 and
    the body carries success: false; 500 only after an error was logged;
    and a request without a header that starts with Bearer and a space is
    refused with 401 before any verification or lookup. *)
Theorem requireAdmin_refuses_with_401_or_500 (secret : jsstring)
  (verify : jsstring -> jsstring -> value + value)
  (findById : value -> option Auth.Admin + value)
  (authHeader : option jsstring) (t : list Auth.event) (r : Http.response) :
  Auth.requireAdmin secret verify findById authHeader
  = (t, Auth.Responded r) ->
  (Http.status r = int 401 \/ Http.status r = int 500)
  /\ field (Http.json r) (lit "success") = VBool false
  /\ (Http.status r = int 500 -> exists err, In (Auth.LogError err) t)
  /\ ((forall header, authHeader = Some header ->
         starts_with header (lit "Bearer ") = false) ->
      t = [] /\ Http.status r = int 401).
Proof.
  unfold Auth.requireAdmin, Auth.failed, Auth.refuse.
  assert (L : forall (err : Auth.thrown) (l : list Auth.event),
             exists e, In (Auth.LogError e) (l ++ [Auth.LogError err])).
  { intros err l; exists err; apply in_or_app; right; left; reflexivity. }
  destruct authHeader as [[| c s] |].
  1, 3: intros H; injection H as <- <-;
    (split; [left; reflexivity |]);
    (split; [reflexivity |]);
    (split; [discriminate |]);
    intros _; split; reflexivity.
  destruct (starts_with (c :: s) (lit "Bearer ")) eqn:B;
    cbv beta match; simpl negb; cbv beta match.
  2: intros H; injection H as <- <-;
    (split; [left; reflexivity |]);
    (split; [reflexivity |]);
    (split; [discriminate |]);
    intros _; split; reflexivity.
  assert (W : (forall header, Some (c :: s) = Some header ->
                              starts_with header (lit "Bearer ") = false) ->
              False).
  { intros W; rewrite (W _ eq_refl) in B; discriminate B. }
  destruct (nth_error (split_on 32 (c :: s)) 1) as [[| x token] |];
    [| destruct (verify (x :: token) secret) as [decoded | jwtError];
       [ destruct (get decoded (lit "adminId")) as [adminId | e];
         [ destruct (findById adminId) as [[admin |] | err];
           [ destruct (truthy (Auth.a_isActive admin)); [discriminate |] | |]
         |]
       | destruct (get jwtError (lit "name")) as [name | e];
         [ destruct (value_is name (lit "TokenExpiredError")) |] ] |].
  all: intros H; injection H as <- <-.
  all: split;
    [ first [left; reflexivity | right; reflexivity]
    | split; [reflexivity
             | split; [ first [discriminate
                              | intros _; apply (L _ [_; _])
                              | intros _; apply (L _ [_])
                              | intros _; apply (L _ []) ]
                      | intros F; destruct (W F) ] ] ].
Qed.

Lemma requireAdmin_refuses_basic_credentials :
  exists r,
    Auth.requireAdmin (lit "s3cret") sample_verify sample_findById
      (Some (lit "Basic YWRtaW46YWRtaW4xMjM="))
    = ([], Auth.Responded r)
    /\ Http.status r = int 401.
Proof.
  destruct (Auth.requireAdmin (lit "s3cret") sample_verify sample_findById
              (Some (lit "Basic YWRtaW46YWRtaW4xMjM="))) as [t [info | r]]
    eqn:E; [vm_compute in E; discriminate E |].
  destruct (requireAdmin_refuses_with_401_or_500 _ _ _ _ _ _ E)
    as (_ & _ & _ & N).
  destruct N as [-> S].
  - intros header H; injection H as <-; reflexivity.
  - exists r; split; [reflexivity | exact S].
Defined.

(** X25: only the part of the header between the first and the second space
    is the token: what follows a second space is ignored. *)
Theorem requireAdmin_ignores_what_follows_the_token (secret : jsstring)
  (verify : jsstring -> jsstring -> value + value)
  (findById : value -> option Auth.Admin + value)
  (token rest : jsstring) :
  ~ In 32%N token ->
  Auth.requireAdmin secret verify findById
    (Some (lit "Bearer " ++ token ++ 32%N :: rest))
  = Auth.requireAdmin secret verify findById (Some (lit "Bearer " ++ token)).
Proof.
  intros H.
  assert (S : forall tail,
             starts_with (lit "Bearer " ++ tail) (lit "Bearer ") = true)
    by (intros tail; apply starts_with_iff; exists tail; reflexivity).
  pose proof (bearer_token token (32%N :: rest) H
                (or_intror (ex_intro _ rest eq_refl))) as A.
  pose proof (bearer_token token [] H (or_introl eq_refl)) as B.
  rewrite app_nil_r in B.
  unfold Auth.requireAdmin.
  change (lit "Bearer " ++ token ++ 32%N :: rest)
    with (66%N :: (lit "earer " ++ token ++ 32%N :: rest)) at 1.
  change (lit "Bearer " ++ token) with (66%N :: (lit "earer " ++ token)) at 1.
  cbv beta match.
  change (66%N :: (lit "earer " ++ token ++ 32%N :: rest))
    with (lit "Bearer " ++ token ++ 32%N :: rest).
  change (66%N :: (lit "earer " ++ token)) with (lit "Bearer " ++ token).
  rewrite !S, A, B; reflexivity.
Qed.

Lemma requireAdmin_ignores_a_trailing_word :
  Auth.requireAdmin (lit "s3cret") sample_verify sample_findById
    (Some (lit "Bearer good.token and more"))
  = Auth.requireAdmin (lit "s3cret") sample_verify sample_findById
      (Some (lit "Bearer good.token")).
Proof.
  apply (requireAdmin_ignores_what_follows_the_token (lit "s3cret")
           sample_verify sample_findById (lit "good.token") (lit "and more")).
  simpl; intuition discriminate.
Defined.

(** ** src/routes/adminRoutes.js *)

(** X26: what PATCH /api/admin/reports/:id sends to the database is never
    empty and has no member but status and adminNotes, each with the value
    of the body: a truthy status, an adminNotes that is not undefined.
    Other members of the body never reach the database. *)
Theorem patch_writes_only_status_and_notes (s : AdminRoutes.services)
  (stack : jsstring) (id : value) (admin : Auth.AdminInfo) (body : value)
  (i : value) (u : list (jsstring * value)) :
  In (AdminRoutes.FindByIdAndUpdate i u)
     (fst (AdminRoutes.patch s stack id admin body)) ->
  i = id
  /\ u <> []
  /\ forall k v,
       In (k, v) u ->
       (k = lit "status" /\ v = field body (lit "status")
        /\ truthy v = true)
       \/ (k = lit "adminNotes" /\ v = field body (lit "adminNotes")
           /\ v <> VUndefined).
Proof.
  unfold AdminRoutes.patch, AdminRoutes.build_update, field.
  destruct (get body (lit "status")) as [status | e] eqn:S;
    [| intros []].
  destruct (get body (lit "adminNotes")) as [notes | e] eqn:A;
    [| intros []].
  destruct (truthy status) eqn:T; destruct notes eqn:N; simpl;
    try (intros []);
    match goal with
    | |- context [AdminRoutes.findByIdAndUpdate s id ?u'] =>
        destruct (AdminRoutes.findByIdAndUpdate s id u') as [report | err] eqn:R;
        [destruct (truthy report) eqn:TR |]; simpl;
        intros H;
        (assert (E : AdminRoutes.FindByIdAndUpdate i u
                     = AdminRoutes.FindByIdAndUpdate id u')
          by intuition congruence);
        injection E as -> ->
    end;
    (split; [reflexivity |]); (split; [discriminate |]);
    intros k v K; simpl in K;
    repeat match type of K with
           | _ \/ _ => destruct K as [K | K]
           | False => destruct K
           end;
    injection K as <- <-;
    first [ left; repeat split; assumption
          | right; repeat split; discriminate ].
Qed.

Lemma patch_of_a_body_with_other_members :
  exists u,
    In (AdminRoutes.FindByIdAndUpdate (VString (lit "r1")) u)
       (fst (AdminRoutes.patch sample_services [] (VString (lit "r1"))
               sample_admin patch_body))
    /\ u = [(lit "status", VString (lit "resolved"))].
Proof.
  exists [(lit "status", VString (lit "resolved"))].
  assert (H : In (AdminRoutes.FindByIdAndUpdate (VString (lit "r1"))
                    [(lit "status", VString (lit "resolved"))])
                 (fst (AdminRoutes.patch sample_services []
                         (VString (lit "r1")) sample_admin patch_body)))
    by (vm_compute; left; reflexivity).
  split; [exact H |].
  destruct (patch_writes_only_status_and_notes _ _ _ _ _ _ _ H)
    as (_ & _ & _).
  reflexivity.
Defined.

(** X27: when the database finds no report for the id, the handler throws
    the error of createError(404), and the error handler answers it with
    status 404 and the message Report not found, after exactly one database
    call. *)
Theorem patch_of_unknown_report_is_404
  (toString : value -> completion jsstring) (config : Env.Config)
  (s : AdminRoutes.services) (stack : jsstring) (id : value)
  (admin : Auth.AdminInfo) (body : value) :
  nullish body = false ->
  truthy (field body (lit "status")) = true
  \/ field body (lit "adminNotes") <> VUndefined ->
  (forall u, exists report,
      AdminRoutes.findByIdAndUpdate s id u = inl report
      /\ truthy report = false) ->
  exists u err log r,
    AdminRoutes.patch s stack id admin body
    = ([AdminRoutes.FindByIdAndUpdate id u], AdminRoutes.Threw err)
    /\ ErrorHandler.errorHandler toString config err = (log, Return r)
    /\ Http.status r = int 404
    /\ field (Http.json r) (lit "success") = VBool false
    /\ field (Http.json r) (lit "message") = VString (lit "Report not found").
Proof.
  intros B U D.
  destruct (createError_answer toString config stack (lit "Report not found")
              (int 404) eq_refl) as (log & E); [discriminate |].
  unfold AdminRoutes.patch, AdminRoutes.build_update.
  unfold field in U.
  destruct (get body (lit "status")) as [status | e] eqn:S;
    [| destruct body; discriminate].
  destruct (get body (lit "adminNotes")) as [notes | e] eqn:A;
    [| destruct body; discriminate].
  destruct (truthy status) eqn:T; destruct notes eqn:N; simpl;
    try (destruct U as [U | U]; [discriminate U | destruct (U eq_refl)]);
    match goal with
    | |- context [AdminRoutes.findByIdAndUpdate s id ?u] =>
        destruct (D u) as (report & R & TR); rewrite R, TR; simpl;
        exists u; eexists; exists log; eexists;
        split; [reflexivity |]; split; [exact E |];
        destruct (Env.isDevelopment config); repeat split
    end.
Qed.

Lemma patch_of_unknown_report_r2 :
  exists u err log r,
    AdminRoutes.patch sample_services [] (VString (lit "r2")) sample_admin
      patch_body
    = ([AdminRoutes.FindByIdAndUpdate (VString (lit "r2")) u],
       AdminRoutes.Threw err)
    /\ ErrorHandler.errorHandler integer_text production_config err
       = (log, Return r)
    /\ Http.status r = int 404
    /\ field (Http.json r) (lit "success") = VBool false
    /\ field (Http.json r) (lit "message") = VString (lit "Report not found").
Proof.
  apply (patch_of_unknown_report_is_404 integer_text production_config
           sample_services []
           (VString (lit "r2")) sample_admin patch_body).
  - reflexivity.
  - left; reflexivity.
  - intros u; exists VNull; split; reflexivity.
Defined.



(** X29: a login that fails on the credentials does not tell why: an
    unknown or inactive username and a wrong password get the same 401
    response, and neither saves a document nor signs a token. *)
Theorem login_failure_does_not_tell_why
  (schema : value -> Validation.safe_parse AdminRoutes.Credentials)
  (s : AdminRoutes.services) (config : Env.Config) (body : value)
  (data : AdminRoutes.Credentials) :
  schema body = Validation.Parsed data ->
  AdminRoutes.findOne s (AdminRoutes.c_username data) = inl None
  \/ (exists admin,
        AdminRoutes.findOne s (AdminRoutes.c_username data)
        = inl (Some admin)
        /\ AdminRoutes.compare s admin (AdminRoutes.c_password data)
           = inl false) ->
  snd (AdminRoutes.login schema s config body)
  = AdminRoutes.Responded AdminRoutes.authentication_failed
  /\ forall ev,
       In ev (fst (AdminRoutes.login schema s config body)) ->
       match ev with
       | AdminRoutes.FindOne _ | AdminRoutes.Compare _ _ => True
       | _ => False
       end.
Proof.
  intros P H.
  unfold AdminRoutes.login, Validation.validate,
    AdminRoutes.findByCredentials.
  rewrite P.
  destruct H as [F | (admin & F & C)]; rewrite F; [| rewrite C]; simpl;
    (split; [reflexivity |]);
    intros ev K;
    repeat match type of K with
           | _ \/ _ => destruct K as [K | K]
           | False => destruct K
           end;
    subst ev; exact I.
Qed.

Lemma login_failures_of_the_sample :
  snd (AdminRoutes.login lenient_login sample_services production_config
         (login_body "nobody" "admin123"))
  = snd (AdminRoutes.login lenient_login sample_services production_config
           (login_body "admin" "guess")).
Proof.
  destruct (login_failure_does_not_tell_why lenient_login sample_services
              production_config (login_body "nobody" "admin123") _ eq_refl)
    as [-> _]; [left; reflexivity |].
  destruct (login_failure_does_not_tell_why lenient_login sample_services
              production_config (login_body "admin" "guess") _ eq_refl)
    as [-> _]; [right; eexists; split; reflexivity |].
  reflexivity.
Defined.

(** X30: the token of a successful login, sent back as Bearer and the
    token, passes requireAdmin as the admin that logged in, provided
    jwt.verify accepts what jwt.sign returned and decodes its adminId, the
    token is not empty and has no space, and the collection finds by id the
    active admin it found by username. *)
Theorem login_token_passes_requireAdmin
  (schema : value -> Validation.safe_parse AdminRoutes.Credentials)
  (s : AdminRoutes.services) (config : Env.Config) (body : value)
  (verify : jsstring -> jsstring -> value + value)
  (findById : value -> option Auth.Admin + value)
  (t : list AdminRoutes.event) (r : Http.response) (token : jsstring) :
  AdminRoutes.login schema s config body = (t, AdminRoutes.Responded r) ->
  field (Http.json r) (lit "token") = VString token ->
  token <> [] ->
  ~ In 32%N token ->
  (forall payload secret expiresIn signed,
      AdminRoutes.sign s payload secret expiresIn = inl signed ->
      exists decoded,
        verify signed secret = inl decoded
        /\ get decoded (lit "adminId") = get payload (lit "adminId")) ->
  (forall username admin,
      AdminRoutes.findOne s username = inl (Some admin) ->
      findById (Auth.a_id admin) = inl (Some admin)
      /\ truthy (Auth.a_isActive admin) = true) ->
  exists info,
    snd (Auth.requireAdmin (Env.jwtSecret config) verify findById
           (Some (lit "Bearer " ++ token)))
    = Auth.Next info
    /\ Auth.username info
       = field (field (Http.json r) (lit "admin")) (lit "username").
Proof.
  intros L K N W J D.
  assert (S : Http.status r = int 200).
  { revert L K.
    unfold AdminRoutes.login, AdminRoutes.authentication_failed.
    destruct (Validation.validate schema body) as [data | errors].
    2: intros H; injection H as <- <-; discriminate.
    destruct (AdminRoutes.findByCredentials s _ _) as [t0 [[admin |] | err]].
    2: intros H; injection H as <- <-; discriminate.
    2: discriminate.
    destruct (AdminRoutes.save s admin) as [[] | err]; [| discriminate].
    destruct (AdminRoutes.sign s _ _ _) as [tok | err]; [| discriminate].
    intros H; injection H as <- <-; reflexivity. }
  revert L K.
  unfold AdminRoutes.login, Validation.validate,
    AdminRoutes.findByCredentials, AdminRoutes.token_payload,
    AdminRoutes.authentication_failed.
  destruct (schema body) as [data | issues].
  2: intros H; injection H as <- <-; discriminate.
  destruct (AdminRoutes.findOne s (AdminRoutes.c_username data))
    as [[admin |] | err] eqn:F.
  2: intros H; injection H as <- <-; discriminate.
  2: discriminate.
  destruct (AdminRoutes.compare s admin (AdminRoutes.c_password data))
    as [[|] | err]; simpl negb; cbv beta match.
  2: intros H; injection H as <- <-; discriminate.
  2: discriminate.
  destruct (AdminRoutes.save s admin) as [[] | err]; [| discriminate].
  destruct (AdminRoutes.sign s _ (Env.jwtSecret config)
              (Env.jwtExpiresIn config)) as [signed | err] eqn:G;
    [| discriminate].
  intros H; injection H as <- <-.
  intros K; injection K as ->.
  destruct (J _ _ _ _ G) as (decoded & V & A).
  destruct (D _ _ F) as (B & T).
  pose proof (bearer_token token [] W (or_introl eq_refl)) as X.
  rewrite app_nil_r in X.
  assert (P : starts_with (lit "Bearer " ++ token) (lit "Bearer ") = true)
    by (apply starts_with_iff; exists token; reflexivity).
  exists {| Auth.id := Auth.a_id admin;
            Auth.username := Auth.a_username admin;
            Auth.displayName := Auth.a_displayName admin |}.
  split; [| reflexivity].
  unfold Auth.requireAdmin.
  change (lit "Bearer " ++ token) with (66%N :: (lit "earer " ++ token)) at 1.
  cbv beta match.
  change (66%N :: (lit "earer " ++ token)) with (lit "Bearer " ++ token).
  rewrite P, X; simpl negb; cbv beta match.
  destruct token as [| c token]; [contradiction |].
  rewrite V, A.
  change (get (VObject [(lit "adminId", Auth.a_id admin);
                        (lit "username", Auth.a_username admin)])
            (lit "adminId")) with (Return (Auth.a_id admin)).
  cbv beta match; rewrite B, T; reflexivity.
Qed.

Lemma login_token_of_the_sample_admin :
  exists info,
    snd (Auth.requireAdmin (Env.jwtSecret production_config) sample_verify
           sample_findById (Some (lit "Bearer good.token")))
    = Auth.Next info
    /\ Auth.username info = VString (lit "admin").
Proof.
  destruct (AdminRoutes.login lenient_login sample_services production_config
              (login_body "admin" "admin123")) as [t [r | err | e]] eqn:E;
    try (vm_compute in E; discriminate E).
  assert (K : field (Http.json r) (lit "token") = VString (lit "good.token"))
    by (vm_compute in E; injection E as _ <-; reflexivity).
  assert (U : field (field (Http.json r) (lit "admin")) (lit "username")
              = VString (lit "admin"))
    by (vm_compute in E; injection E as _ <-; reflexivity).
  destruct (login_token_passes_requireAdmin lenient_login sample_services
              production_config (login_body "admin" "admin123")
              sample_verify sample_findById t r (lit "good.token") E K)
    as (info & R & I).
  - discriminate.
  - simpl; intuition discriminate.
  - intros payload secret expiresIn signed H.
    unfold sample_services, AdminRoutes.sign in H.
    destruct (value_is (field payload (lit "adminId")) (lit "a1")) eqn:A;
      [| discriminate H].
    injection H as <-.
    exists (VObject [(lit "adminId", VString (lit "a1"))]).
    split; [reflexivity |].
    apply value_is_eq in A.
    destruct payload; try discriminate A; unfold field in A; simpl in A |- *;
      rewrite A; reflexivity.
  - intros username admin H.
    unfold sample_services, AdminRoutes.findOne in H.
    destruct (jsstring_eqb username (lit "admin")); [| discriminate H].
    vm_compute in H; injection H as <-; split; reflexivity.
  - exists info; split; [exact R | rewrite I; exact U].
Defined.
